(** * surfaces.js: the [Surface] class and the geometry pipeline it drives

    The repository holds two revisions of the [Surface] class:
    - the current one (imports [./util/compute] and [./util/generate-vis-data]),
      embedded below as [Module Surface];
    - [src/surfaces.js] (imports [./compute] and [./create-plane]), embedded
      below as [Module Surfaces].

    JavaScript numbers are idealised as real numbers: rounding and overflow
    are not modelled.  A sample returned by the user function may
    additionally be non-finite ([NaN], [Infinity]); such a number is [None]
    in the type [num], and arithmetic propagates it as IEEE arithmetic does.
    The two classes are embedded over real-valued settings; [Module Orient]
    embeds [orient] and the part of the constructor it depends on over
    [NaN], the infinities and [undefined] as well. *)

From Stdlib Require Import Reals Lra Lia String Ascii Bool ZArith List.
Import ListNotations.
Open Scope string_scope.
Open Scope list_scope.
Open Scope R_scope.

(* ================================================================== *)
(** ** JavaScript values and operators used by the sources *)

Module JS.

(** A number that may be non-finite: [None] stands for [NaN] and the two
    infinities, whose sums and products with anything are non-finite again. *)
Definition num : Type := option R.

Definition lift2 (f : R -> R -> R) (a b : num) : num :=
  match a, b with
  | Some x, Some y => Some (f x y)
  | _, _ => None
  end.

Definition nadd : num -> num -> num := lift2 Rplus.
Definition nsub : num -> num -> num := lift2 Rminus.
Definition nmul : num -> num -> num := lift2 Rmult.

(** Division: a finite numerator over zero is an infinity or [NaN]. *)
Definition ndiv (a b : num) : num :=
  match a, b with
  | Some x, Some y => if Req_dec_T y 0 then None else Some (x / y)
  | _, _ => None
  end.

(** [isFinite(x)] *)
Definition isFinite (a : num) : bool :=
  match a with Some _ => true | None => false end.

(** The values a user function can hand back: a number or an array. *)
#[warnings="-register-all"]
Inductive value : Type :=
| VNumber (x : num)
| VArray (l : list value).

(** [ToNumber]: what an arithmetic operator reads from a value.  An empty
    array reads as [0], a one-element array as its element, a longer one as
    [NaN]. *)
Fixpoint toNumber (v : value) : num :=
  match v with
  | VNumber x => x
  | VArray [] => Some 0
  | VArray [w] => toNumber w
  | VArray (_ :: _ :: _) => None
  end.

(** [a || b] where [a] is a number property that may be undefined: [0] and
    [undefined] are falsy. *)
Definition or_num (a : option R) (b : R) : R :=
  match a with
  | Some x => if Req_dec_T x 0 then b else x
  | None => b
  end.

(** [a || b] where [a] is an array property that may be undefined: every
    array is truthy. *)
Definition or_obj {A : Type} (a : option A) (b : A) : A :=
  match a with
  | Some x => x
  | None => b
  end.

(** [Math.max], [Math.min], [Math.PI], [Math.round] *)
Definition Math_max : R -> R -> R := Rmax.
Definition Math_min : R -> R -> R := Rmin.
Definition Math_PI : R := PI.
Definition Math_round (x : R) : R := IZR (Int_part (x + / 2)).

(** [String.prototype.toLowerCase] on ASCII text. *)
Definition lower_ascii (c : ascii) : ascii :=
  let n := nat_of_ascii c in
  if (andb (Nat.leb 65 n) (Nat.leb n 90)) then ascii_of_nat (n + 32) else c.

Fixpoint toLowerCase (s : string) : string :=
  match s with
  | EmptyString => EmptyString
  | String c s' => String (lower_ascii c) (toLowerCase s')
  end.

(** Exceptions the code can raise. *)
Inductive error : Type :=
| Error (message : string)
| InvalidConfig.

(** A call either returns or throws. *)
Inductive result (A : Type) : Type :=
| Return (a : A)
| Throw (e : error).

Arguments Return {A} a.
Arguments Throw {A} e.

Definition bind {A B : Type} (m : result A) (k : A -> result B) : result B :=
  match m with
  | Return a => k a
  | Throw e => Throw e
  end.

End JS.

Import JS.

Notation "x <- m ;; k" := (bind m (fun x => k))
  (at level 61, m at next level, right associativity).

(* ================================================================== *)
(** ** two-rotations: the rotation matrix builder *)

Module TwoRotations.

Record vec3 : Type := Vec3 { vx : R; vy : R; vz : R }.

(** A 3x3 matrix, by rows. *)
Record mat3 : Type := Mat3 { row0 : vec3; row1 : vec3; row2 : vec3 }.

Definition identity : mat3 :=
  Mat3 (Vec3 1 0 0) (Vec3 0 1 0) (Vec3 0 0 1).

Definition dot (u v : vec3) : R :=
  vx u * vx v + vy u * vy v + vz u * vz v.

(** Matrix-vector product. *)
Definition apply (m : mat3) (v : vec3) : vec3 :=
  Vec3 (dot (row0 m) v) (dot (row1 m) v) (dot (row2 m) v).

Definition col0 (m : mat3) : vec3 := Vec3 (vx (row0 m)) (vx (row1 m)) (vx (row2 m)).
Definition col1 (m : mat3) : vec3 := Vec3 (vy (row0 m)) (vy (row1 m)) (vy (row2 m)).
Definition col2 (m : mat3) : vec3 := Vec3 (vz (row0 m)) (vz (row1 m)) (vz (row2 m)).

Definition transpose (m : mat3) : mat3 := Mat3 (col0 m) (col1 m) (col2 m).

(** Matrix product [a . b]: [b] acts first. *)
Definition mmul (a b : mat3) : mat3 :=
  let row (r : vec3) := Vec3 (dot r (col0 b)) (dot r (col1 b)) (dot r (col2 b)) in
  Mat3 (row (row0 a)) (row (row1 a)) (row (row2 a)).

Definition det (m : mat3) : R :=
  let '(Mat3 (Vec3 a b c) (Vec3 d e f) (Vec3 g h i)) := m in
  a * (e * i - f * h) - b * (d * i - f * g) + c * (d * h - e * g).

(** Modelled from the spec: the rotation by [yaw] about the up axis, the
    axis of the sampled height (the third coordinate). *)
Definition yawRotation (yaw : R) : mat3 :=
  Mat3 (Vec3 (cos yaw) (- sin yaw) 0)
       (Vec3 (sin yaw) (cos yaw) 0)
       (Vec3 0 0 1).

(** Modelled from the spec: the rotation by [pitch] about the horizontal
    axis (the first coordinate). *)
Definition pitchRotation (pitch : R) : mat3 :=
  Mat3 (Vec3 1 0 0)
       (Vec3 0 (cos pitch) (- sin pitch))
       (Vec3 0 (sin pitch) (cos pitch)).

(** Modelled from the spec: [twoRotations.generateMatrix] of the package
    two-rotations, whose source is not part of the repository.  The spec
    (RotationMatrixBuilder) fixes the convention: yaw about the up axis
    first, pitch about the horizontal axis second; the builder does not
    clamp.  The entries are those of that composite, computed from the two
    sines and cosines. *)
Definition generateMatrix (yaw pitch : R) : mat3 :=
  let cosA := cos yaw in
  let sinA := sin yaw in
  let cosB := cos pitch in
  let sinB := sin pitch in
  Mat3 (Vec3 cosA (- sinA) 0)
       (Vec3 (cosB * sinA) (cosB * cosA) (- sinB))
       (Vec3 (sinB * sinA) (sinB * cosA) cosB).

End TwoRotations.

(* ================================================================== *)
(** ** util/compute: the domain sampler *)

Module Compute.

(** A time slice of the field, indexed [xIndex][yIndex], and the field,
    indexed [timeIndex][xIndex][yIndex]. *)
Definition Slice : Type := list (list num).
Definition ScalarField : Type := list Slice.

Record Options : Type := {
  fn : R -> R -> R -> value;
  from : R;
  to : R;
  resolution : R;
  xDomain : R * R;
  xResolution : R;
  yDomain : R * R;
  yResolution : R
}.

(** Modelled from the spec: the number of grid points of an axis is
    [floor((max - min) / resolution) + 1]. *)
Definition count (lo hi res : R) : nat :=
  Z.to_nat (Int_part ((hi - lo) / res) + 1).

(** Modelled from the spec: the grid points of an axis are [lo],
    [lo + res], ...; the last one may fall short of [hi]. *)
Definition samples (lo hi res : R) : list R :=
  map (fun k => lo + INR k * res) (seq 0 (count lo hi res)).

Definition sampleSlice (f : R -> R -> R -> value) (t : R) (xs ys : list R) : Slice :=
  map (fun x => map (fun y => toNumber (f t x y)) ys) xs.

Definition nonPositive (r : R) : bool :=
  if Rle_dec r 0 then true else false.

(** Modelled from the spec: [compute] of [./util/compute], which is not
    among the source files.  The spec (DomainSampler) has it evaluate
    [fn(t, x, y)] at every vertex of the product of the time samples and the
    x/y grid, in the order time, x, y, without caching, and fail with
    [InvalidConfig] on a resolution [<= 0] on any axis, time included.  A
    result of [fn] that is not a number is stored as the number arithmetic
    reads from it. *)
Definition compute (o : Options) : result ScalarField :=
  if nonPositive (resolution o) || nonPositive (xResolution o)
     || nonPositive (yResolution o)
  then Throw InvalidConfig
  else
    let ts := samples (from o) (to o) (resolution o) in
    let xs := samples (fst (xDomain o)) (snd (xDomain o)) (xResolution o) in
    let ys := samples (fst (yDomain o)) (snd (yDomain o)) (yResolution o) in
    Return (map (fun t => sampleSlice (fn o) t xs ys) ts).

End Compute.

(* ================================================================== *)
(** ** util/generate-vis-data: projector and quad assembler *)

Module GenerateVisData.

Import TwoRotations.

(** A projected point [[x, y]] in pixels. *)
Definition ProjectedPoint : Type := (num * num)%type.

(** The four corners of a grid cell, read by the renderers as
    [a.path.moveTo], [a.path.pointOne], [a.path.pointTwo],
    [a.path.pointThree]. *)
Record Path : Type := {
  moveTo : ProjectedPoint;
  pointOne : ProjectedPoint;
  pointTwo : ProjectedPoint;
  pointThree : ProjectedPoint
}.

(** One painted face: [a.path] and [a.avg]. *)
Record Quad : Type := {
  path : Path;
  avg : num
}.

Record Options : Type := {
  data : Compute.Slice;
  height : R;
  width : R;
  range : R * R;
  zScale : R;
  pitch : R;
  xScale : R;
  yScale : R;
  xResolution : R;
  yResolution : R;
  xDomain : R * R;
  yDomain : R * R;
  zoom : R;
  rotationMatrix : mat3
}.

(** [l.map((a, i) => f(i, a))] *)
Fixpoint mapi_from {A B : Type} (f : nat -> A -> B) (i : nat) (l : list A) : list B :=
  match l with
  | [] => []
  | a :: l' => f i a :: mapi_from f (S i) l'
  end.

Definition mapi {A B : Type} (f : nat -> A -> B) (l : list A) : list B :=
  mapi_from f 0 l.

(** Modelled from the spec: the Projector, steps 1 to 4: scale, rotate,
    drop the depth, move to the centre of the viewport with the vertical
    axis flipped.  A non-finite sample makes both coordinates non-finite. *)
Definition project (o : Options) (x y : R) (z : num) : ProjectedPoint :=
  let m := rotationMatrix o in
  let X := Some (x * xScale o) in
  let Y := Some (y * yScale o) in
  let Z := nmul z (Some (zScale o)) in
  let rotate (r : vec3) :=
    nadd (nadd (nmul (Some (vx r)) X) (nmul (Some (vy r)) Y)) (nmul (Some (vz r)) Z) in
  let x' := rotate (row0 m) in
  let y' := rotate (row1 m) in
  (nadd (Some (width o / 2)) (nmul (Some (zoom o)) x'),
   nsub (Some (height o / 2)) (nmul (Some (zoom o)) y')).

(** A grid vertex after projection: its point and its source sample. *)
Definition Vertex : Type := (ProjectedPoint * num)%type.

Definition xAt (o : Options) (i : nat) : R := fst (xDomain o) + INR i * xResolution o.
Definition yAt (o : Options) (j : nat) : R := fst (yDomain o) + INR j * yResolution o.

Definition projectGrid (o : Options) : list (list Vertex) :=
  mapi (fun i row => mapi (fun j z => (project o (xAt o i) (yAt o j) z, z)) row) (data o).

(** [grid[i][j]]; an index out of range reads [undefined], which is not a
    finite number. *)
Definition undefinedVertex : Vertex := ((None, None), None).

Definition vertexAt (g : list (list Vertex)) (i j : nat) : Vertex :=
  nth j (nth i g []) undefinedVertex.

Definition mean4 (a b c d : num) : num :=
  ndiv (nadd (nadd (nadd a b) c) d) (Some 4).

Definition quadAt (g : list (list Vertex)) (i j : nat) : Quad :=
  {| path := {| moveTo := fst (vertexAt g i j);
                pointOne := fst (vertexAt g (i + 1) j);
                pointTwo := fst (vertexAt g (i + 1) (j + 1));
                pointThree := fst (vertexAt g i (j + 1)) |};
     avg := mean4 (snd (vertexAt g i j)) (snd (vertexAt g (i + 1) j))
                  (snd (vertexAt g (i + 1) (j + 1))) (snd (vertexAt g i (j + 1))) |}.

(** Modelled from the spec: the QuadAssembler emits one quad per cell
    [(i, j)], [0 <= i < nx - 1], [0 <= j < ny - 1], row-major, without
    sorting. *)
Definition assembleQuads (g : list (list Vertex)) : list Quad :=
  let nx := length g in
  let ny := length (nth 0 g []) in
  flat_map (fun i => map (fun j => quadAt g i j) (seq 0 (ny - 1))) (seq 0 (nx - 1)).

(** Whether a point, and a quad, as the renderers receive them, have finite
    coordinates only. *)
Definition finitePoint (p : ProjectedPoint) : bool :=
  isFinite (fst p) && isFinite (snd p).

Definition finiteQuad (q : Quad) : bool :=
  finitePoint (moveTo (path q)) && finitePoint (pointOne (path q))
  && finitePoint (pointTwo (path q)) && finitePoint (pointThree (path q)).

(** Modelled from the spec: [generateVisData] of [./util/generate-vis-data],
    which is not among the source files.  The spec has the Projector map
    every grid vertex to the screen and the QuadAssembler tessellate the
    projected grid; the caller iterates over the result, which is therefore
    the sequence of the emitted quads.  A non-finite sample propagates into
    its point without correction; the policy of leaving such quads out and
    counting them is, by the spec's own account, not present in the legacy
    behaviour, and the caller receives nothing but the quads: every cell is
    emitted.  [range] and [pitch] are passed by the caller; the spec gives
    them no part in the geometry. *)
Definition generateVisData (o : Options) : list Quad :=
  assembleQuads (projectGrid o).

End GenerateVisData.

(* ================================================================== *)
(** ** The part of the DOM the class touches *)

Module DOM.

Record Element : Type := {
  nodeName : string;
  elWidth : option R;
  elHeight : option R
}.

Definition upper_ascii (c : ascii) : ascii :=
  let n := nat_of_ascii c in
  if (andb (Nat.leb 97 n) (Nat.leb n 122)) then ascii_of_nat (n - 32) else c.

Fixpoint toUpperCase (s : string) : string :=
  match s with
  | EmptyString => EmptyString
  | String c s' => String (upper_ascii c) (toUpperCase s')
  end.

(** [document.createElement(tagName)]: an HTML element reports its name in
    upper case. *)
Definition createElement (tagName : string) : Element :=
  {| nodeName := toUpperCase tagName; elWidth := None; elHeight := None |}.

(** [document.createElementNS(ns, tagName)]: the name is kept as given. *)
Definition createElementNS (ns tagName : string) : Element :=
  {| nodeName := tagName; elWidth := None; elHeight := None |}.

(** Whether [el.getContext('2d')] yields a drawing context: only a canvas
    has one; on any other element the call is a [TypeError].  An element is
    taken to be an HTML canvas exactly when its name is ['canvas'] in some
    letter case. *)
Definition isCanvasElement (e : Element) : bool :=
  String.eqb (toLowerCase (nodeName e)) "canvas".

(** Calls made on a 2D canvas context. *)
Inductive CanvasCall : Type :=
| clearRect (x y : R) (w h : option R)
| beginPath
| fillStyle (colour : string)
| strokeStyle (colour : string)
| ctxMoveTo (x y : num)
| lineTo (x y : num)
| stroke
| fill.

(** A [path] child appended to an SVG element, with its attributes. *)
Record SvgPath : Type := {
  d : GenerateVisData.Path;
  fillAttr : string
}.

(** What a render leaves behind: the calls made on the canvas context, or
    the children of the SVG element. *)
Inductive Rendering : Type :=
| Canvas (calls : list CanvasCall)
| Svg (children : list SvgPath).

End DOM.

(** [_.defaults]: the option when it is defined, the default otherwise. *)
Definition defaultTo {A : Type} (o : option A) (dflt : A) : A :=
  match o with
  | Some a => a
  | None => dflt
  end.

Definition roundNum (a : num) : num := option_map Math_round a.

Definition unsupportedElement : error :=
  Error "The element must be a canvas or svg.".

Definition typeError : error := Error "TypeError".

(* ================================================================== *)
(** ** The current [Surface] class *)

Module Surface.

Import TwoRotations DOM.

(** [Surface.surfaceOptions]: what a caller may pass; every entry may be
    left out. *)
Record Options : Type := {
  o_tagName : option string;
  o_fn : option (R -> R -> R -> value);
  o_el : option Element;
  o_width : option R;
  o_height : option R;
  o_colorFn : option (num -> string);
  o_strokeColorFn : option (num -> string);
  o_zoom : option R;
  o_yaw : option R;
  o_pitch : option R;
  o_xyDomain : option (R * R);
  o_xyResolution : option R;
  o_xyScale : option R;
  o_yDomain : option (R * R);
  o_yResolution : option R;
  o_yScale : option R;
  o_xDomain : option (R * R);
  o_xResolution : option R;
  o_xScale : option R;
  o_range : option (R * R);
  o_zScale : option R;
  o_maxPitch : option R
}.

(** [new Surface()] and [new Surface({})] *)
Definition noOptions : Options :=
  {| o_tagName := None; o_fn := None; o_el := None; o_width := None;
     o_height := None; o_colorFn := None; o_strokeColorFn := None;
     o_zoom := None; o_yaw := None; o_pitch := None; o_xyDomain := None;
     o_xyResolution := None; o_xyScale := None; o_yDomain := None;
     o_yResolution := None; o_yScale := None; o_xDomain := None;
     o_xResolution := None; o_xScale := None; o_range := None;
     o_zScale := None; o_maxPitch := None |}.

(** The instance.  The per-axis settings have no default and stay
    undefined unless passed; [el] and [_type] are undefined until the
    constructor has run [_ensureElement] and [_setType]. *)
Record Surface : Type := mkSurface {
  tagName : string;
  width : R;
  height : R;
  zoom : R;
  yaw : R;
  pitch : R;
  maxPitch : R;
  colorFn : num -> string;
  strokeColorFn : num -> string;
  fn : R -> R -> R -> value;
  xyDomain : R * R;
  xyResolution : R;
  xyScale : R;
  range : R * R;
  zScale : R;
  el : option Element;
  xDomain : option (R * R);
  xResolution : option R;
  xScale : option R;
  yDomain : option (R * R);
  yResolution : option R;
  yScale : option R;
  _rotationMatrix : mat3;
  _type : option string
}.

(** [static spacetimeOrigin() { return [[[0]]]; }] *)
Definition spacetimeOrigin : R -> R -> R -> value :=
  fun _ _ _ => VArray [VArray [VArray [VNumber (Some 0)]]].

Definition set_yaw (this : Surface) (v : R) : Surface :=
  let '(mkSurface a1 a2 a3 a4 _ a6 a7 a8 a9 a10 a11 a12 a13 a14 a15 a16 a17
                  a18 a19 a20 a21 a22 a23 a24) := this in
  mkSurface a1 a2 a3 a4 v a6 a7 a8 a9 a10 a11 a12 a13 a14 a15 a16 a17
            a18 a19 a20 a21 a22 a23 a24.

Definition set_pitch (this : Surface) (v : R) : Surface :=
  let '(mkSurface a1 a2 a3 a4 a5 _ a7 a8 a9 a10 a11 a12 a13 a14 a15 a16 a17
                  a18 a19 a20 a21 a22 a23 a24) := this in
  mkSurface a1 a2 a3 a4 a5 v a7 a8 a9 a10 a11 a12 a13 a14 a15 a16 a17
            a18 a19 a20 a21 a22 a23 a24.

Definition set_el (this : Surface) (v : option Element) : Surface :=
  let '(mkSurface a1 a2 a3 a4 a5 a6 a7 a8 a9 a10 a11 a12 a13 a14 a15 _ a17
                  a18 a19 a20 a21 a22 a23 a24) := this in
  mkSurface a1 a2 a3 a4 a5 a6 a7 a8 a9 a10 a11 a12 a13 a14 a15 v a17
            a18 a19 a20 a21 a22 a23 a24.

Definition set_rotationMatrix (this : Surface) (v : mat3) : Surface :=
  let '(mkSurface a1 a2 a3 a4 a5 a6 a7 a8 a9 a10 a11 a12 a13 a14 a15 a16 a17
                  a18 a19 a20 a21 a22 _ a24) := this in
  mkSurface a1 a2 a3 a4 a5 a6 a7 a8 a9 a10 a11 a12 a13 a14 a15 a16 a17
            a18 a19 a20 a21 a22 v a24.

Definition set_type (this : Surface) (v : option string) : Surface :=
  let '(mkSurface a1 a2 a3 a4 a5 a6 a7 a8 a9 a10 a11 a12 a13 a14 a15 a16 a17
                  a18 a19 a20 a21 a22 a23 _) := this in
  mkSurface a1 a2 a3 a4 a5 a6 a7 a8 a9 a10 a11 a12 a13 a14 a15 a16 a17
            a18 a19 a20 a21 a22 a23 v.

(** [_generateRotation] *)
Definition _generateRotation (this : Surface) : Surface :=
  set_rotationMatrix this (generateMatrix (yaw this) (pitch this)).

(** [const SVG_NS] *)
Definition SVG_NS : string := "http://www.w3.org/2000/svg".

(** [_createSvgElement] *)
Definition _createSvgElement (tagName : string) : Element :=
  createElementNS SVG_NS tagName.

(** [_createElement] *)
Definition _createElement (tagName : string) : result Element :=
  if String.eqb tagName "svg" then Return (_createSvgElement "svg")
  else if String.eqb tagName "canvas" then Return (createElement "canvas")
  else Throw unsupportedElement.

(** [_ensureElement].  A canvas is recorded with the width and height
    assigned to it; the conversion of the DOM to a whole number of pixels is
    not modelled. *)
Definition _ensureElement (this : Surface) : result Surface :=
  e <- match el this with
       | None => _createElement (tagName this)
       | Some e => Return e
       end ;;
  let e :=
    if String.eqb (toLowerCase (nodeName e)) "canvas"
    then {| nodeName := nodeName e;
            elWidth := Some (width this);
            elHeight := Some (height this) |}
    else e in
  Return (set_el this (Some e)).

(** [_setType] *)
Definition _setType (this : Surface) : result Surface :=
  match el this with
  | Some e => Return (set_type this (Some (toLowerCase (nodeName e))))
  | None => Throw typeError
  end.

(** The constructor.  [_.defaults(this, _.pick(options, ...), {...})] fills
    every property from the options or, failing that, from the default
    table; [this._rotationMatrix = []] is overwritten by
    [_generateRotation] before anything reads it. *)
Definition constructor (options : Options) : result Surface :=
  let this :=
    {| tagName := defaultTo (o_tagName options) "canvas";
       width := defaultTo (o_width options) 300;
       height := defaultTo (o_height options) 300;
       zoom := defaultTo (o_zoom options) 1;
       yaw := defaultTo (o_yaw options) 0.5;
       pitch := defaultTo (o_pitch options) 0.5;
       maxPitch := defaultTo (o_maxPitch options) (Math_PI / 2);
       colorFn := defaultTo (o_colorFn options) (fun _ => "#333");
       strokeColorFn :=
         defaultTo (o_strokeColorFn options) (fun _ => "rgba(0,0,0,0.4)");
       fn := defaultTo (o_fn options) spacetimeOrigin;
       xyDomain := defaultTo (o_xyDomain options) (-10, 10);
       xyResolution := defaultTo (o_xyResolution options) 1;
       xyScale := defaultTo (o_xyScale options) 300;
       range := defaultTo (o_range options) (-10, 10);
       zScale := defaultTo (o_zScale options) 1;
       el := o_el options;
       xDomain := o_xDomain options;
       xResolution := o_xResolution options;
       xScale := o_xScale options;
       yDomain := o_yDomain options;
       yResolution := o_yResolution options;
       yScale := o_yScale options;
       _rotationMatrix :=
         generateMatrix (defaultTo (o_yaw options) 0.5) (defaultTo (o_pitch options) 0.5);
       _type := None |} in
  let this := _generateRotation this in
  this <- _ensureElement this ;;
  _setType this.

(** The argument of [orient]: [yaw] and [pitch], either of which may be
    left out.  Here both are real numbers when present; [Module Orient]
    below embeds [orient] for a key that holds [NaN], an infinity or
    [undefined]. *)
Record Orientation : Type := {
  new_yaw : option R;
  new_pitch : option R
}.

(** [_.extend(this, _.pick(orientation, ['yaw', 'pitch']))] *)
Definition extend (this : Surface) (orientation : Orientation) : Surface :=
  let this := match new_yaw orientation with
              | Some v => set_yaw this v
              | None => this
              end in
  match new_pitch orientation with
  | Some v => set_pitch this v
  | None => this
  end.

(** [orient] *)
Definition orient (orientation : Orientation) (this : Surface) : Surface :=
  let this := extend this orientation in
  let this :=
    set_pitch this
      (Math_max (- maxPitch this) (Math_min (maxPitch this) (pitch this))) in
  _generateRotation this.

(** The argument of [_computeData]. *)
Record TimeRange : Type := {
  from : R;
  to : R;
  resolution : R
}.

(** [_computeData] *)
Definition _computeData (options : TimeRange) (this : Surface)
  : result Compute.ScalarField :=
  Compute.compute
    {| Compute.fn := fn this;
       Compute.from := from options;
       Compute.to := to options;
       Compute.resolution := resolution options;
       Compute.xDomain := or_obj (xDomain this) (xyDomain this);
       Compute.xResolution := or_num (xResolution this) (xyResolution this);
       Compute.yDomain := or_obj (yDomain this) (xyDomain this);
       Compute.yResolution := or_num (yResolution this) (xyResolution this) |}.

(** The argument [render] hands to [generateVisData]. *)
Definition visOptions (this : Surface) (data : Compute.Slice)
  : GenerateVisData.Options :=
  {| GenerateVisData.data := data;
     GenerateVisData.height := height this;
     GenerateVisData.width := width this;
     GenerateVisData.range := range this;
     GenerateVisData.zScale := zScale this;
     GenerateVisData.pitch := pitch this;
     GenerateVisData.xScale := or_num (xScale this) (xyScale this);
     GenerateVisData.yScale := or_num (yScale this) (xyScale this);
     GenerateVisData.xResolution := or_num (xResolution this) (xyResolution this);
     GenerateVisData.yResolution := or_num (yResolution this) (xyResolution this);
     GenerateVisData.xDomain := or_obj (xDomain this) (xyDomain this);
     GenerateVisData.yDomain := or_obj (yDomain this) (xyDomain this);
     GenerateVisData.zoom := zoom this;
     GenerateVisData.rotationMatrix := _rotationMatrix this |}.

(** The calls that draw one quad on the canvas. *)
Definition drawQuad (this : Surface) (a : GenerateVisData.Quad) : list CanvasCall :=
  let p := GenerateVisData.path a in
  let at0 (q : GenerateVisData.ProjectedPoint) := roundNum (fst q) in
  let at1 (q : GenerateVisData.ProjectedPoint) := roundNum (snd q) in
  [ beginPath;
    fillStyle (colorFn this (GenerateVisData.avg a));
    strokeStyle (strokeColorFn this (GenerateVisData.avg a));
    ctxMoveTo (at0 (GenerateVisData.moveTo p)) (at1 (GenerateVisData.moveTo p));
    lineTo (at0 (GenerateVisData.pointOne p)) (at1 (GenerateVisData.pointOne p));
    lineTo (at0 (GenerateVisData.pointTwo p)) (at1 (GenerateVisData.pointTwo p));
    lineTo (at0 (GenerateVisData.pointThree p)) (at1 (GenerateVisData.pointThree p));
    stroke;
    fill ].

(** [_clearCanvas] *)
Definition _clearCanvas (e : Element) : list CanvasCall :=
  [clearRect 0 0 (elWidth e) (elHeight e)].

(** [_renderCanvasSurface]: [this.el.getContext('2d')] first, then the
    canvas is cleared and every quad drawn, in the order given. *)
Definition _renderCanvasSurface (this : Surface) (visData : list GenerateVisData.Quad)
  : result Rendering :=
  match el this with
  | Some e =>
      if isCanvasElement e
      then Return (Canvas (_clearCanvas e ++ flat_map (drawQuad this) visData))
      else Throw typeError
  | None => Throw typeError
  end.

(** The [path] element [_renderSvgSurface] appends for one quad. *)
Definition svgPath (this : Surface) (a : GenerateVisData.Quad) : SvgPath :=
  {| d := GenerateVisData.path a;
     fillAttr := colorFn this (GenerateVisData.avg a) |}.

(** [_renderSvgSurface]: after [_clearSvg] the element holds one [path]
    per quad, in the order given. *)
Definition _renderSvgSurface (this : Surface) (visData : list GenerateVisData.Quad)
  : result Rendering :=
  match el this with
  | Some _ => Return (Svg (map (svgPath this) visData))
  | None => Throw typeError
  end.

(** The argument of [render]: [{t}], which may be left out. *)
Record RenderOptions : Type := {
  t : option R
}.

(** [this._type === 'canvas'] *)
Definition isCanvas (type : option string) : bool :=
  match type with
  | Some s => String.eqb s "canvas"
  | None => false
  end.

(** [render]: the surface it returns is the instance itself. *)
Definition render (options : RenderOptions) (this : Surface)
  : result (Surface * Rendering) :=
  let time := or_num (t options) 0 in
  field <- _computeData {| from := time; to := time; resolution := 1 |} this ;;
  data <- match field with
          | slice :: _ => Return slice
          | [] => Throw typeError
          end ;;
  let visData := GenerateVisData.generateVisData (visOptions this data) in
  painted <- (if isCanvas (_type this)
              then _renderCanvasSurface this visData
              else _renderSvgSurface this visData) ;;
  Return (this, painted).

End Surface.

(* ================================================================== *)
(** ** The [Surface] class of [src/surfaces.js] *)

Module Surfaces.

Import TwoRotations DOM.

(** [surfaceOptions] *)
Record Options : Type := {
  o_tagName : option string;
  o_fn : option (R -> R -> R -> value);
  o_el : option Element;
  o_width : option R;
  o_height : option R;
  o_colorFn : option (num -> string);
  o_zoom : option R;
  o_yaw : option R;
  o_pitch : option R;
  o_yInterval : option (R * R);
  o_xInterval : option (R * R);
  o_zInterval : option (R * R);
  o_currentFrame : option R;
  o_maxPitch : option R
}.

Definition noOptions : Options :=
  {| o_tagName := None; o_fn := None; o_el := None; o_width := None;
     o_height := None; o_colorFn := None; o_zoom := None; o_yaw := None;
     o_pitch := None; o_yInterval := None; o_xInterval := None;
     o_zInterval := None; o_currentFrame := None; o_maxPitch := None |}.

(** The argument of [compute]. *)
Module ComputeArgs.

Record Options : Type := {
  fn : R -> R -> R -> value;
  startTime : R;
  maxTime : R;
  xInterval : R * R;
  yInterval : R * R;
  spaceStep : R
}.

End ComputeArgs.

(** The argument of [createPlane], with [data] a time slice of whatever
    [compute] returns ([undefined] when there is none). *)
Module CreatePlaneArgs.

Record Options (Slice : Type) : Type := {
  data : option Slice;
  heightFn : value -> value;
  zoom : R;
  height : R;
  width : R;
  rotationMatrix : mat3
}.

Arguments data {Slice} _.
Arguments heightFn {Slice} _.
Arguments zoom {Slice} _.
Arguments height {Slice} _.
Arguments width {Slice} _.
Arguments rotationMatrix {Slice} _.

End CreatePlaneArgs.

Section Class.

(** [./compute] and [./create-plane] are not among the source files: the
    class is embedded over any two functions with the interfaces of its
    calls. *)
Variable Slice : Type.
Variable compute : ComputeArgs.Options -> result (list Slice).
Variable createPlane : CreatePlaneArgs.Options Slice -> result (list GenerateVisData.Quad).

Record Surface : Type := mkSurface {
  width : R;
  height : R;
  zoom : R;
  tagName : string;
  yaw : R;
  colorFn : num -> string;
  pitch : R;
  yInterval : R * R;
  xInterval : R * R;
  zInterval : R * R;
  currentFrame : R;
  fn : R -> R -> R -> value;
  maxPitch : R;
  el : option Element;
  _rotationMatrix : mat3;
  _type : option string;
  _cache : option (list Slice)
}.

(** [Surface.spacetimeOrigin] *)
Definition spacetimeOrigin : R -> R -> R -> value :=
  fun _ _ _ => VArray [VArray [VArray [VNumber (Some 0)]]].

Definition set_yaw (this : Surface) (v : R) : Surface :=
  let '(mkSurface a1 a2 a3 a4 _ a6 a7 a8 a9 a10 a11 a12 a13 a14 a15 a16 a17) := this in
  mkSurface a1 a2 a3 a4 v a6 a7 a8 a9 a10 a11 a12 a13 a14 a15 a16 a17.

Definition set_pitch (this : Surface) (v : R) : Surface :=
  let '(mkSurface a1 a2 a3 a4 a5 a6 _ a8 a9 a10 a11 a12 a13 a14 a15 a16 a17) := this in
  mkSurface a1 a2 a3 a4 a5 a6 v a8 a9 a10 a11 a12 a13 a14 a15 a16 a17.

Definition set_el (this : Surface) (v : option Element) : Surface :=
  let '(mkSurface a1 a2 a3 a4 a5 a6 a7 a8 a9 a10 a11 a12 a13 _ a15 a16 a17) := this in
  mkSurface a1 a2 a3 a4 a5 a6 a7 a8 a9 a10 a11 a12 a13 v a15 a16 a17.

Definition set_rotationMatrix (this : Surface) (v : mat3) : Surface :=
  let '(mkSurface a1 a2 a3 a4 a5 a6 a7 a8 a9 a10 a11 a12 a13 a14 _ a16 a17) := this in
  mkSurface a1 a2 a3 a4 a5 a6 a7 a8 a9 a10 a11 a12 a13 a14 v a16 a17.

Definition set_type (this : Surface) (v : option string) : Surface :=
  let '(mkSurface a1 a2 a3 a4 a5 a6 a7 a8 a9 a10 a11 a12 a13 a14 a15 _ a17) := this in
  mkSurface a1 a2 a3 a4 a5 a6 a7 a8 a9 a10 a11 a12 a13 a14 a15 v a17.

Definition set_cache (this : Surface) (v : option (list Slice)) : Surface :=
  let '(mkSurface a1 a2 a3 a4 a5 a6 a7 a8 a9 a10 a11 a12 a13 a14 a15 a16 _) := this in
  mkSurface a1 a2 a3 a4 a5 a6 a7 a8 a9 a10 a11 a12 a13 a14 a15 a16 v.

(** [_generateRotation] *)
Definition _generateRotation (this : Surface) : Surface :=
  set_rotationMatrix this (generateMatrix (yaw this) (pitch this)).

(** [_createElement] *)
Definition _createElement (tagName : string) : result Element :=
  if String.eqb tagName "svg"
  then Return (createElementNS "http://www.w3.org/2000/svg" "svg")
  else if String.eqb tagName "canvas" then Return (createElement "canvas")
  else Throw unsupportedElement.

(** [_ensureElement].  A canvas is recorded with the width and height
    assigned to it; the conversion of the DOM to a whole number of pixels is
    not modelled. *)
Definition _ensureElement (this : Surface) : result Surface :=
  e <- match el this with
       | None => _createElement (tagName this)
       | Some e => Return e
       end ;;
  let e :=
    if String.eqb (toLowerCase (nodeName e)) "canvas"
    then {| nodeName := nodeName e;
            elWidth := Some (width this);
            elHeight := Some (height this) |}
    else e in
  Return (set_el this (Some e)).

(** [_setType] *)
Definition _setType (this : Surface) : result Surface :=
  match el this with
  | Some e => Return (set_type this (Some (toLowerCase (nodeName e))))
  | None => Throw typeError
  end.

(** [initialize() {}]: the hook a subclass may override. *)
Definition initialize (this : Surface) : Surface := this.

(** The constructor; [this._rotationMatrix = []] is overwritten by
    [_generateRotation] before anything reads it, and [_cache] starts
    undefined. *)
Definition constructor (options : Options) : result Surface :=
  let this :=
    {| width := defaultTo (o_width options) 300;
       height := defaultTo (o_height options) 300;
       zoom := defaultTo (o_zoom options) 1;
       tagName := defaultTo (o_tagName options) "canvas";
       yaw := defaultTo (o_yaw options) 0.5;
       colorFn := defaultTo (o_colorFn options) (fun _ => "#333");
       pitch := defaultTo (o_pitch options) 0.5;
       yInterval := defaultTo (o_yInterval options) (-10, 10);
       xInterval := defaultTo (o_xInterval options) (-10, 10);
       zInterval := defaultTo (o_zInterval options) (0, 10);
       currentFrame := defaultTo (o_currentFrame options) 0;
       fn := defaultTo (o_fn options) spacetimeOrigin;
       maxPitch := defaultTo (o_maxPitch options) (Math_PI / 2);
       el := o_el options;
       _rotationMatrix :=
         generateMatrix (defaultTo (o_yaw options) 0.5) (defaultTo (o_pitch options) 0.5);
       _type := None;
       _cache := None |} in
  let this := _generateRotation this in
  this <- _ensureElement this ;;
  this <- _setType this ;;
  Return (initialize this).

(** [computeData] *)
Definition computeData (this : Surface) : result Surface :=
  cache <- compute {| ComputeArgs.fn := fn this;
                      ComputeArgs.startTime := currentFrame this;
                      ComputeArgs.maxTime := currentFrame this;
                      ComputeArgs.xInterval := xInterval this;
                      ComputeArgs.yInterval := yInterval this;
                      ComputeArgs.spaceStep := 1 |} ;;
  Return (set_cache this (Some cache)).

(** The argument of [orient]. *)
Record Orientation : Type := {
  new_yaw : option R;
  new_pitch : option R
}.

(** [_.extend(this, _.pick(orientation, ['yaw', 'pitch']))] *)
Definition extend (this : Surface) (orientation : Orientation) : Surface :=
  let this := match new_yaw orientation with
              | Some v => set_yaw this v
              | None => this
              end in
  match new_pitch orientation with
  | Some v => set_pitch this v
  | None => this
  end.

(** [orient] *)
Definition orient (orientation : Orientation) (this : Surface) : Surface :=
  let this := extend this orientation in
  let this :=
    set_pitch this
      (Math_max (- maxPitch this) (Math_min (maxPitch this) (pitch this))) in
  _generateRotation this.

(** The argument [render] hands to [createPlane]. *)
Definition planeOptions (this : Surface) (data : list Slice)
  : CreatePlaneArgs.Options Slice :=
  {| CreatePlaneArgs.data := nth_error data 0;
     CreatePlaneArgs.heightFn := fun d => d;
     CreatePlaneArgs.zoom := 1;
     CreatePlaneArgs.height := height this;
     CreatePlaneArgs.width := width this;
     CreatePlaneArgs.rotationMatrix := _rotationMatrix this |}.

(** The calls that draw one quad on the canvas. *)
Definition drawQuad (this : Surface) (a : GenerateVisData.Quad) : list CanvasCall :=
  let p := GenerateVisData.path a in
  let at0 (q : GenerateVisData.ProjectedPoint) := roundNum (fst q) in
  let at1 (q : GenerateVisData.ProjectedPoint) := roundNum (snd q) in
  [ beginPath;
    fillStyle (colorFn this (GenerateVisData.avg a));
    strokeStyle "rgba(0, 0, 0, 0.4)";
    ctxMoveTo (at0 (GenerateVisData.moveTo p)) (at1 (GenerateVisData.moveTo p));
    lineTo (at0 (GenerateVisData.pointOne p)) (at1 (GenerateVisData.pointOne p));
    lineTo (at0 (GenerateVisData.pointTwo p)) (at1 (GenerateVisData.pointTwo p));
    lineTo (at0 (GenerateVisData.pointThree p)) (at1 (GenerateVisData.pointThree p));
    stroke;
    fill ].

(** [_renderCanvasSurface]: [this.el.getContext('2d')] first, then the
    canvas is cleared and every quad drawn, in the order given. *)
Definition _renderCanvasSurface (this : Surface) (plane : list GenerateVisData.Quad)
  : result (list CanvasCall) :=
  match el this with
  | Some e =>
      if isCanvasElement e
      then Return (clearRect 0 0 (elWidth e) (elHeight e)
                   :: flat_map (drawQuad this) plane)
      else Throw typeError
  | None => Throw typeError
  end.

(** [render]: samples once, on the first call, and keeps the result in
    [_cache]; the surface it returns is the instance itself. *)
Definition render (this : Surface) : result (Surface * list CanvasCall) :=
  this <- match _cache this with
          | None => computeData this
          | Some _ => Return this
          end ;;
  let data := defaultTo (_cache this) [] in
  plane <- createPlane (planeOptions this data) ;;
  calls <- _renderCanvasSurface this plane ;;
  Return (this, calls).

End Class.

Arguments mkSurface {Slice}.
Arguments width {Slice} _.
Arguments height {Slice} _.
Arguments zoom {Slice} _.
Arguments tagName {Slice} _.
Arguments yaw {Slice} _.
Arguments colorFn {Slice} _.
Arguments pitch {Slice} _.
Arguments yInterval {Slice} _.
Arguments xInterval {Slice} _.
Arguments zInterval {Slice} _.
Arguments currentFrame {Slice} _.
Arguments fn {Slice} _.
Arguments maxPitch {Slice} _.
Arguments el {Slice} _.
Arguments _rotationMatrix {Slice} _.
Arguments _type {Slice} _.
Arguments _cache {Slice} _.
Arguments constructor {Slice} options.
Arguments orient {Slice} orientation this.
Arguments computeData {Slice} compute this.
Arguments planeOptions {Slice} this data.
Arguments render {Slice} compute createPlane this.

End Surfaces.

(* ================================================================== *)
(** ** Vocabulary of the statements, and sample configurations *)

Module Spec.

(** [r] is [x] clamped to the interval [[lo, hi]]: it lies in the interval,
    is [x] when [x] does, and is the nearer end otherwise. *)
Definition clampedTo (lo hi x r : R) : Prop :=
  lo <= r <= hi /\
  (x < lo -> r = lo) /\
  (hi < x -> r = hi) /\
  (lo <= x <= hi -> r = x).

(** [grid[i][j]] where it exists. *)
Definition gridAt {A : Type} (g : list (list A)) (i j : nat) : option A :=
  match nth_error g i with
  | Some row => nth_error row j
  | None => None
  end.

(** A grid of [nx] rows of [ny] entries each. *)
Definition rectangular {A : Type} (g : list (list A)) (nx ny : nat) : Prop :=
  length g = nx /\ Forall (fun row => length row = ny) g.

(** The sample at [(a, b)] is the only one of the slice that is not
    finite. *)
Definition onlyNonFiniteAt (slice : Compute.Slice) (a b : nat) : Prop :=
  forall (i j : nat) (z : num),
    gridAt slice i j = Some z -> (isFinite z = false <-> i = a /\ j = b).

(** Number of cells along an axis of [n] grid points that have the grid
    point [a] as an end: the cell before it and the cell after it, where
    they exist. *)
Definition cellsAlong (n a : nat) : nat :=
  (if (1 <=? a)%nat then 1 else 0) + (if (a + 1 <? n)%nat then 1 else 0).

(** Every sample of the slice is finite. *)
Definition allFinite (slice : Compute.Slice) : Prop :=
  forall (i j : nat) (z : num), gridAt slice i j = Some z -> isFinite z = true.

(** Options of [generateVisData] over a given slice, with the default
    viewport, scales and grid of the class and the matrix of the default
    angles. *)
Definition visOptionsOver (slice : Compute.Slice) : GenerateVisData.Options :=
  {| GenerateVisData.data := slice;
     GenerateVisData.height := 300;
     GenerateVisData.width := 300;
     GenerateVisData.range := (-10, 10);
     GenerateVisData.zScale := 1;
     GenerateVisData.pitch := 0.5;
     GenerateVisData.xScale := 300;
     GenerateVisData.yScale := 300;
     GenerateVisData.xResolution := 1;
     GenerateVisData.yResolution := 1;
     GenerateVisData.xDomain := (-1, 1);
     GenerateVisData.yDomain := (-1, 1);
     GenerateVisData.zoom := 1;
     GenerateVisData.rotationMatrix := TwoRotations.generateMatrix 0.5 0.5 |}.

(** A 3 x 3 slice of zeros, and the same slice with [NaN] at its centre and
    with [NaN] at a corner. *)
Definition flatSlice : Compute.Slice :=
  [ [Some 0; Some 0; Some 0]; [Some 0; Some 0; Some 0]; [Some 0; Some 0; Some 0] ].

Definition centreNaN : Compute.Slice :=
  [ [Some 0; Some 0; Some 0]; [Some 0; None; Some 0]; [Some 0; Some 0; Some 0] ].

Definition cornerNaN : Compute.Slice :=
  [ [None; Some 0; Some 0]; [Some 0; Some 0; Some 0]; [Some 0; Some 0; Some 0] ].

(** A grid of one cell whose corner samples are 1, 2, 3, 4 in the order
    [(0, 0)], [(1, 0)], [(1, 1)], [(0, 1)]. *)
Definition unitCell : list (list GenerateVisData.Vertex) :=
  [ [ ((Some 0, Some 0), Some 1); ((Some 0, Some 10), Some 4) ];
    [ ((Some 10, Some 0), Some 2); ((Some 10, Some 10), Some 3) ] ].

(** [new Surface({zoom: z})] for the class of [src/surfaces.js]. *)
Definition legacyWithZoom (z : R) : Surfaces.Options :=
  {| Surfaces.o_tagName := None; Surfaces.o_fn := None; Surfaces.o_el := None;
     Surfaces.o_width := None; Surfaces.o_height := None;
     Surfaces.o_colorFn := None; Surfaces.o_zoom := Some z;
     Surfaces.o_yaw := None; Surfaces.o_pitch := None;
     Surfaces.o_yInterval := None; Surfaces.o_xInterval := None;
     Surfaces.o_zInterval := None; Surfaces.o_currentFrame := None;
     Surfaces.o_maxPitch := None |}.

(** The instance [new Surface({zoom: z})] of [src/surfaces.js] builds. *)
Definition legacySurface (Slice : Type) (z : R) : Surfaces.Surface Slice :=
  {| Surfaces.width := 300;
     Surfaces.height := 300;
     Surfaces.zoom := z;
     Surfaces.tagName := "canvas";
     Surfaces.yaw := 0.5;
     Surfaces.colorFn := fun _ => "#333";
     Surfaces.pitch := 0.5;
     Surfaces.yInterval := (-10, 10);
     Surfaces.xInterval := (-10, 10);
     Surfaces.zInterval := (0, 10);
     Surfaces.currentFrame := 0;
     Surfaces.fn := Surfaces.spacetimeOrigin;
     Surfaces.maxPitch := Math_PI / 2;
     Surfaces.el :=
       Some {| DOM.nodeName := "CANVAS";
               DOM.elWidth := Some 300; DOM.elHeight := Some 300 |};
     Surfaces._rotationMatrix := TwoRotations.generateMatrix 0.5 0.5;
     Surfaces._type := Some "canvas";
     Surfaces._cache := None |}.

(** What a render has drawn, the instance it returns left aside. *)
Definition drawn {S C : Type} (r : result (S * C)) : result C :=
  match r with
  | Return (_, c) => Return c
  | Throw e => Throw e
  end.

(** [{}], [{pitch: p}] as arguments of [orient]. *)
Definition noOrientation : Surface.Orientation :=
  {| Surface.new_yaw := None; Surface.new_pitch := None |}.

Definition pitchOnly (p : R) : Surface.Orientation :=
  {| Surface.new_yaw := None; Surface.new_pitch := Some p |}.

(** [new Surface({pitch: p, maxPitch: m})] *)
Definition withPitch (p m : R) : Surface.Options :=
  {| Surface.o_tagName := None; Surface.o_fn := None; Surface.o_el := None;
     Surface.o_width := None; Surface.o_height := None;
     Surface.o_colorFn := None; Surface.o_strokeColorFn := None;
     Surface.o_zoom := None; Surface.o_yaw := None;
     Surface.o_pitch := Some p; Surface.o_xyDomain := None;
     Surface.o_xyResolution := None; Surface.o_xyScale := None;
     Surface.o_yDomain := None; Surface.o_yResolution := None;
     Surface.o_yScale := None; Surface.o_xDomain := None;
     Surface.o_xResolution := None; Surface.o_xScale := None;
     Surface.o_range := None; Surface.o_zScale := None;
     Surface.o_maxPitch := Some m |}.

(** [new Surface({tagName: tag})] *)
Definition withTagName (tag : string) : Surface.Options :=
  {| Surface.o_tagName := Some tag; Surface.o_fn := None; Surface.o_el := None;
     Surface.o_width := None; Surface.o_height := None;
     Surface.o_colorFn := None; Surface.o_strokeColorFn := None;
     Surface.o_zoom := None; Surface.o_yaw := None;
     Surface.o_pitch := None; Surface.o_xyDomain := None;
     Surface.o_xyResolution := None; Surface.o_xyScale := None;
     Surface.o_yDomain := None; Surface.o_yResolution := None;
     Surface.o_yScale := None; Surface.o_xDomain := None;
     Surface.o_xResolution := None; Surface.o_xScale := None;
     Surface.o_range := None; Surface.o_zScale := None;
     Surface.o_maxPitch := None |}.

(** [new Surface({tagName: tag, el: e})] *)
Definition withElement (tag : string) (e : DOM.Element) : Surface.Options :=
  {| Surface.o_tagName := Some tag; Surface.o_fn := None; Surface.o_el := Some e;
     Surface.o_width := None; Surface.o_height := None;
     Surface.o_colorFn := None; Surface.o_strokeColorFn := None;
     Surface.o_zoom := None; Surface.o_yaw := None;
     Surface.o_pitch := None; Surface.o_xyDomain := None;
     Surface.o_xyResolution := None; Surface.o_xyScale := None;
     Surface.o_yDomain := None; Surface.o_yResolution := None;
     Surface.o_yScale := None; Surface.o_xDomain := None;
     Surface.o_xResolution := None; Surface.o_xScale := None;
     Surface.o_range := None; Surface.o_zScale := None;
     Surface.o_maxPitch := None |}.

(** [new Surface({xyDomain: dom, xyResolution: res})] *)
Definition withGrid (dom : R * R) (res : R) : Surface.Options :=
  {| Surface.o_tagName := None; Surface.o_fn := None; Surface.o_el := None;
     Surface.o_width := None; Surface.o_height := None;
     Surface.o_colorFn := None; Surface.o_strokeColorFn := None;
     Surface.o_zoom := None; Surface.o_yaw := None;
     Surface.o_pitch := None; Surface.o_xyDomain := Some dom;
     Surface.o_xyResolution := Some res; Surface.o_xyScale := None;
     Surface.o_yDomain := None; Surface.o_yResolution := None;
     Surface.o_yScale := None; Surface.o_xDomain := None;
     Surface.o_xResolution := None; Surface.o_xScale := None;
     Surface.o_range := None; Surface.o_zScale := None;
     Surface.o_maxPitch := None |}.

(** The tag is one [_createElement] knows. *)
Definition supportedTag (tag : string) : Prop := tag = "svg" \/ tag = "canvas".

(** The canvas the constructor creates and sizes when no element is
    passed. *)
Definition sizedCanvas (w h : R) : DOM.Element :=
  {| DOM.nodeName := "CANVAS"; DOM.elWidth := Some w; DOM.elHeight := Some h |}.

(** The instance [new Surface({pitch: p, maxPitch: m})] builds. *)
Definition surfaceWithPitch (p m : R) : Surface.Surface :=
  {| Surface.tagName := "canvas";
     Surface.width := 300;
     Surface.height := 300;
     Surface.zoom := 1;
     Surface.yaw := 0.5;
     Surface.pitch := p;
     Surface.maxPitch := m;
     Surface.colorFn := fun _ => "#333";
     Surface.strokeColorFn := fun _ => "rgba(0,0,0,0.4)";
     Surface.fn := Surface.spacetimeOrigin;
     Surface.xyDomain := (-10, 10);
     Surface.xyResolution := 1;
     Surface.xyScale := 300;
     Surface.range := (-10, 10);
     Surface.zScale := 1;
     Surface.el := Some (sizedCanvas 300 300);
     Surface.xDomain := None;
     Surface.xResolution := None;
     Surface.xScale := None;
     Surface.yDomain := None;
     Surface.yResolution := None;
     Surface.yScale := None;
     Surface._rotationMatrix := TwoRotations.generateMatrix 0.5 p;
     Surface._type := Some "canvas" |}.

End Spec.

(* ================================================================== *)
(** ** Life of an instance: vocabulary for sequences of calls *)

Module Lifecycle.

(** The orientation that one call of [orient] must be given to do the work
    of two calls in a row: what the second call passes wins. *)
Definition merge (first second : Surface.Orientation) : Surface.Orientation :=
  {| Surface.new_yaw :=
       match Surface.new_yaw second with
       | Some y => Some y
       | None => Surface.new_yaw first
       end;
     Surface.new_pitch :=
       match Surface.new_pitch second with
       | Some p => Some p
       | None => Surface.new_pitch first
       end |}.

Definition mergeLegacy (first second : Surfaces.Orientation) : Surfaces.Orientation :=
  {| Surfaces.new_yaw :=
       match Surfaces.new_yaw second with
       | Some y => Some y
       | None => Surfaces.new_yaw first
       end;
     Surfaces.new_pitch :=
       match Surfaces.new_pitch second with
       | Some p => Some p
       | None => Surfaces.new_pitch first
       end |}.

(** The instances of the current class that a program can hold: the one a
    construction from [options] returns, and what [orient] and [render]
    return for an instance it can hold. *)
Inductive reachable (options : Surface.Options) : Surface.Surface -> Prop :=
| reach_new (s : Surface.Surface) :
    Surface.constructor options = Return s -> reachable options s
| reach_orient (o : Surface.Orientation) (s : Surface.Surface) :
    reachable options s -> reachable options (Surface.orient o s)
| reach_render (r : Surface.RenderOptions) (s s' : Surface.Surface)
               (painted : DOM.Rendering) :
    reachable options s -> Surface.render r s = Return (s', painted) ->
    reachable options s'.

(** What stays true of such an instance. *)
Record consistent (options : Surface.Options) (s : Surface.Surface) : Prop := {
  matrix_in_sync :
    Surface._rotationMatrix s =
    TwoRotations.generateMatrix (Surface.yaw s) (Surface.pitch s);
  element_kept :
    exists (s0 : Surface.Surface) (e : DOM.Element) (type : string),
      Surface.constructor options = Return s0 /\
      Surface.el s0 = Some e /\ Surface._type s0 = Some type /\
      Surface.el s = Surface.el s0 /\
      Surface._type s = Surface._type s0 /\
      Surface.tagName s = Surface.tagName s0;
  size_kept :
    Surface.width s = defaultTo (Surface.o_width options) 300 /\
    Surface.height s = defaultTo (Surface.o_height options) 300 /\
    Surface.zoom s = defaultTo (Surface.o_zoom options) 1 /\
    Surface.maxPitch s = defaultTo (Surface.o_maxPitch options) (Math_PI / 2);
  grid_kept :
    Surface.xyDomain s = defaultTo (Surface.o_xyDomain options) (-10, 10) /\
    Surface.xyResolution s = defaultTo (Surface.o_xyResolution options) 1 /\
    Surface.xyScale s = defaultTo (Surface.o_xyScale options) 300 /\
    Surface.zScale s = defaultTo (Surface.o_zScale options) 1 /\
    Surface.xDomain s = Surface.o_xDomain options /\
    Surface.yDomain s = Surface.o_yDomain options /\
    Surface.xResolution s = Surface.o_xResolution options /\
    Surface.yResolution s = Surface.o_yResolution options /\
    Surface.xScale s = Surface.o_xScale options /\
    Surface.yScale s = Surface.o_yScale options;
  fn_kept :
    Surface.fn s = defaultTo (Surface.o_fn options) Surface.spacetimeOrigin
}.

Section Legacy.

Variable Slice : Type.
Variable compute : Surfaces.ComputeArgs.Options -> result (list Slice).
Variable createPlane :
  Surfaces.CreatePlaneArgs.Options Slice -> result (list GenerateVisData.Quad).

(** The same for the class of [src/surfaces.js], whose [computeData] is
    public as well. *)
Inductive reachableLegacy (options : Surfaces.Options)
  : Surfaces.Surface Slice -> Prop :=
| legacy_new (s : Surfaces.Surface Slice) :
    Surfaces.constructor options = Return s -> reachableLegacy options s
| legacy_orient (o : Surfaces.Orientation) (s : Surfaces.Surface Slice) :
    reachableLegacy options s -> reachableLegacy options (Surfaces.orient o s)
| legacy_computeData (s s' : Surfaces.Surface Slice) :
    reachableLegacy options s -> Surfaces.computeData compute s = Return s' ->
    reachableLegacy options s'
| legacy_render (s s' : Surfaces.Surface Slice) (calls : list DOM.CanvasCall) :
    reachableLegacy options s ->
    Surfaces.render compute createPlane s = Return (s', calls) ->
    reachableLegacy options s'.

(** What [computeData] asks of [compute] for the instance [s]. *)
Definition argsOf (s : Surfaces.Surface Slice) : Surfaces.ComputeArgs.Options :=
  {| Surfaces.ComputeArgs.fn := Surfaces.fn s;
     Surfaces.ComputeArgs.startTime := Surfaces.currentFrame s;
     Surfaces.ComputeArgs.maxTime := Surfaces.currentFrame s;
     Surfaces.ComputeArgs.xInterval := Surfaces.xInterval s;
     Surfaces.ComputeArgs.yInterval := Surfaces.yInterval s;
     Surfaces.ComputeArgs.spaceStep := 1 |}.

(** What [computeData] asks of [compute] for an instance built from
    [options]. *)
Definition computeArgs (options : Surfaces.Options) : Surfaces.ComputeArgs.Options :=
  {| Surfaces.ComputeArgs.fn :=
       defaultTo (Surfaces.o_fn options) Surfaces.spacetimeOrigin;
     Surfaces.ComputeArgs.startTime := defaultTo (Surfaces.o_currentFrame options) 0;
     Surfaces.ComputeArgs.maxTime := defaultTo (Surfaces.o_currentFrame options) 0;
     Surfaces.ComputeArgs.xInterval :=
       defaultTo (Surfaces.o_xInterval options) (-10, 10);
     Surfaces.ComputeArgs.yInterval :=
       defaultTo (Surfaces.o_yInterval options) (-10, 10);
     Surfaces.ComputeArgs.spaceStep := 1 |}.

Record consistentLegacy (options : Surfaces.Options) (s : Surfaces.Surface Slice)
  : Prop := {
  legacy_matrix_in_sync :
    Surfaces._rotationMatrix s =
    TwoRotations.generateMatrix (Surfaces.yaw s) (Surfaces.pitch s);
  legacy_element_kept :
    exists (s0 : Surfaces.Surface Slice) (e : DOM.Element) (type : string),
      Surfaces.constructor options = Return s0 /\
      Surfaces.el s0 = Some e /\ Surfaces._type s0 = Some type /\
      Surfaces.el s = Surfaces.el s0 /\
      Surfaces._type s = Surfaces._type s0 /\
      Surfaces.tagName s = Surfaces.tagName s0;
  legacy_settings_kept :
    Surfaces.width s = defaultTo (Surfaces.o_width options) 300 /\
    Surfaces.height s = defaultTo (Surfaces.o_height options) 300 /\
    Surfaces.zoom s = defaultTo (Surfaces.o_zoom options) 1 /\
    Surfaces.maxPitch s = defaultTo (Surfaces.o_maxPitch options) (Math_PI / 2) /\
    Surfaces.fn s = defaultTo (Surfaces.o_fn options) Surfaces.spacetimeOrigin /\
    Surfaces.currentFrame s = defaultTo (Surfaces.o_currentFrame options) 0 /\
    Surfaces.xInterval s = defaultTo (Surfaces.o_xInterval options) (-10, 10) /\
    Surfaces.yInterval s = defaultTo (Surfaces.o_yInterval options) (-10, 10);
  legacy_cache_sampled :
    forall field : list Slice,
      Surfaces._cache s = Some field ->
      compute (computeArgs options) = Return field
}.

End Legacy.

Arguments argsOf {Slice} s.

(** [new Surface({tagName: tag})] for the class of [src/surfaces.js]. *)
Definition legacyWithTagName (tag : string) : Surfaces.Options :=
  {| Surfaces.o_tagName := Some tag; Surfaces.o_fn := None; Surfaces.o_el := None;
     Surfaces.o_width := None; Surfaces.o_height := None;
     Surfaces.o_colorFn := None; Surfaces.o_zoom := None;
     Surfaces.o_yaw := None; Surfaces.o_pitch := None;
     Surfaces.o_yInterval := None; Surfaces.o_xInterval := None;
     Surfaces.o_zInterval := None; Surfaces.o_currentFrame := None;
     Surfaces.o_maxPitch := None |}.

(** [new Surface({tagName: tag, el: e})] for the class of
    [src/surfaces.js]. *)
Definition legacyWithElement (tag : string) (e : DOM.Element) : Surfaces.Options :=
  {| Surfaces.o_tagName := Some tag; Surfaces.o_fn := None; Surfaces.o_el := Some e;
     Surfaces.o_width := None; Surfaces.o_height := None;
     Surfaces.o_colorFn := None; Surfaces.o_zoom := None;
     Surfaces.o_yaw := None; Surfaces.o_pitch := None;
     Surfaces.o_yInterval := None; Surfaces.o_xInterval := None;
     Surfaces.o_zInterval := None; Surfaces.o_currentFrame := None;
     Surfaces.o_maxPitch := None |}.

(** [new Surface({currentFrame: frame})] for the class of
    [src/surfaces.js]. *)
Definition legacyWithFrame (frame : R) : Surfaces.Options :=
  {| Surfaces.o_tagName := None; Surfaces.o_fn := None; Surfaces.o_el := None;
     Surfaces.o_width := None; Surfaces.o_height := None;
     Surfaces.o_colorFn := None; Surfaces.o_zoom := None;
     Surfaces.o_yaw := None; Surfaces.o_pitch := None;
     Surfaces.o_yInterval := None; Surfaces.o_xInterval := None;
     Surfaces.o_zInterval := None; Surfaces.o_currentFrame := Some frame;
     Surfaces.o_maxPitch := None |}.

(** The fill colours set by a sequence of canvas calls, in call order. *)
Definition fillStyles (calls : list DOM.CanvasCall) : list string :=
  flat_map (fun c => match c with
                     | DOM.fillStyle colour => [colour]
                     | _ => []
                     end) calls.

(** The points a sequence of canvas calls moves or draws to, in call
    order. *)
Definition pathPoints (calls : list DOM.CanvasCall) : list (num * num) :=
  flat_map (fun c => match c with
                     | DOM.ctxMoveTo x y => [(x, y)]
                     | DOM.lineTo x y => [(x, y)]
                     | _ => []
                     end) calls.

(** The four corners of a quad in drawing order. *)
Definition corners (a : GenerateVisData.Quad) : list GenerateVisData.ProjectedPoint :=
  let p := GenerateVisData.path a in
  [ GenerateVisData.moveTo p; GenerateVisData.pointOne p;
    GenerateVisData.pointTwo p; GenerateVisData.pointThree p ].

(** [r] is [x] snapped to the pixel grid: a whole number at most half a
    pixel away, the upper one at a tie; a non-finite [x] stays
    non-finite. *)
Definition snapped (x r : num) : Prop :=
  match x, r with
  | Some x, Some r => (exists z : Z, r = IZR z) /\ x - / 2 < r <= x + / 2
  | None, None => True
  | _, _ => False
  end.

Definition snappedPoint (p q : num * num) : Prop :=
  snapped (fst p) (fst q) /\ snapped (snd p) (snd q).

End Lifecycle.

(* ================================================================== *)
(** ** [orient] over every value a caller can pass

    [Surface.orient] and [Surfaces.orient] above take real numbers.  A caller
    can also pass, and an instance can hold, [NaN], an infinity or
    [undefined] as yaw, pitch or maxPitch.  The two revisions have the same
    body of [orient] and the same defaults for the three properties; this
    module embeds that code over all such values, on the four properties of
    the instance that [orient] reads or writes.  The other properties are
    left as they are ([_.pick] passes nothing but [yaw] and [pitch]). *)

Module Orient.

(** A JavaScript number: a real number (rounding and the sign of zero are
    not modelled), an infinity or [NaN]. *)
Inductive number : Type :=
| Fin (x : R)
| PosInf
| NegInf
| NaN.

(** What the properties [yaw], [pitch] and [maxPitch] hold: a number or
    [undefined]. *)
Inductive property : Type :=
| Undefined
| Num (n : number).

(** [ToNumber], which [Math.min], [Math.max], [Math.cos], [Math.sin] and
    the unary minus apply to their arguments. *)
Definition ToNumber (v : property) : number :=
  match v with
  | Undefined => NaN
  | Num n => n
  end.

(** Unary minus on a number. *)
Definition neg (n : number) : number :=
  match n with
  | Fin x => Fin (- x)
  | PosInf => NegInf
  | NegInf => PosInf
  | NaN => NaN
  end.

(** [Math.min(a, b)] and [Math.max(a, b)] on numbers: [NaN] when either
    argument is. *)
Definition min2 (a b : number) : number :=
  match a, b with
  | NaN, _ => NaN
  | _, NaN => NaN
  | NegInf, _ => NegInf
  | _, NegInf => NegInf
  | PosInf, n => n
  | n, PosInf => n
  | Fin x, Fin y => Fin (Rmin x y)
  end.

Definition max2 (a b : number) : number :=
  match a, b with
  | NaN, _ => NaN
  | _, NaN => NaN
  | PosInf, _ => PosInf
  | _, PosInf => PosInf
  | NegInf, n => n
  | n, NegInf => n
  | Fin x, Fin y => Fin (Rmax x y)
  end.

(** Modelled from the spec: [twoRotations.generateMatrix] on any two
    values.  The entries come from the sines and cosines of the two angles,
    which are [NaN] for an angle that is not a finite number; a matrix with
    such entries is [None] here. *)
Definition generateMatrix (yaw pitch : property) : option TwoRotations.mat3 :=
  match ToNumber yaw, ToNumber pitch with
  | Fin y, Fin p => Some (TwoRotations.generateMatrix y p)
  | _, _ => None
  end.

(** The properties of the instance that [orient] reads or writes. *)
Record This : Type := {
  yaw : property;
  pitch : property;
  maxPitch : property;
  _rotationMatrix : option TwoRotations.mat3
}.

(** The argument of [orient] after [_.pick(orientation, ['yaw', 'pitch'])]:
    a key is absent ([None], as both are when [orient] is called without an
    argument) or present with the value it holds, [undefined] included. *)
Record Argument : Type := {
  arg_yaw : option property;
  arg_pitch : option property
}.

(** [_.extend(this, _.pick(orientation, ['yaw', 'pitch']))]: every key
    present is copied, whatever it holds. *)
Definition extend (this : This) (orientation : Argument) : This :=
  {| yaw := match arg_yaw orientation with
            | Some v => v
            | None => yaw this
            end;
     pitch := match arg_pitch orientation with
              | Some v => v
              | None => pitch this
              end;
     maxPitch := maxPitch this;
     _rotationMatrix := _rotationMatrix this |}.

(** [_generateRotation] *)
Definition _generateRotation (this : This) : This :=
  {| yaw := yaw this;
     pitch := pitch this;
     maxPitch := maxPitch this;
     _rotationMatrix := generateMatrix (yaw this) (pitch this) |}.

(** [orient] *)
Definition orient (orientation : Argument) (this : This) : This :=
  let this := extend this orientation in
  let this :=
    {| yaw := yaw this;
       pitch := Num (max2 (neg (ToNumber (maxPitch this)))
                          (min2 (ToNumber (maxPitch this)) (ToNumber (pitch this))));
       maxPitch := maxPitch this;
       _rotationMatrix := _rotationMatrix this |} in
  _generateRotation this.

(** [_.defaults] on one property: the value passed unless the key is absent
    or holds [undefined]. *)
Definition defaults (passed : option property) (dflt : R) : property :=
  match passed with
  | Some (Num n) => Num n
  | Some Undefined => Num (Fin dflt)
  | None => Num (Fin dflt)
  end.

(** What the constructor stores in the four properties, given what the
    options hold under [yaw], [pitch] and [maxPitch]. *)
Definition constructor (o_yaw o_pitch o_maxPitch : option property) : This :=
  _generateRotation
    {| yaw := defaults o_yaw 0.5;
       pitch := defaults o_pitch 0.5;
       maxPitch := defaults o_maxPitch (Math_PI / 2);
       _rotationMatrix := None |}.

(** A real number as a property, and the instances and arguments of the two
    classes above as instances and arguments here. *)
Definition real (x : R) : property := Num (Fin x).

Definition ofSurface (s : Surface.Surface) : This :=
  {| yaw := real (Surface.yaw s);
     pitch := real (Surface.pitch s);
     maxPitch := real (Surface.maxPitch s);
     _rotationMatrix := Some (Surface._rotationMatrix s) |}.

Definition ofSurfaces {Slice : Type} (s : Surfaces.Surface Slice) : This :=
  {| yaw := real (Surfaces.yaw s);
     pitch := real (Surfaces.pitch s);
     maxPitch := real (Surfaces.maxPitch s);
     _rotationMatrix := Some (Surfaces._rotationMatrix s) |}.

Definition ofOrientation (o : Surface.Orientation) : Argument :=
  {| arg_yaw := option_map real (Surface.new_yaw o);
     arg_pitch := option_map real (Surface.new_pitch o) |}.

Definition ofOrientations (o : Surfaces.Orientation) : Argument :=
  {| arg_yaw := option_map real (Surfaces.new_yaw o);
     arg_pitch := option_map real (Surfaces.new_pitch o) |}.

(** The pitch [orient] clamps: the one passed when the key is present, the
    current one otherwise. *)
Definition requested (orientation : Argument) (this : This) : number :=
  ToNumber (defaultTo (arg_pitch orientation) (pitch this)).

(** [stored] is [requested] clamped to [[-m, m]]: an infinity goes to the
    end on its side. *)
Definition clampedTo (m : R) (requested stored : number) : Prop :=
  match requested, stored with
  | Fin x, Fin r => Spec.clampedTo (- m) m x r
  | PosInf, Fin r => r = m
  | NegInf, Fin r => r = - m
  | _, _ => False
  end.

(** [Math.abs(p) <= m] as JavaScript evaluates it: false when either side
    is [NaN]. *)
Definition withinBound (p m : number) : Prop :=
  match p, m with
  | Fin x, Fin b => Rabs x <= b
  | NaN, _ => False
  | _, NaN => False
  | _, PosInf => True
  | _, _ => False
  end.

(** [{pitch: v}] and [{}] as arguments of [orient]. *)
Definition pitchOnly (v : property) : Argument :=
  {| arg_yaw := None; arg_pitch := Some v |}.

Definition noArgument : Argument :=
  {| arg_yaw := None; arg_pitch := None |}.

End Orient.

(* ================================================================== *)
(** ** Properties of the rotation matrix builder *)

Section RotationFacts.

Import TwoRotations.

Lemma sin_cos_sq (a : R) : sin a * sin a + cos a * cos a = 1.
Proof. pose proof (sin2_cos2 a) as H. unfold Rsqr in H. exact H. Qed.

Lemma mat3_ext (a b c d e f g h i a' b' c' d' e' f' g' h' i' : R) :
  a = a' -> b = b' -> c = c' -> d = d' -> e = e' -> f = f' ->
  g = g' -> h = h' -> i = i' ->
  Mat3 (Vec3 a b c) (Vec3 d e f) (Vec3 g h i) =
  Mat3 (Vec3 a' b' c') (Vec3 d' e' f') (Vec3 g' h' i').
Proof. intros; subst; reflexivity. Qed.

Lemma generateMatrix_identity : generateMatrix 0 0 = identity.
Proof.
  unfold generateMatrix, identity. rewrite cos_0, sin_0.
  apply mat3_ext; ring.
Qed.

Lemma generateMatrix_composite (yaw pitch : R) :
  generateMatrix yaw pitch = mmul (pitchRotation pitch) (yawRotation yaw).
Proof.
  unfold generateMatrix, mmul, pitchRotation, yawRotation, dot, col0, col1, col2.
  cbn. apply mat3_ext; ring.
Qed.

Lemma generateMatrix_orthogonal (yaw pitch : R) :
  mmul (transpose (generateMatrix yaw pitch)) (generateMatrix yaw pitch) = identity.
Proof.
  pose proof (sin_cos_sq yaw) as Hy. pose proof (sin_cos_sq pitch) as Hp.
  unfold generateMatrix, mmul, transpose, identity, dot, col0, col1, col2. cbn.
  set (ca := cos yaw) in *. set (sa := sin yaw) in *.
  set (cb := cos pitch) in *. set (sb := sin pitch) in *.
  assert (H1 : sa * sa * (sb * sb + cb * cb) = sa * sa) by (rewrite Hp; ring).
  assert (H2 : sa * ca * (sb * sb + cb * cb) = sa * ca) by (rewrite Hp; ring).
  assert (H3 : ca * ca * (sb * sb + cb * cb) = ca * ca) by (rewrite Hp; ring).
  apply mat3_ext; nra.
Qed.

Lemma generateMatrix_det (yaw pitch : R) : det (generateMatrix yaw pitch) = 1.
Proof.
  pose proof (sin_cos_sq yaw) as Hy. pose proof (sin_cos_sq pitch) as Hp.
  unfold generateMatrix, det. cbn.
  set (ca := cos yaw) in *. set (sa := sin yaw) in *.
  set (cb := cos pitch) in *. set (sb := sin pitch) in *.
  replace (ca * (cb * ca * cb - - sb * (sb * ca)) -
           - sa * (cb * sa * cb - - sb * (sb * sa)) +
           0 * (cb * sa * (sb * ca) - cb * ca * (sb * sa)))
    with ((sa * sa + ca * ca) * (sb * sb + cb * cb)) by ring.
  rewrite Hy, Hp. ring.
Qed.

End RotationFacts.

Section RotationOrder.

Import TwoRotations.

Lemma generateMatrix_apply (yaw pitch : R) (v : vec3) :
  apply (generateMatrix yaw pitch) v =
  apply (pitchRotation pitch) (apply (yawRotation yaw) v).
Proof.
  destruct v as [x y z].
  unfold generateMatrix, apply, pitchRotation, yawRotation, dot. cbn.
  f_equal; ring.
Qed.

(** The yaw rotation turns about the up axis, the pitch rotation about the
    horizontal axis. *)
Lemma yawRotation_axis (yaw : R) :
  apply (yawRotation yaw) (Vec3 0 0 1) = Vec3 0 0 1.
Proof. unfold apply, yawRotation, dot. cbn. f_equal; ring. Qed.

Lemma pitchRotation_axis (pitch : R) :
  apply (pitchRotation pitch) (Vec3 1 0 0) = Vec3 1 0 0.
Proof. unfold apply, pitchRotation, dot. cbn. f_equal; ring. Qed.

(** The order of the two rotations matters. *)
Lemma rotations_do_not_commute :
  mmul (pitchRotation (PI / 2)) (yawRotation (PI / 2)) <>
  mmul (yawRotation (PI / 2)) (pitchRotation (PI / 2)).
Proof.
  unfold mmul, pitchRotation, yawRotation, dot, col0, col1, col2. cbn.
  rewrite cos_PI2, sin_PI2. intro H.
  injection H as H _. lra.
Qed.

End RotationOrder.

(** C4: the rotation-matrix builder returns the identity matrix at
    yaw = 0, pitch = 0, and for all yaw and pitch its matrix M is
    orthonormal (transpose(M) . M = I, det M = 1) and is the pitch rotation
    composed after the yaw rotation: applying M rotates about the up axis
    by yaw first and about the horizontal axis by pitch second. *)
Theorem generateMatrix_rotation :
  TwoRotations.generateMatrix 0 0 = TwoRotations.identity /\
  forall yaw pitch : R,
    let M := TwoRotations.generateMatrix yaw pitch in
    TwoRotations.mmul (TwoRotations.transpose M) M = TwoRotations.identity /\
    TwoRotations.det M = 1 /\
    M = TwoRotations.mmul (TwoRotations.pitchRotation pitch)
                          (TwoRotations.yawRotation yaw) /\
    forall v : TwoRotations.vec3,
      TwoRotations.apply M v =
      TwoRotations.apply (TwoRotations.pitchRotation pitch)
                         (TwoRotations.apply (TwoRotations.yawRotation yaw) v).
Proof.
  split.
  - exact generateMatrix_identity.
  - intros yaw pitch M. subst M. repeat split.
    + apply generateMatrix_orthogonal.
    + apply generateMatrix_det.
    + apply generateMatrix_composite.
    + apply generateMatrix_apply.
Qed.

(* ================================================================== *)
(** ** [orient]: the pitch clamp *)

Section OrientFacts.

Import Spec.

Lemma clamp_formula (m x : R) :
  0 <= m -> clampedTo (- m) m x (Math_max (- m) (Math_min m x)).
Proof.
  intros Hm. unfold clampedTo, Math_max, Math_min, Rmax, Rmin.
  destruct (Rle_dec m x) as [H1 | H1];
    [ destruct (Rle_dec (- m) m) as [H2 | H2]
    | destruct (Rle_dec (- m) x) as [H2 | H2] ];
    repeat split; intros; lra.
Qed.

Lemma clamp_negative_bound (m x : R) :
  m < 0 -> Math_max (- m) (Math_min m x) = - m.
Proof.
  intros Hm. unfold Math_max, Math_min, Rmax, Rmin.
  destruct (Rle_dec m x) as [H1 | H1];
    [ destruct (Rle_dec (- m) m) as [H2 | H2]
    | destruct (Rle_dec (- m) x) as [H2 | H2] ]; lra.
Qed.

Lemma PI2_below_10 : PI / 2 < 10.
Proof. pose proof PI_4. lra. Qed.

Lemma clamp_10_PI2 : Math_max (- (PI / 2)) (Math_min (PI / 2) 10) = PI / 2.
Proof.
  pose proof PI2_below_10 as H. pose proof PI_RGT_0 as H0.
  destruct (clamp_formula (PI / 2) 10) as (_ & _ & Hhi & _); [lra |].
  apply Hhi. exact H.
Qed.

Lemma orient_pitch (o : Surface.Orientation) (s : Surface.Surface) :
  Surface.pitch (Surface.orient o s) =
  Math_max (- Surface.maxPitch s)
           (Math_min (Surface.maxPitch s)
                     (defaultTo (Surface.new_pitch o) (Surface.pitch s))).
Proof. destruct s, o as [[y |] [p |]]; reflexivity. Qed.

Lemma orient_yaw (o : Surface.Orientation) (s : Surface.Surface) :
  Surface.yaw (Surface.orient o s) = defaultTo (Surface.new_yaw o) (Surface.yaw s).
Proof. destruct s, o as [[y |] [p |]]; reflexivity. Qed.

Lemma orient_maxPitch (o : Surface.Orientation) (s : Surface.Surface) :
  Surface.maxPitch (Surface.orient o s) = Surface.maxPitch s.
Proof. destruct s, o as [[y |] [p |]]; reflexivity. Qed.

Lemma orient_rotation (o : Surface.Orientation) (s : Surface.Surface) :
  Surface._rotationMatrix (Surface.orient o s) =
  TwoRotations.generateMatrix (Surface.yaw (Surface.orient o s))
                              (Surface.pitch (Surface.orient o s)).
Proof. destruct s, o as [[y |] [p |]]; reflexivity. Qed.

Context {Slice : Type}.

Lemma orient_pitch_legacy (o : Surfaces.Orientation) (s : Surfaces.Surface Slice) :
  Surfaces.pitch (Surfaces.orient o s) =
  Math_max (- Surfaces.maxPitch s)
           (Math_min (Surfaces.maxPitch s)
                     (defaultTo (Surfaces.new_pitch o) (Surfaces.pitch s))).
Proof. destruct s, o as [[y |] [p |]]; reflexivity. Qed.

Lemma orient_yaw_legacy (o : Surfaces.Orientation) (s : Surfaces.Surface Slice) :
  Surfaces.yaw (Surfaces.orient o s) = defaultTo (Surfaces.new_yaw o) (Surfaces.yaw s).
Proof. destruct s, o as [[y |] [p |]]; reflexivity. Qed.

Lemma orient_maxPitch_legacy (o : Surfaces.Orientation) (s : Surfaces.Surface Slice) :
  Surfaces.maxPitch (Surfaces.orient o s) = Surfaces.maxPitch s.
Proof. destruct s, o as [[y |] [p |]]; reflexivity. Qed.

Lemma orient_rotation_legacy (o : Surfaces.Orientation) (s : Surfaces.Surface Slice) :
  Surfaces._rotationMatrix (Surfaces.orient o s) =
  TwoRotations.generateMatrix (Surfaces.yaw (Surfaces.orient o s))
                              (Surfaces.pitch (Surfaces.orient o s)).
Proof. destruct s, o as [[y |] [p |]]; reflexivity. Qed.

End OrientFacts.

(* ================================================================== *)
(** ** The constructors *)

Section ConstructorFacts.

Import Spec.

(** Picks the element stored in the instance on the left as the witness. *)
Ltac created_element :=
  match goal with
  | |- exists _, Surface.mkSurface _ _ _ _ _ _ _ _ _ _ _ _ _ _ _ (Some ?x)
                                   _ _ _ _ _ _ _ _ = _ =>
      exists x; reflexivity
  end.

(** The instance a successful construction returns: every property comes
    from the options or the default table as passed, and the element is the
    one passed or the one created. *)
Lemma constructor_Return (options : Surface.Options) (s : Surface.Surface) :
  Surface.constructor options = Return s ->
  exists e : DOM.Element,
    s = {| Surface.tagName := defaultTo (Surface.o_tagName options) "canvas";
           Surface.width := defaultTo (Surface.o_width options) 300;
           Surface.height := defaultTo (Surface.o_height options) 300;
           Surface.zoom := defaultTo (Surface.o_zoom options) 1;
           Surface.yaw := defaultTo (Surface.o_yaw options) 0.5;
           Surface.pitch := defaultTo (Surface.o_pitch options) 0.5;
           Surface.maxPitch := defaultTo (Surface.o_maxPitch options) (Math_PI / 2);
           Surface.colorFn := defaultTo (Surface.o_colorFn options) (fun _ => "#333");
           Surface.strokeColorFn :=
             defaultTo (Surface.o_strokeColorFn options) (fun _ => "rgba(0,0,0,0.4)");
           Surface.fn := defaultTo (Surface.o_fn options) Surface.spacetimeOrigin;
           Surface.xyDomain := defaultTo (Surface.o_xyDomain options) (-10, 10);
           Surface.xyResolution := defaultTo (Surface.o_xyResolution options) 1;
           Surface.xyScale := defaultTo (Surface.o_xyScale options) 300;
           Surface.range := defaultTo (Surface.o_range options) (-10, 10);
           Surface.zScale := defaultTo (Surface.o_zScale options) 1;
           Surface.el := Some e;
           Surface.xDomain := Surface.o_xDomain options;
           Surface.xResolution := Surface.o_xResolution options;
           Surface.xScale := Surface.o_xScale options;
           Surface.yDomain := Surface.o_yDomain options;
           Surface.yResolution := Surface.o_yResolution options;
           Surface.yScale := Surface.o_yScale options;
           Surface._rotationMatrix :=
             TwoRotations.generateMatrix (defaultTo (Surface.o_yaw options) 0.5)
                                         (defaultTo (Surface.o_pitch options) 0.5);
           Surface._type := Some (toLowerCase (DOM.nodeName e)) |}.
Proof.
  unfold Surface.constructor, Surface._ensureElement, Surface._generateRotation,
    Surface._setType, bind.
  cbn.
  destruct (Surface.o_el options) as [e |].
  - destruct (String.eqb (toLowerCase (DOM.nodeName e)) "canvas") eqn:He; cbn;
      intros H; injection H as <-; created_element.
  - unfold Surface._createElement.
    destruct (String.eqb (defaultTo (Surface.o_tagName options) "canvas") "svg");
      [| destruct (String.eqb (defaultTo (Surface.o_tagName options) "canvas") "canvas") ];
      cbn; intros H; try discriminate H; injection H as <-; created_element.
Qed.

Lemma constructor_withPitch (p m : R) :
  Surface.constructor (withPitch p m) = Return (surfaceWithPitch p m).
Proof. reflexivity. Qed.

Context {Slice : Type}.

Ltac created_element_legacy :=
  match goal with
  | |- exists _, Surfaces.mkSurface _ _ _ _ _ _ _ _ _ _ _ _ _ (Some ?x) _ _ _ = _ =>
      exists x; reflexivity
  end.

Lemma constructor_Return_legacy
  (options : Surfaces.Options) (s : Surfaces.Surface Slice) :
  Surfaces.constructor options = Return s ->
  exists e : DOM.Element,
    s = {| Surfaces.width := defaultTo (Surfaces.o_width options) 300;
           Surfaces.height := defaultTo (Surfaces.o_height options) 300;
           Surfaces.zoom := defaultTo (Surfaces.o_zoom options) 1;
           Surfaces.tagName := defaultTo (Surfaces.o_tagName options) "canvas";
           Surfaces.yaw := defaultTo (Surfaces.o_yaw options) 0.5;
           Surfaces.colorFn := defaultTo (Surfaces.o_colorFn options) (fun _ => "#333");
           Surfaces.pitch := defaultTo (Surfaces.o_pitch options) 0.5;
           Surfaces.yInterval := defaultTo (Surfaces.o_yInterval options) (-10, 10);
           Surfaces.xInterval := defaultTo (Surfaces.o_xInterval options) (-10, 10);
           Surfaces.zInterval := defaultTo (Surfaces.o_zInterval options) (0, 10);
           Surfaces.currentFrame := defaultTo (Surfaces.o_currentFrame options) 0;
           Surfaces.fn := defaultTo (Surfaces.o_fn options) Surfaces.spacetimeOrigin;
           Surfaces.maxPitch := defaultTo (Surfaces.o_maxPitch options) (Math_PI / 2);
           Surfaces.el := Some e;
           Surfaces._rotationMatrix :=
             TwoRotations.generateMatrix (defaultTo (Surfaces.o_yaw options) 0.5)
                                         (defaultTo (Surfaces.o_pitch options) 0.5);
           Surfaces._type := Some (toLowerCase (DOM.nodeName e));
           Surfaces._cache := None |}.
Proof.
  unfold Surfaces.constructor, Surfaces._ensureElement, Surfaces._generateRotation,
    Surfaces._setType, Surfaces.initialize, bind.
  cbn.
  destruct (Surfaces.o_el options) as [e |].
  - destruct (String.eqb (toLowerCase (DOM.nodeName e)) "canvas") eqn:He; cbn;
      intros H; injection H as <-; created_element_legacy.
  - unfold Surfaces._createElement.
    destruct (String.eqb (defaultTo (Surfaces.o_tagName options) "canvas") "svg");
      [| destruct (String.eqb (defaultTo (Surfaces.o_tagName options) "canvas") "canvas") ];
      cbn; intros H; try discriminate H; injection H as <-; created_element_legacy.
Qed.

End ConstructorFacts.

(* ================================================================== *)
(** ** Claims about [orient] and the stored pitch *)

Section OrientValues.

Import Orient.

(** What [orient] stores as pitch for a bound and a requested pitch. *)
Lemma orient_pitch_value (arg : Argument) (this : This) :
  pitch (orient arg this) =
  Num (max2 (neg (ToNumber (maxPitch this)))
            (min2 (ToNumber (maxPitch this)) (requested arg this))).
Proof. destruct arg as [y [p |]]; reflexivity. Qed.

Lemma orient_yaw_value (arg : Argument) (this : This) :
  yaw (orient arg this) = defaultTo (arg_yaw arg) (yaw this).
Proof. destruct arg as [[y |] p]; reflexivity. Qed.

Lemma orient_maxPitch_value (arg : Argument) (this : This) :
  maxPitch (orient arg this) = maxPitch this.
Proof. reflexivity. Qed.

Lemma orient_rotation_value (arg : Argument) (this : This) :
  _rotationMatrix (orient arg this) =
  generateMatrix (yaw (orient arg this)) (pitch (orient arg this)).
Proof. reflexivity. Qed.

Lemma clamp_number_in_range (m : R) (r : number) :
  0 <= m -> r <> NaN ->
  clampedTo m r (max2 (neg (Fin m)) (min2 (Fin m) r)).
Proof.
  intros Hm Hr. destruct r as [x | | |]; cbn.
  - apply clamp_formula. exact Hm.
  - unfold Rmax. destruct (Rle_dec (- m) m); lra.
  - reflexivity.
  - contradiction.
Qed.

Lemma clamp_number_NaN (b r : number) :
  r = NaN \/ b = NaN -> max2 (neg b) (min2 b r) = NaN.
Proof.
  intros [-> | ->].
  - destruct b; reflexivity.
  - reflexivity.
Qed.

Lemma clamp_number_negative (m : R) (r : number) :
  m < 0 -> r <> NaN -> max2 (neg (Fin m)) (min2 (Fin m) r) = Fin (- m).
Proof.
  intros Hm Hr. destruct r as [x | | |]; cbn.
  - f_equal. apply clamp_negative_bound. exact Hm.
  - f_equal. unfold Rmax. destruct (Rle_dec (- m) m); lra.
  - reflexivity.
  - contradiction.
Qed.

Lemma clamp_number_unbounded (r : number) :
  max2 (neg PosInf) (min2 PosInf r) = r.
Proof. destruct r; reflexivity. Qed.

Lemma clamp_number_NegInf (r : number) :
  r <> NaN -> max2 (neg NegInf) (min2 NegInf r) = PosInf.
Proof. intros Hr. destruct r; try reflexivity. contradiction. Qed.

Lemma clamp_number_within (m : R) (r : number) :
  0 <= m -> r <> NaN ->
  withinBound (max2 (neg (Fin m)) (min2 (Fin m) r)) (Fin m).
Proof.
  intros Hm Hr. pose proof (clamp_number_in_range m r Hm Hr) as H.
  destruct r as [x | | |]; cbn in *.
  - apply Rabs_le. destruct H as [[Hlo Hhi] _]. lra.
  - unfold Rmax. destruct (Rle_dec (- m) m); apply Rabs_le; lra.
  - apply Rabs_le. lra.
  - contradiction.
Qed.

(** On real numbers [orient] of either class is the [orient] of this
    module. *)
Lemma orient_refines (o : Surface.Orientation) (s : Surface.Surface) :
  ofSurface (Surface.orient o s) = orient (ofOrientation o) (ofSurface s).
Proof. destruct s, o as [[y |] [p |]]; reflexivity. Qed.

Lemma constructor_refines (options : Surface.Options) (s : Surface.Surface) :
  Surface.constructor options = Return s ->
  ofSurface s =
  constructor (option_map real (Surface.o_yaw options))
              (option_map real (Surface.o_pitch options))
              (option_map real (Surface.o_maxPitch options)).
Proof.
  intros H. apply constructor_Return in H as [e ->].
  destruct options as [? ? ? ? ? ? ? ? [y |] [p |] ? ? ? ? ? ? ? ? ? ? ? [m |]];
    reflexivity.
Qed.

Context {Slice : Type}.

Lemma orient_refines_legacy (o : Surfaces.Orientation) (s : Surfaces.Surface Slice) :
  ofSurfaces (Surfaces.orient o s) = orient (ofOrientations o) (ofSurfaces s).
Proof. destruct s, o as [[y |] [p |]]; reflexivity. Qed.

Lemma constructor_refines_legacy
  (options : Surfaces.Options) (s : Surfaces.Surface Slice) :
  Surfaces.constructor options = Return s ->
  ofSurfaces s =
  constructor (option_map real (Surfaces.o_yaw options))
              (option_map real (Surfaces.o_pitch options))
              (option_map real (Surfaces.o_maxPitch options)).
Proof.
  intros H. apply constructor_Return_legacy in H as [e ->].
  destruct options as [? ? ? ? ? ? ? [y |] [p |] ? ? ? ? [m |]]; reflexivity.
Qed.

End OrientValues.

(** C3, as the claim states it, fails.  With maxPitch = -1 the interval
    [-maxPitch, maxPitch] is empty and [orient({pitch: x})] stores 1 for
    every number x; with the default maxPitch, [orient({pitch: NaN})] and
    [orient({pitch: undefined})] store NaN, which lies in no interval. *)
Lemma orient_clamp_counterexample :
  (forall x : R,
     Orient.pitch
       (Orient.orient (Orient.pitchOnly (Orient.real x))
                      (Orient.constructor None None (Some (Orient.real (-1)))))
     = Orient.real 1) /\
  ~ (- (-1) <= 1 <= -1) /\
  Surface.constructor (Spec.withPitch 0.5 (-1)) =
    Return (Spec.surfaceWithPitch 0.5 (-1)) /\
  Surface.pitch (Surface.orient (Spec.pitchOnly 0) (Spec.surfaceWithPitch 0.5 (-1))) = 1 /\
  Orient.pitch
    (Orient.orient (Orient.pitchOnly (Orient.Num Orient.NaN))
                   (Orient.constructor None None None))
  = Orient.Num Orient.NaN /\
  Orient.pitch
    (Orient.orient (Orient.pitchOnly Orient.Undefined)
                   (Orient.constructor None None None))
  = Orient.Num Orient.NaN.
Proof.
  split; [| split; [| split; [| split; [| split]]]].
  - intros x. rewrite orient_pitch_value.
    change (Orient.Num (Orient.max2 (Orient.neg (Orient.Fin (-1)))
                                    (Orient.min2 (Orient.Fin (-1)) (Orient.Fin x)))
            = Orient.real 1).
    rewrite clamp_number_negative by (lra || discriminate).
    unfold Orient.real. do 2 f_equal. lra.
  - lra.
  - reflexivity.
  - rewrite orient_pitch. cbn [Spec.surfaceWithPitch Surface.maxPitch].
    rewrite clamp_negative_bound by lra. lra.
  - reflexivity.
  - reflexivity.
Qed.

(** C3, amended: for every orientation argument and every maxPitch, orient
    stores max(-maxPitch, min(maxPitch, requested)), where requested is the
    pitch passed or, when the key is absent, the current pitch, and then
    recomputes the rotation matrix from the stored yaw and pitch; yaw is
    the one passed or the current one, maxPitch is left as it is.  The
    stored pitch is the requested pitch clamped to [-maxPitch, maxPitch]
    whenever maxPitch is a non-negative number and the requested pitch is
    a number other than NaN (an infinite one goes to the end on its side).
    It is NaN when the requested pitch is NaN or undefined or maxPitch is
    NaN; for every other requested pitch it is -maxPitch when maxPitch is
    negative, and the requested pitch itself when maxPitch is +Infinity.
    With maxPitch = PI / 2, orient({pitch: 10}) stores exactly PI / 2.  On
    real numbers this is [orient] of both revisions of the class. *)
Theorem orient_stores_clamped_pitch :
  (forall (arg : Orient.Argument) (this : Orient.This),
     let bound := Orient.ToNumber (Orient.maxPitch this) in
     let requested := Orient.requested arg this in
     let stored := Orient.pitch (Orient.orient arg this) in
     stored =
       Orient.Num (Orient.max2 (Orient.neg bound) (Orient.min2 bound requested)) /\
     (forall m : R,
        bound = Orient.Fin m -> 0 <= m -> requested <> Orient.NaN ->
        Orient.clampedTo m requested (Orient.ToNumber stored)) /\
     (requested = Orient.NaN \/ bound = Orient.NaN ->
      stored = Orient.Num Orient.NaN) /\
     (requested <> Orient.NaN ->
      (forall m : R,
         bound = Orient.Fin m -> m < 0 -> stored = Orient.Num (Orient.Fin (- m))) /\
      (bound = Orient.NegInf -> stored = Orient.Num Orient.PosInf) /\
      (bound = Orient.PosInf -> stored = Orient.Num requested)) /\
     Orient.yaw (Orient.orient arg this) =
       defaultTo (Orient.arg_yaw arg) (Orient.yaw this) /\
     Orient.maxPitch (Orient.orient arg this) = Orient.maxPitch this /\
     Orient._rotationMatrix (Orient.orient arg this) =
       Orient.generateMatrix (defaultTo (Orient.arg_yaw arg) (Orient.yaw this)) stored) /\
  (forall this : Orient.This,
     Orient.maxPitch this = Orient.real (Math_PI / 2) ->
     Orient.pitch (Orient.orient (Orient.pitchOnly (Orient.real 10)) this)
     = Orient.real (Math_PI / 2)) /\
  (forall (o : Surface.Orientation) (s : Surface.Surface),
     Orient.ofSurface (Surface.orient o s) =
     Orient.orient (Orient.ofOrientation o) (Orient.ofSurface s)) /\
  (forall (Slice : Type) (o : Surfaces.Orientation) (s : Surfaces.Surface Slice),
     Orient.ofSurfaces (Surfaces.orient o s) =
     Orient.orient (Orient.ofOrientations o) (Orient.ofSurfaces s)).
Proof.
  split; [| split; [| split]].
  - intros arg this bound requested stored. subst bound requested stored.
    rewrite orient_rotation_value, orient_yaw_value, orient_pitch_value.
    split; [reflexivity |].
    split; [| split; [| split; [| split; [| split]]]]; try reflexivity.
    + intros m Hb Hm Hr. rewrite Hb. cbn [Orient.ToNumber].
      apply clamp_number_in_range; assumption.
    + intros H. rewrite (clamp_number_NaN _ _ H). reflexivity.
    + intros Hr. split; [| split].
      * intros m Hb Hm. rewrite Hb, clamp_number_negative by assumption.
        reflexivity.
      * intros Hb. rewrite Hb, clamp_number_NegInf by assumption. reflexivity.
      * intros Hb. rewrite Hb, clamp_number_unbounded. reflexivity.
  - intros this Hm. rewrite orient_pitch_value, Hm. cbn.
    unfold Orient.real, Math_PI. do 2 f_equal. exact clamp_10_PI2.
  - exact orient_refines.
  - intros Slice. exact orient_refines_legacy.
Qed.

(** [orient({pitch: 10})] on [new Surface()] stores PI / 2, and
    [orient({pitch: -Infinity})] stores -PI / 2. *)
Lemma orient_stores_clamped_pitch_witness :
  Orient.pitch
    (Orient.orient (Orient.pitchOnly (Orient.real 10))
                   (Orient.constructor None None None))
  = Orient.real (Math_PI / 2) /\
  Orient.clampedTo (Math_PI / 2) Orient.NegInf
    (Orient.ToNumber
       (Orient.pitch
          (Orient.orient (Orient.pitchOnly (Orient.Num Orient.NegInf))
                         (Orient.constructor None None None)))).
Proof.
  split.
  - apply (proj1 (proj2 orient_stores_clamped_pitch)
                 (Orient.constructor None None None)).
    reflexivity.
  - apply (proj1 (proj2 (proj1 orient_stores_clamped_pitch
                           (Orient.pitchOnly (Orient.Num Orient.NegInf))
                           (Orient.constructor None None None)))
                 (Math_PI / 2)).
    + reflexivity.
    + unfold Math_PI. pose proof PI_RGT_0. lra.
    + discriminate.
Defined.

(** C10, as the claim states it, fails: nothing keeps maxPitch
    non-negative, and with maxPitch = -1 a call of orient that passes no
    pitch stores pitch 1, whose absolute value exceeds maxPitch. *)
Lemma orient_abs_bound_counterexample :
  Surface.constructor (Spec.withPitch 0.5 (-1)) =
    Return (Spec.surfaceWithPitch 0.5 (-1)) /\
  Surface.pitch (Surface.orient Spec.noOrientation (Spec.surfaceWithPitch 0.5 (-1))) = 1 /\
  ~ Rabs (Surface.pitch
            (Surface.orient Spec.noOrientation (Spec.surfaceWithPitch 0.5 (-1))))
    <= Surface.maxPitch
         (Surface.orient Spec.noOrientation (Spec.surfaceWithPitch 0.5 (-1))).
Proof.
  assert (Hp : Surface.pitch
                 (Surface.orient Spec.noOrientation (Spec.surfaceWithPitch 0.5 (-1))) = 1).
  { rewrite orient_pitch. cbn [Spec.surfaceWithPitch Surface.maxPitch].
    rewrite clamp_negative_bound by lra. lra. }
  split; [reflexivity | split; [exact Hp |]].
  rewrite Hp, orient_maxPitch. cbn [Spec.surfaceWithPitch Surface.maxPitch].
  rewrite Rabs_R1. lra.
Qed.

(** C10, amended: every call of orient stores
    max(-maxPitch, min(maxPitch, requested)), where requested is the pitch
    passed or, when the key is absent, the current pitch.  Hence
    |pitch| <= maxPitch holds after an orient call whenever maxPitch is a
    non-negative number or +Infinity and the requested pitch is a number
    other than NaN.  It fails after the call when the requested pitch is
    NaN or undefined or maxPitch is NaN (the stored pitch is NaN) and when
    maxPitch is negative (the stored pitch is -maxPitch).  The constructor
    does not clamp: the instance keeps the pitch passed to it, whatever
    maxPitch is, and the rotation matrix built from it, until the first
    orient call.  On real numbers this is [orient] and the constructor of
    both revisions of the class. *)
Theorem orient_clamps_constructor_keeps :
  (forall (arg : Orient.Argument) (this : Orient.This),
     let bound := Orient.ToNumber (Orient.maxPitch this) in
     let requested := Orient.requested arg this in
     let after := Orient.orient arg this in
     Orient.pitch after =
       Orient.Num (Orient.max2 (Orient.neg bound) (Orient.min2 bound requested)) /\
     (requested <> Orient.NaN ->
      (exists m : R, bound = Orient.Fin m /\ 0 <= m) \/ bound = Orient.PosInf ->
      Orient.withinBound (Orient.ToNumber (Orient.pitch after))
                         (Orient.ToNumber (Orient.maxPitch after))) /\
     (requested = Orient.NaN \/ bound = Orient.NaN ->
      Orient.pitch after = Orient.Num Orient.NaN /\
      ~ Orient.withinBound (Orient.ToNumber (Orient.pitch after))
                           (Orient.ToNumber (Orient.maxPitch after))) /\
     (requested <> Orient.NaN ->
      forall m : R,
        bound = Orient.Fin m -> m < 0 ->
        Orient.pitch after = Orient.Num (Orient.Fin (- m)) /\
        ~ Orient.withinBound (Orient.ToNumber (Orient.pitch after))
                             (Orient.ToNumber (Orient.maxPitch after)))) /\
  (forall o_yaw o_pitch o_maxPitch : option Orient.property,
     let this := Orient.constructor o_yaw o_pitch o_maxPitch in
     Orient.pitch this = Orient.defaults o_pitch 0.5 /\
     Orient.maxPitch this = Orient.defaults o_maxPitch (Math_PI / 2) /\
     Orient._rotationMatrix this =
       Orient.generateMatrix (Orient.defaults o_yaw 0.5) (Orient.defaults o_pitch 0.5)) /\
  (forall p m : R,
     m < Rabs p ->
     let this := Orient.constructor None (Some (Orient.real p)) (Some (Orient.real m)) in
     Orient.pitch this = Orient.real p /\
     ~ Orient.withinBound (Orient.ToNumber (Orient.pitch this))
                          (Orient.ToNumber (Orient.maxPitch this))) /\
  (forall (o : Surface.Orientation) (s : Surface.Surface),
     Orient.ofSurface (Surface.orient o s) =
     Orient.orient (Orient.ofOrientation o) (Orient.ofSurface s)) /\
  (forall (options : Surface.Options) (s : Surface.Surface),
     Surface.constructor options = Return s ->
     Orient.ofSurface s =
     Orient.constructor (option_map Orient.real (Surface.o_yaw options))
                        (option_map Orient.real (Surface.o_pitch options))
                        (option_map Orient.real (Surface.o_maxPitch options))) /\
  (forall (Slice : Type) (o : Surfaces.Orientation) (s : Surfaces.Surface Slice),
     Orient.ofSurfaces (Surfaces.orient o s) =
     Orient.orient (Orient.ofOrientations o) (Orient.ofSurfaces s)) /\
  (forall (Slice : Type) (options : Surfaces.Options) (s : Surfaces.Surface Slice),
     Surfaces.constructor options = Return s ->
     Orient.ofSurfaces s =
     Orient.constructor (option_map Orient.real (Surfaces.o_yaw options))
                        (option_map Orient.real (Surfaces.o_pitch options))
                        (option_map Orient.real (Surfaces.o_maxPitch options))).
Proof.
  split; [| split; [| split; [| split; [| split; [| split]]]]].
  - intros arg this bound requested after. subst bound requested after.
    rewrite orient_maxPitch_value, orient_pitch_value.
    split; [reflexivity |]. cbn [Orient.ToNumber].
    split; [| split].
    + intros Hr [(m & Hb & Hm) | Hb]; rewrite Hb.
      * apply clamp_number_within; assumption.
      * rewrite clamp_number_unbounded.
        destruct (Orient.requested arg this); try exact I. contradiction.
    + intros H. rewrite (clamp_number_NaN _ _ H).
      split; [reflexivity |]. intros Hw. exact Hw.
    + intros Hr m Hb Hm. rewrite Hb, clamp_number_negative by assumption.
      split; [reflexivity |]. cbn. intros Hw.
      pose proof (Rabs_pos (- m)). lra.
  - intros y p m this. subst this. repeat split.
  - intros p m Hpm this. subst this. split; [reflexivity |]. cbn. lra.
  - exact orient_refines.
  - exact constructor_refines.
  - intros Slice. exact orient_refines_legacy.
  - intros Slice. exact constructor_refines_legacy.
Qed.

(** [new Surface({pitch: 10, maxPitch: PI / 2})] keeps pitch 10, beyond
    maxPitch; [orient({})] then stores a pitch within the bound. *)
Lemma orient_clamps_constructor_keeps_witness :
  Orient.pitch
    (Orient.constructor None (Some (Orient.real 10)) (Some (Orient.real (Math_PI / 2))))
  = Orient.real 10 /\
  Orient.withinBound
    (Orient.ToNumber
       (Orient.pitch
          (Orient.orient Orient.noArgument
             (Orient.constructor None (Some (Orient.real 10))
                                 (Some (Orient.real (Math_PI / 2)))))))
    (Orient.ToNumber
       (Orient.maxPitch
          (Orient.orient Orient.noArgument
             (Orient.constructor None (Some (Orient.real 10))
                                 (Some (Orient.real (Math_PI / 2))))))).
Proof.
  split.
  - apply (proj1 (proj2 (proj2 orient_clamps_constructor_keeps)) 10 (Math_PI / 2)).
    unfold Math_PI. pose proof PI2_below_10.
    rewrite Rabs_pos_eq by lra. lra.
  - apply (proj1 (proj2 (proj1 orient_clamps_constructor_keeps Orient.noArgument
                           (Orient.constructor None (Some (Orient.real 10))
                              (Some (Orient.real (Math_PI / 2))))))).
    + discriminate.
    + left. exists (Math_PI / 2). split; [reflexivity |].
      unfold Math_PI. pose proof PI_RGT_0. lra.
Defined.

(* ================================================================== *)
(** ** Claims about construction *)

Section ElementFacts.

Import Spec.

Lemma createElement_unsupported (tag : string) :
  ~ supportedTag tag -> Surface._createElement tag = Throw unsupportedElement.
Proof.
  intros H. unfold Surface._createElement.
  destruct (String.eqb_spec tag "svg") as [-> | _].
  - exfalso. apply H. left. reflexivity.
  - destruct (String.eqb_spec tag "canvas") as [-> | _].
    + exfalso. apply H. right. reflexivity.
    + reflexivity.
Qed.

Lemma constructor_unsupported (options : Surface.Options) :
  Surface.o_el options = None ->
  ~ supportedTag (defaultTo (Surface.o_tagName options) "canvas") ->
  Surface.constructor options = Throw unsupportedElement.
Proof.
  intros Hel Htag.
  unfold Surface.constructor, Surface._ensureElement, Surface._generateRotation, bind.
  cbn. rewrite Hel, (createElement_unsupported _ Htag). reflexivity.
Qed.

Lemma constructor_with_element (options : Surface.Options) (e : DOM.Element) :
  Surface.o_el options = Some e ->
  exists s, Surface.constructor options = Return s /\
            Surface._type s = Some (toLowerCase (DOM.nodeName e)).
Proof.
  intros Hel.
  unfold Surface.constructor, Surface._ensureElement, Surface._generateRotation,
    Surface._setType, bind.
  cbn. rewrite Hel.
  destruct (String.eqb (toLowerCase (DOM.nodeName e)) "canvas");
    cbn; eexists; split; reflexivity.
Qed.

Lemma constructor_with_tag (options : Surface.Options) :
  Surface.o_el options = None ->
  supportedTag (defaultTo (Surface.o_tagName options) "canvas") ->
  exists s, Surface.constructor options = Return s.
Proof.
  intros Hel Htag.
  unfold Surface.constructor, Surface._ensureElement, Surface._generateRotation,
    Surface._setType, bind.
  cbn. rewrite Hel.
  destruct Htag as [-> | ->]; cbn; eexists; reflexivity.
Qed.

(** The only exception a construction raises is the one of
    [_createElement]. *)
Lemma constructor_Throw (options : Surface.Options) (err : error) :
  Surface.constructor options = Throw err ->
  err = unsupportedElement /\ Surface.o_el options = None /\
  ~ supportedTag (defaultTo (Surface.o_tagName options) "canvas").
Proof.
  intros H.
  destruct (Surface.o_el options) as [e |] eqn:Hel.
  - destruct (constructor_with_element options e Hel) as (s & Hs & _).
    rewrite Hs in H. discriminate H.
  - assert (Hn : ~ supportedTag (defaultTo (Surface.o_tagName options) "canvas")).
    { intros Htag. destruct (constructor_with_tag options Hel Htag) as [s Hs].
      rewrite Hs in H. discriminate H. }
    rewrite (constructor_unsupported options Hel Hn) in H.
    injection H as <-. repeat split; assumption.
Qed.

Context {Slice : Type}.

Lemma createElement_unsupported_legacy (tag : string) :
  ~ supportedTag tag -> Surfaces._createElement tag = Throw unsupportedElement.
Proof.
  intros H. unfold Surfaces._createElement.
  destruct (String.eqb_spec tag "svg") as [-> | _].
  - exfalso. apply H. left. reflexivity.
  - destruct (String.eqb_spec tag "canvas") as [-> | _].
    + exfalso. apply H. right. reflexivity.
    + reflexivity.
Qed.

Lemma constructor_unsupported_legacy (options : Surfaces.Options) :
  Surfaces.o_el options = None ->
  ~ supportedTag (defaultTo (Surfaces.o_tagName options) "canvas") ->
  @Surfaces.constructor Slice options = Throw unsupportedElement.
Proof.
  intros Hel Htag.
  unfold Surfaces.constructor, Surfaces._ensureElement, Surfaces._generateRotation, bind.
  cbn. rewrite Hel, (createElement_unsupported_legacy _ Htag). reflexivity.
Qed.

Lemma constructor_with_element_legacy (options : Surfaces.Options) (e : DOM.Element) :
  Surfaces.o_el options = Some e ->
  exists s, @Surfaces.constructor Slice options = Return s /\
            Surfaces._type s = Some (toLowerCase (DOM.nodeName e)).
Proof.
  intros Hel.
  unfold Surfaces.constructor, Surfaces._ensureElement, Surfaces._generateRotation,
    Surfaces._setType, Surfaces.initialize, bind.
  cbn. rewrite Hel.
  destruct (String.eqb (toLowerCase (DOM.nodeName e)) "canvas");
    cbn; eexists; split; reflexivity.
Qed.

Lemma constructor_with_tag_legacy (options : Surfaces.Options) :
  Surfaces.o_el options = None ->
  supportedTag (defaultTo (Surfaces.o_tagName options) "canvas") ->
  exists s, @Surfaces.constructor Slice options = Return s.
Proof.
  intros Hel Htag.
  unfold Surfaces.constructor, Surfaces._ensureElement, Surfaces._generateRotation,
    Surfaces._setType, Surfaces.initialize, bind.
  cbn. rewrite Hel.
  destruct Htag as [-> | ->]; cbn; eexists; reflexivity.
Qed.

Lemma constructor_Throw_legacy (options : Surfaces.Options) (err : error) :
  @Surfaces.constructor Slice options = Throw err ->
  err = unsupportedElement /\ Surfaces.o_el options = None /\
  ~ supportedTag (defaultTo (Surfaces.o_tagName options) "canvas").
Proof.
  intros H.
  destruct (Surfaces.o_el options) as [e |] eqn:Hel.
  - destruct (constructor_with_element_legacy options e Hel) as (s & Hs & _).
    rewrite Hs in H. discriminate H.
  - assert (Hn : ~ supportedTag (defaultTo (Surfaces.o_tagName options) "canvas")).
    { intros Htag. destruct (constructor_with_tag_legacy options Hel Htag) as [s Hs].
      rewrite Hs in H. discriminate H. }
    rewrite (constructor_unsupported_legacy options Hel Hn) in H.
    injection H as <-. repeat split; assumption.
Qed.

End ElementFacts.

(** C9: the claim holds on the path that creates the element and fails on
    the path that is given one.  [new Surface({tagName: 'div'})] throws
    'The element must be a canvas or svg.', as [_createElement] does for
    the tag ['div'].  [new Surface({tagName: 'div', el})] with [el] a [div]
    element returns an instance of type ['div'] that holds the element as
    passed, although [_ensureElement] is, by its own comment, there to
    make sure that the surface has an associated SVG or canvas element.
    Both revisions do the same. *)
Theorem passed_element_is_not_checked :
  Surface._createElement "div" = Throw unsupportedElement /\
  Surface.constructor (Spec.withTagName "div") = Throw unsupportedElement /\
  (exists s : Surface.Surface,
     Surface.constructor (Spec.withElement "div" (DOM.createElement "div")) = Return s /\
     Surface._type s = Some "div" /\
     Surface.tagName s = "div" /\
     Surface.el s = Some (DOM.createElement "div")) /\
  Surfaces._createElement "div" = Throw unsupportedElement /\
  (forall Slice : Type,
     @Surfaces.constructor Slice (Lifecycle.legacyWithTagName "div") =
       Throw unsupportedElement /\
     exists s : Surfaces.Surface Slice,
       Surfaces.constructor (Lifecycle.legacyWithElement "div" (DOM.createElement "div"))
         = Return s /\
       Surfaces._type s = Some "div" /\
       Surfaces.tagName s = "div" /\
       Surfaces.el s = Some (DOM.createElement "div")).
Proof.
  split; [reflexivity |].
  split; [reflexivity |].
  split; [eexists; repeat split; reflexivity |].
  split; [reflexivity |].
  intros Slice. split; [reflexivity |].
  eexists. repeat split; reflexivity.
Qed.

(** C5, as the claim states it, fails:
    [new Surface({xyDomain: [10, -10], xyResolution: -1})] returns an
    instance that stores the interval and the resolution as passed. *)
Lemma unvalidated_grid_counterexample :
  exists s : Surface.Surface,
    Surface.constructor (Spec.withGrid (10, -10) (-1)) = Return s /\
    Surface.xyResolution s = -1 /\
    Surface.xyDomain s = (10, -10).
Proof. eexists. repeat split; reflexivity. Qed.

(** C5, amended: the constructor does not validate the resolution or the
    domain.  It never fails with InvalidConfig (its only error is the one
    for an unsupported tag name); whenever an element is passed or the tag
    name is supported it returns an instance, which stores the shared and
    the per-axis domain and resolution exactly as passed, whatever their
    sign or order; orient leaves the shared and the per-axis domain and
    resolution as they are.  The time resolution is not configurable:
    render always passes the resolution 1 to [_computeData].  The instance
    of [src/surfaces.js] likewise never fails with InvalidConfig and stores
    its intervals as passed; orient leaves them as they are, and
    computeData always passes the space step 1. *)
Theorem constructor_does_not_validate :
  (forall options : Surface.Options,
     Surface.constructor options <> Throw InvalidConfig) /\
  (forall options : Surface.Options,
     Surface.o_el options <> None \/
     Spec.supportedTag (defaultTo (Surface.o_tagName options) "canvas") ->
     exists s, Surface.constructor options = Return s) /\
  (forall (options : Surface.Options) (s : Surface.Surface),
     Surface.constructor options = Return s ->
     Surface.xyResolution s = defaultTo (Surface.o_xyResolution options) 1 /\
     Surface.xyDomain s = defaultTo (Surface.o_xyDomain options) (-10, 10) /\
     Surface.xResolution s = Surface.o_xResolution options /\
     Surface.yResolution s = Surface.o_yResolution options /\
     Surface.xDomain s = Surface.o_xDomain options /\
     Surface.yDomain s = Surface.o_yDomain options) /\
  (forall (o : Surface.Orientation) (s : Surface.Surface),
     Surface.xyResolution (Surface.orient o s) = Surface.xyResolution s /\
     Surface.xyDomain (Surface.orient o s) = Surface.xyDomain s /\
     Surface.xResolution (Surface.orient o s) = Surface.xResolution s /\
     Surface.yResolution (Surface.orient o s) = Surface.yResolution s /\
     Surface.xDomain (Surface.orient o s) = Surface.xDomain s /\
     Surface.yDomain (Surface.orient o s) = Surface.yDomain s) /\
  (forall (r : Surface.RenderOptions) (s : Surface.Surface),
     Surface.render r s =
     (field <- Surface._computeData
                 {| Surface.from := or_num (Surface.t r) 0;
                    Surface.to := or_num (Surface.t r) 0;
                    Surface.resolution := 1 |} s ;;
      data <- match field with
              | slice :: _ => Return slice
              | [] => Throw typeError
              end ;;
      painted <- (if Surface.isCanvas (Surface._type s)
                  then Surface._renderCanvasSurface s
                         (GenerateVisData.generateVisData (Surface.visOptions s data))
                  else Surface._renderSvgSurface s
                         (GenerateVisData.generateVisData (Surface.visOptions s data))) ;;
      Return (s, painted))) /\
  (forall (Slice : Type) (options : Surfaces.Options),
     @Surfaces.constructor Slice options <> Throw InvalidConfig) /\
  (forall (Slice : Type) (options : Surfaces.Options) (s : Surfaces.Surface Slice),
     Surfaces.constructor options = Return s ->
     Surfaces.xInterval s = defaultTo (Surfaces.o_xInterval options) (-10, 10) /\
     Surfaces.yInterval s = defaultTo (Surfaces.o_yInterval options) (-10, 10)) /\
  (forall (Slice : Type) (o : Surfaces.Orientation) (s : Surfaces.Surface Slice),
     Surfaces.xInterval (Surfaces.orient o s) = Surfaces.xInterval s /\
     Surfaces.yInterval (Surfaces.orient o s) = Surfaces.yInterval s) /\
  (forall (Slice : Type) (compute : Surfaces.ComputeArgs.Options -> result (list Slice))
          (s : Surfaces.Surface Slice),
     Surfaces.computeData compute s =
     (cache <- compute {| Surfaces.ComputeArgs.fn := Surfaces.fn s;
                          Surfaces.ComputeArgs.startTime := Surfaces.currentFrame s;
                          Surfaces.ComputeArgs.maxTime := Surfaces.currentFrame s;
                          Surfaces.ComputeArgs.xInterval := Surfaces.xInterval s;
                          Surfaces.ComputeArgs.yInterval := Surfaces.yInterval s;
                          Surfaces.ComputeArgs.spaceStep := 1 |} ;;
      Return (Surfaces.set_cache Slice s (Some cache)))).
Proof.
  split; [| split; [| split; [| split; [| split; [| split; [| split; [| split]]]]]]].
  - intros options H. apply constructor_Throw in H as [H _]. discriminate H.
  - intros options [Hel | Htag].
    + destruct (Surface.o_el options) as [e |] eqn:He; [| contradiction].
      destruct (constructor_with_element options e He) as (s & Hs & _).
      exists s. exact Hs.
    + destruct (Surface.o_el options) as [e |] eqn:He.
      * destruct (constructor_with_element options e He) as (s & Hs & _).
        exists s. exact Hs.
      * apply constructor_with_tag; assumption.
  - intros options s H. apply constructor_Return in H as [e ->].
    repeat split; reflexivity.
  - intros o s. destruct s, o as [[y |] [p |]]; repeat split; reflexivity.
  - intros r s. reflexivity.
  - intros Slice options H. apply constructor_Throw_legacy in H as [H _].
    discriminate H.
  - intros Slice options s H. apply constructor_Return_legacy in H as [e ->].
    split; reflexivity.
  - intros Slice o s. destruct s, o as [[y |] [p |]]; split; reflexivity.
  - intros Slice compute s. reflexivity.
Qed.

(** [new Surface({xyDomain: [10, -10], xyResolution: 0})] returns an
    instance whose resolution is [0]. *)
Lemma constructor_does_not_validate_witness :
  exists s : Surface.Surface,
    Surface.constructor (Spec.withGrid (10, -10) 0) = Return s /\
    Surface.xyResolution s = defaultTo (Some 0) 1 /\
    Surface.xyDomain s = defaultTo (Some (10, -10)) (-10, 10).
Proof.
  eexists. split; [reflexivity |].
  pose proof (proj1 (proj2 (proj2 constructor_does_not_validate))
                    (Spec.withGrid (10, -10) 0) _ eq_refl) as H.
  split; [exact (proj1 H) | exact (proj1 (proj2 H))].
Defined.

(** C7, as the claim states it, fails: the default shared scale is 300, so
    the surface built with no options hands the scale 300, not 1, to the
    projector for both axes. *)
Lemma default_scale_counterexample :
  exists s : Surface.Surface,
    Surface.constructor Surface.noOptions = Return s /\
    Surface.xyScale s = 300 /\
    GenerateVisData.xScale (Surface.visOptions s []) = 300 /\
    GenerateVisData.yScale (Surface.visOptions s []) = 300 /\
    Surface.xyScale s <> 1.
Proof.
  eexists. split; [reflexivity |]. cbn.
  repeat split; try reflexivity. lra.
Qed.

(** C7, amended: a Surface constructed with no options receives width = 300,
    height = 300, zoom = 1, yaw = 0.5, pitch = 0.5, maxPitch = PI / 2, the
    shared domain [-10, 10], the shared resolution 1, the shared scale 300
    (not 1), zScale = 1 and range [-10, 10]; the per-axis domain, resolution
    and scale have no default and fall back to the shared ones; fn is
    Surface.spacetimeOrigin, the constant function that returns the nested
    array [[[0]]], which reads as the number 0.  Each of these defaults also
    applies whenever its option is left out.  The class of src/surfaces.js
    has the same width, height, zoom, yaw, pitch, maxPitch and fn, the
    intervals [-10, 10] for x and y and [0, 10] for z, currentFrame 0, and no
    resolution or scale option. *)
Theorem default_configuration :
  Surface.constructor Surface.noOptions =
    Return (Spec.surfaceWithPitch 0.5 (Math_PI / 2)) /\
  (forall s : Surface.Surface,
     Surface.constructor Surface.noOptions = Return s ->
     (Surface.width s = 300 /\ Surface.height s = 300 /\ Surface.zoom s = 1 /\
      Surface.yaw s = 0.5 /\ Surface.pitch s = 0.5 /\
      Surface.maxPitch s = Math_PI / 2) /\
     (Surface.xyDomain s = (-10, 10) /\ Surface.xyResolution s = 1 /\
      Surface.xyScale s = 300 /\ Surface.zScale s = 1 /\
      Surface.range s = (-10, 10)) /\
     (Surface.xDomain s = None /\ Surface.yDomain s = None /\
      Surface.xResolution s = None /\ Surface.yResolution s = None /\
      Surface.xScale s = None /\ Surface.yScale s = None) /\
     (forall data,
        GenerateVisData.xDomain (Surface.visOptions s data) = (-10, 10) /\
        GenerateVisData.yDomain (Surface.visOptions s data) = (-10, 10) /\
        GenerateVisData.xResolution (Surface.visOptions s data) = 1 /\
        GenerateVisData.yResolution (Surface.visOptions s data) = 1 /\
        GenerateVisData.xScale (Surface.visOptions s data) = 300 /\
        GenerateVisData.yScale (Surface.visOptions s data) = 300 /\
        GenerateVisData.zScale (Surface.visOptions s data) = 1) /\
     (forall t x y : R,
        Surface.fn s t x y = VArray [VArray [VArray [VNumber (Some 0)]]] /\
        toNumber (Surface.fn s t x y) = Some 0)) /\
  (forall (options : Surface.Options) (s : Surface.Surface),
     Surface.constructor options = Return s ->
     Surface.width s = defaultTo (Surface.o_width options) 300 /\
     Surface.height s = defaultTo (Surface.o_height options) 300 /\
     Surface.zoom s = defaultTo (Surface.o_zoom options) 1 /\
     Surface.yaw s = defaultTo (Surface.o_yaw options) 0.5 /\
     Surface.pitch s = defaultTo (Surface.o_pitch options) 0.5 /\
     Surface.maxPitch s = defaultTo (Surface.o_maxPitch options) (Math_PI / 2) /\
     Surface.xyDomain s = defaultTo (Surface.o_xyDomain options) (-10, 10) /\
     Surface.xyResolution s = defaultTo (Surface.o_xyResolution options) 1 /\
     Surface.xyScale s = defaultTo (Surface.o_xyScale options) 300 /\
     Surface.zScale s = defaultTo (Surface.o_zScale options) 1 /\
     Surface.fn s = defaultTo (Surface.o_fn options) Surface.spacetimeOrigin) /\
  (forall (Slice : Type) (s : Surfaces.Surface Slice),
     Surfaces.constructor Surfaces.noOptions = Return s ->
     (Surfaces.width s = 300 /\ Surfaces.height s = 300 /\ Surfaces.zoom s = 1 /\
      Surfaces.yaw s = 0.5 /\ Surfaces.pitch s = 0.5 /\
      Surfaces.maxPitch s = Math_PI / 2) /\
     (Surfaces.xInterval s = (-10, 10) /\ Surfaces.yInterval s = (-10, 10) /\
      Surfaces.zInterval s = (0, 10) /\ Surfaces.currentFrame s = 0) /\
     (forall t x y : R,
        Surfaces.fn s t x y = VArray [VArray [VArray [VNumber (Some 0)]]])).
Proof.
  split; [reflexivity |].
  split; [| split].
  - intros s H. apply constructor_Return in H as [e ->]. cbn.
    repeat split; reflexivity.
  - intros options s H. apply constructor_Return in H as [e ->].
    repeat split; reflexivity.
  - intros Slice s H. apply constructor_Return_legacy in H as [e ->]. cbn.
    repeat split; reflexivity.
Qed.

Lemma default_configuration_witness :
  Surface.constructor Surface.noOptions =
    Return (Spec.surfaceWithPitch 0.5 (Math_PI / 2)) /\
  Surface.xyScale (Spec.surfaceWithPitch 0.5 (Math_PI / 2)) =
    defaultTo (Surface.o_xyScale Surface.noOptions) 300.
Proof.
  split; [reflexivity |].
  pose proof (proj1 (proj2 (proj2 default_configuration))
                    Surface.noOptions _ eq_refl) as H.
  exact (proj1 (proj2 (proj2 (proj2 (proj2 (proj2 (proj2 (proj2 (proj2 H))))))))).
Defined.

(* ================================================================== *)
(** ** Lists built by nested loops *)

Section NestedLoops.

Context {A : Type}.

Lemma flat_map_rows_length (B : Type) (f : B -> list A) (l : list B) (m : nat) :
  (forall x, In x l -> length (f x) = m) ->
  length (flat_map f l) = (length l * m)%nat.
Proof.
  induction l as [| x l IH]; intros H; cbn.
  - reflexivity.
  - rewrite length_app, IH by (intros z Hz; apply H; cbn; auto).
    rewrite (H x) by (cbn; auto). reflexivity.
Qed.

Lemma flat_map_rows_nth (B : Type) (f : B -> list A) (l : list B) (m : nat) :
  (forall x, In x l -> length (f x) = m) ->
  forall (i j : nat) (x : B),
    nth_error l i = Some x -> (j < m)%nat ->
    nth_error (flat_map f l) (i * m + j) = nth_error (f x) j.
Proof.
  induction l as [| y l IH]; intros H i j x Hi Hj.
  - destruct i; discriminate Hi.
  - destruct i as [| i]; cbn in Hi.
    + injection Hi as ->. cbn.
      apply nth_error_app1. rewrite (H x) by (cbn; auto). exact Hj.
    + cbn [flat_map].
      rewrite nth_error_app2 by (rewrite (H y) by (cbn; auto); lia).
      rewrite (H y) by (cbn; auto).
      replace (S i * m + j - m)%nat with (i * m + j)%nat by lia.
      apply IH; [intros z Hz; apply H; cbn; auto | exact Hi | exact Hj].
Qed.

Lemma nth_error_seq0 (n i : nat) : (i < n)%nat -> nth_error (seq 0 n) i = Some i.
Proof.
  intros H. rewrite (nth_error_nth' _ 0%nat) by (rewrite length_seq; exact H).
  rewrite seq_nth by exact H. reflexivity.
Qed.

(** The body of two nested loops, [i] from [0] to [n - 1] and [j] from [0]
    to [m - 1]. *)
Lemma loops_length (q : nat -> nat -> A) (n m : nat) :
  length (flat_map (fun i => map (q i) (seq 0 m)) (seq 0 n)) = (n * m)%nat.
Proof.
  rewrite (flat_map_rows_length _ _ _ m).
  - rewrite length_seq. reflexivity.
  - intros x _. rewrite length_map, length_seq. reflexivity.
Qed.

Lemma loops_nth (q : nat -> nat -> A) (n m i j : nat) :
  (i < n)%nat -> (j < m)%nat ->
  nth_error (flat_map (fun i => map (q i) (seq 0 m)) (seq 0 n)) (i * m + j)
  = Some (q i j).
Proof.
  intros Hi Hj.
  rewrite (flat_map_rows_nth _ _ _ m) with (x := i).
  - rewrite nth_error_map, nth_error_seq0 by exact Hj. reflexivity.
  - intros x _. rewrite length_map, length_seq. reflexivity.
  - apply nth_error_seq0, Hi.
  - exact Hj.
Qed.

Lemma gridAt_nth (g : list (list A)) (i j : nat) (a d : A) :
  Spec.gridAt g i j = Some a -> nth j (nth i g []) d = a.
Proof.
  unfold Spec.gridAt. destruct (nth_error g i) as [row |] eqn:Hrow; [| discriminate].
  intros Hj. rewrite (nth_error_nth _ _ [] Hrow). apply nth_error_nth, Hj.
Qed.

Lemma gridAt_defined (g : list (list A)) (nx ny i j : nat) :
  Spec.rectangular g nx ny -> (i < nx)%nat -> (j < ny)%nat ->
  exists a, Spec.gridAt g i j = Some a.
Proof.
  intros [Hx Hy] Hi Hj. unfold Spec.gridAt.
  destruct (nth_error g i) as [row |] eqn:Hrow.
  - assert (Hlen : length row = ny).
    { rewrite Forall_forall in Hy. apply Hy. eapply nth_error_In, Hrow. }
    destruct (nth_error row j) as [a |] eqn:Ha.
    + exists a. reflexivity.
    + apply nth_error_None in Ha. lia.
  - apply nth_error_None in Hrow. lia.
Qed.

Lemma rectangular_first_row (g : list (list A)) (nx ny : nat) :
  Spec.rectangular g nx ny -> (0 < nx)%nat -> length (nth 0 g []) = ny.
Proof.
  intros [Hx Hy] Hn. destruct g as [| row g]; cbn in *; [lia |].
  inversion Hy; assumption.
Qed.

End NestedLoops.

(* ================================================================== *)
(** ** The quad assembler *)

Section QuadFacts.

Import GenerateVisData.

Lemma assembleQuads_length (g : list (list Vertex)) (nx ny : nat) :
  Spec.rectangular g nx ny ->
  length (assembleQuads g) = ((nx - 1) * (ny - 1))%nat.
Proof.
  intros Hg. unfold assembleQuads. rewrite loops_length.
  destruct Hg as [Hx Hy]. rewrite Hx.
  destruct (Nat.eq_dec nx 0) as [-> | Hn]; [reflexivity |].
  rewrite (rectangular_first_row g nx ny) by (try split; assumption || lia).
  reflexivity.
Qed.

Lemma assembleQuads_nth (g : list (list Vertex)) (nx ny i j : nat) :
  Spec.rectangular g nx ny -> (i < nx - 1)%nat -> (j < ny - 1)%nat ->
  nth_error (assembleQuads g) (i * (ny - 1) + j) = Some (quadAt g i j).
Proof.
  intros Hg Hi Hj. unfold assembleQuads.
  rewrite (rectangular_first_row g nx ny) by (assumption || lia).
  destruct Hg as [Hx Hy]. rewrite Hx.
  apply loops_nth; assumption.
Qed.

Lemma mean4_finite (a b c d : R) :
  mean4 (Some a) (Some b) (Some c) (Some d) = Some ((a + b + c + d) / 4).
Proof.
  unfold mean4, ndiv, nadd, lift2.
  destruct (Req_dec_T 4 0) as [H | _]; [lra | reflexivity].
Qed.

End QuadFacts.

(** C2: for every nx x ny grid of projected points (with their samples),
    quad assembly emits exactly (nx - 1) * (ny - 1) quads in row-major
    order: the quad at position i * (ny - 1) + j, for i < nx - 1 and
    j < ny - 1, has the corners point(i, j) as moveTo, point(i + 1, j) as
    pointOne, point(i + 1, j + 1) as pointTwo, point(i, j + 1) as
    pointThree, and its avg is the arithmetic mean of the four samples at
    those indices; the samples 1, 2, 3, 4 give exactly 2.5. *)
Theorem assembleQuads_cells
  (g : list (list GenerateVisData.Vertex)) (nx ny : nat)
  (Hg : Spec.rectangular g nx ny) :
  length (GenerateVisData.assembleQuads g) = ((nx - 1) * (ny - 1))%nat /\
  (forall i j : nat,
     (i < nx - 1)%nat -> (j < ny - 1)%nat ->
     exists p00 v00 p10 v10 p11 v11 p01 v01,
       Spec.gridAt g i j = Some (p00, v00) /\
       Spec.gridAt g (i + 1) j = Some (p10, v10) /\
       Spec.gridAt g (i + 1) (j + 1) = Some (p11, v11) /\
       Spec.gridAt g i (j + 1) = Some (p01, v01) /\
       nth_error (GenerateVisData.assembleQuads g) (i * (ny - 1) + j) =
         Some {| GenerateVisData.path :=
                   {| GenerateVisData.moveTo := p00;
                      GenerateVisData.pointOne := p10;
                      GenerateVisData.pointTwo := p11;
                      GenerateVisData.pointThree := p01 |};
                 GenerateVisData.avg := GenerateVisData.mean4 v00 v10 v11 v01 |}) /\
  (forall a b c d : R,
     GenerateVisData.mean4 (Some a) (Some b) (Some c) (Some d) =
       Some ((a + b + c + d) / 4)) /\
  GenerateVisData.mean4 (Some 1) (Some 2) (Some 3) (Some 4) = Some 2.5.
Proof.
  split; [apply assembleQuads_length, Hg |].
  split; [| split; [exact mean4_finite |]].
  - intros i j Hi Hj.
    destruct (gridAt_defined g nx ny i j Hg) as [[p00 v00] H00]; try lia.
    destruct (gridAt_defined g nx ny (i + 1) j Hg) as [[p10 v10] H10]; try lia.
    destruct (gridAt_defined g nx ny (i + 1) (j + 1) Hg) as [[p11 v11] H11]; try lia.
    destruct (gridAt_defined g nx ny i (j + 1) Hg) as [[p01 v01] H01]; try lia.
    exists p00, v00, p10, v10, p11, v11, p01, v01.
    repeat (split; [assumption |]).
    rewrite (assembleQuads_nth g nx ny) by assumption.
    unfold GenerateVisData.quadAt, GenerateVisData.vertexAt.
    rewrite (gridAt_nth g i j _ _ H00), (gridAt_nth g (i + 1) j _ _ H10),
      (gridAt_nth g (i + 1) (j + 1) _ _ H11), (gridAt_nth g i (j + 1) _ _ H01).
    reflexivity.
  - rewrite mean4_finite. f_equal. lra.
Qed.

(** A grid of one cell: one quad, whose avg is the mean of 1, 2, 3, 4. *)
Lemma assembleQuads_cells_witness :
  Spec.rectangular Spec.unitCell 2 2 /\
  length (GenerateVisData.assembleQuads Spec.unitCell) = ((2 - 1) * (2 - 1))%nat.
Proof.
  assert (H : Spec.rectangular Spec.unitCell 2 2).
  { split; [reflexivity | repeat constructor]. }
  split; [exact H |].
  exact (proj1 (assembleQuads_cells Spec.unitCell 2 2 H)).
Defined.

Example unitCell_quad :
  GenerateVisData.assembleQuads Spec.unitCell =
  [ {| GenerateVisData.path :=
         {| GenerateVisData.moveTo := (Some 0, Some 0);
            GenerateVisData.pointOne := (Some 10, Some 0);
            GenerateVisData.pointTwo := (Some 10, Some 10);
            GenerateVisData.pointThree := (Some 0, Some 10) |};
       GenerateVisData.avg :=
         GenerateVisData.mean4 (Some 1) (Some 2) (Some 3) (Some 4) |} ].
Proof. reflexivity. Qed.

(* ================================================================== *)
(** ** The projector *)

Section ProjectorFacts.

Import TwoRotations GenerateVisData.

Lemma mapi_from_nth (A B : Type) (f : nat -> A -> B) (l : list A) (k i : nat) :
  nth_error (mapi_from f k l) i = option_map (f (k + i)%nat) (nth_error l i).
Proof.
  revert k i. induction l as [| a l IH]; intros k i.
  - destruct i; reflexivity.
  - destruct i as [| i]; cbn.
    + rewrite Nat.add_0_r. reflexivity.
    + rewrite IH. replace (S k + i)%nat with (k + S i)%nat by lia. reflexivity.
Qed.

Lemma mapi_nth (A B : Type) (f : nat -> A -> B) (l : list A) (i : nat) :
  nth_error (mapi f l) i = option_map (f i) (nth_error l i).
Proof. unfold mapi. rewrite mapi_from_nth. reflexivity. Qed.

Lemma mapi_from_length (A B : Type) (f : nat -> A -> B) (l : list A) (k : nat) :
  length (mapi_from f k l) = length l.
Proof.
  revert k. induction l as [| a l IH]; intros k; cbn; [| rewrite IH]; reflexivity.
Qed.

Lemma mapi_length (A B : Type) (f : nat -> A -> B) (l : list A) :
  length (mapi f l) = length l.
Proof. apply mapi_from_length. Qed.

(** A finite sample is projected by the formula of the spec. *)
Lemma project_finite (o : Options) (x y z : R) :
  project o x y (Some z) =
  let r := apply (rotationMatrix o) (Vec3 (x * xScale o) (y * yScale o) (z * zScale o)) in
  (Some (width o / 2 + zoom o * vx r), Some (height o / 2 - zoom o * vy r)).
Proof. reflexivity. Qed.

(** A non-finite sample gives a non-finite point. *)
Lemma project_nonfinite (o : Options) (x y : R) :
  project o x y None = (None, None).
Proof. reflexivity. Qed.

Lemma project_isFinite (o : Options) (x y : R) (z : num) :
  finitePoint (project o x y z) = isFinite z.
Proof. destruct z; reflexivity. Qed.

(** Every vertex of the grid goes through [project], with the same
    options. *)
Lemma projectGrid_at (o : Options) (i j : nat) (z : num) :
  Spec.gridAt (data o) i j = Some z ->
  Spec.gridAt (projectGrid o) i j = Some (project o (xAt o i) (yAt o j) z, z).
Proof.
  unfold Spec.gridAt, projectGrid. rewrite mapi_nth.
  destruct (nth_error (data o) i) as [row |]; [| discriminate].
  cbn. rewrite mapi_nth. intros ->. reflexivity.
Qed.

Lemma projectGrid_rectangular (o : Options) (nx ny : nat) :
  Spec.rectangular (data o) nx ny -> Spec.rectangular (projectGrid o) nx ny.
Proof.
  intros [Hx Hy]. unfold projectGrid. split.
  - rewrite mapi_length. exact Hx.
  - apply Forall_forall. intros row Hrow.
    apply In_nth_error in Hrow as [i Hi]. rewrite mapi_nth in Hi.
    destruct (nth_error (data o) i) as [r |] eqn:Hr; [| discriminate].
    cbn in Hi. injection Hi as <-. rewrite mapi_length.
    rewrite Forall_forall in Hy. apply Hy. eapply nth_error_In, Hr.
Qed.

(** With the matrix of yaw = 0, pitch = 0 a sample 0 is projected by a
    linear map without shear. *)
Lemma project_top_down (o : Options) (x y : R) :
  rotationMatrix o = generateMatrix 0 0 ->
  project o x y (Some 0) =
  (Some (width o / 2 + zoom o * xScale o * x),
   Some (height o / 2 - zoom o * yScale o * y)).
Proof.
  intros Hm. rewrite project_finite, Hm, generateMatrix_identity.
  unfold apply, identity, dot. cbn.
  f_equal; f_equal; ring.
Qed.

End ProjectorFacts.

(* ================================================================== *)
(** ** Claims about [render] *)

(** C1: in the current class every grid vertex with a finite sample z is
    rotated to (x', y', z') and projected to
    (width / 2 + zoom * x', height / 2 - zoom * y') with the zoom configured
    on the surface, and with the matrix of yaw = 0, pitch = 0 and z = 0 the
    projection is the linear map
    (width / 2 + zoom * xScale * x, height / 2 - zoom * yScale * y).
    The render of src/surfaces.js does not apply the configured zoom: it
    hands the constant 1 to createPlane, also for a surface constructed
    with zoom 2, and a surface constructed with any zoom draws what the one
    constructed with zoom 1 draws. *)
Theorem render_projection :
  (forall (s : Surface.Surface) (data : Compute.Slice) (i j : nat) (z : R),
     Spec.gridAt data i j = Some (Some z) ->
     let o := Surface.visOptions s data in
     let r := TwoRotations.apply (Surface._rotationMatrix s)
                (TwoRotations.Vec3
                   (GenerateVisData.xAt o i * or_num (Surface.xScale s) (Surface.xyScale s))
                   (GenerateVisData.yAt o j * or_num (Surface.yScale s) (Surface.xyScale s))
                   (z * Surface.zScale s)) in
     Spec.gridAt (GenerateVisData.projectGrid o) i j =
       Some ((Some (Surface.width s / 2 + Surface.zoom s * TwoRotations.vx r),
              Some (Surface.height s / 2 - Surface.zoom s * TwoRotations.vy r)),
             Some z)) /\
  (forall (s : Surface.Surface) (data : Compute.Slice) (x y : R),
     Surface._rotationMatrix s = TwoRotations.generateMatrix 0 0 ->
     let o := Surface.visOptions s data in
     GenerateVisData.project o x y (Some 0) =
       (Some (Surface.width s / 2
              + Surface.zoom s * GenerateVisData.xScale o * x),
        Some (Surface.height s / 2
              - Surface.zoom s * GenerateVisData.yScale o * y))) /\
  (forall (Slice : Type) (s : Surfaces.Surface Slice) (data : list Slice),
     Surfaces.CreatePlaneArgs.zoom (Surfaces.planeOptions s data) = 1) /\
  (forall (Slice : Type) (s : Surfaces.Surface Slice),
     Surfaces.constructor (Spec.legacyWithZoom 2) = Return s ->
     Surfaces.zoom s = 2 /\
     forall data : list Slice,
       Surfaces.CreatePlaneArgs.zoom (Surfaces.planeOptions s data)
       <> Surfaces.zoom s) /\
  (forall (Slice : Type)
          (compute : Surfaces.ComputeArgs.Options -> result (list Slice))
          (createPlane :
             Surfaces.CreatePlaneArgs.Options Slice -> result (list GenerateVisData.Quad))
          (z : R),
     Surfaces.constructor (Spec.legacyWithZoom z) = Return (Spec.legacySurface Slice z) /\
     Spec.drawn (Surfaces.render compute createPlane (Spec.legacySurface Slice z)) =
     Spec.drawn (Surfaces.render compute createPlane (Spec.legacySurface Slice 1))).
Proof.
  split; [| split; [| split; [| split]]].
  - intros s data i j z Hz o r.
    rewrite (projectGrid_at o i j (Some z) Hz), project_finite. reflexivity.
  - intros s data x y Hm o. apply project_top_down. exact Hm.
  - reflexivity.
  - intros Slice s H. apply constructor_Return_legacy in H as [e ->].
    split; [reflexivity |]. intros data. cbn. lra.
  - intros Slice compute createPlane z. split; [reflexivity |].
    unfold Surfaces.render, Surfaces.computeData, Spec.legacySurface. cbn.
    destruct (compute _) as [field | err]; cbn; [| reflexivity].
    destruct (createPlane _) as [plane | err]; cbn; reflexivity.
Qed.

(** [new Surface({zoom: 2})] of src/surfaces.js: the instance has zoom 2
    and its render passes zoom 1 on. *)
Lemma render_projection_witness :
  exists s : Surfaces.Surface unit,
    Surfaces.constructor (Spec.legacyWithZoom 2) = Return s /\
    Surfaces.zoom s = 2 /\
    Surfaces.CreatePlaneArgs.zoom (Surfaces.planeOptions s []) = 1.
Proof.
  eexists. split; [reflexivity |].
  split.
  - exact (proj1 (proj1 (proj2 (proj2 (proj2 render_projection))) unit _ eq_refl)).
  - exact (proj1 (proj2 (proj2 render_projection)) unit _ []).
Defined.

Section SamplerFacts.

Import Compute.

Lemma Int_part_0 : Int_part 0 = 0%Z.
Proof.
  unfold Int_part. rewrite <- (tech_up 0 1); [reflexivity | |]; simpl; lra.
Qed.

(** [from == to] yields exactly one time sample, whatever the step. *)
Lemma samples_single (t res : R) : samples t t res = [t].
Proof.
  unfold samples, count.
  replace ((t - t) / res) with 0 by (unfold Rdiv; ring).
  rewrite Int_part_0.
  change (Z.to_nat (0 + 1)) with 1%nat. cbn [seq map INR].
  replace (t + 0 * res) with t by ring. reflexivity.
Qed.

Lemma nonPositive_false (r : R) : 0 < r -> nonPositive r = false.
Proof. intros H. unfold nonPositive. destruct (Rle_dec r 0); [lra | reflexivity]. Qed.

Lemma nonPositive_true (r : R) : r <= 0 -> nonPositive r = true.
Proof. intros H. unfold nonPositive. destruct (Rle_dec r 0); [reflexivity | lra]. Qed.

Lemma nonPositive_1 : nonPositive 1 = false.
Proof. apply nonPositive_false. lra. Qed.

Lemma or_num_defaultTo_0 (a : option R) : or_num a 0 = defaultTo a 0.
Proof.
  destruct a as [x |]; cbn; [| reflexivity].
  destruct (Req_dec_T x 0) as [-> | _]; reflexivity.
Qed.

(** One call of [_computeData] over a single instant. *)
Lemma computeData_single (s : Surface.Surface) (time : R) :
  0 < or_num (Surface.xResolution s) (Surface.xyResolution s) ->
  0 < or_num (Surface.yResolution s) (Surface.xyResolution s) ->
  Surface._computeData
    {| Surface.from := time; Surface.to := time; Surface.resolution := 1 |} s =
  Return
    [ sampleSlice (Surface.fn s) time
        (samples (fst (or_obj (Surface.xDomain s) (Surface.xyDomain s)))
                 (snd (or_obj (Surface.xDomain s) (Surface.xyDomain s)))
                 (or_num (Surface.xResolution s) (Surface.xyResolution s)))
        (samples (fst (or_obj (Surface.yDomain s) (Surface.xyDomain s)))
                 (snd (or_obj (Surface.yDomain s) (Surface.xyDomain s)))
                 (or_num (Surface.yResolution s) (Surface.xyResolution s))) ].
Proof.
  intros Hx Hy. unfold Surface._computeData, compute. cbn.
  rewrite nonPositive_1, (nonPositive_false _ Hx), (nonPositive_false _ Hy). cbn.
  rewrite samples_single. reflexivity.
Qed.

(** A resolution that is not positive is reported by the sampler, when
    [render] calls it. *)
Lemma render_InvalidConfig (s : Surface.Surface) (options : Surface.RenderOptions) :
  or_num (Surface.xResolution s) (Surface.xyResolution s) <= 0 \/
  or_num (Surface.yResolution s) (Surface.xyResolution s) <= 0 ->
  Surface.render options s = Throw InvalidConfig.
Proof.
  intros H. unfold Surface.render, Surface._computeData, compute. cbn.
  rewrite nonPositive_1. cbn [orb].
  destruct H as [H | H]; rewrite (nonPositive_true _ H);
    rewrite ?orb_true_r; reflexivity.
Qed.

End SamplerFacts.

Section RenderFacts.

(** Painting succeeds on a surface whose type is the name of its element. *)
Lemma paint_typed (s : Surface.Surface) (e : DOM.Element)
  (visData : list GenerateVisData.Quad) :
  Surface.el s = Some e ->
  Surface._type s = Some (toLowerCase (DOM.nodeName e)) ->
  (if Surface.isCanvas (Surface._type s)
   then Surface._renderCanvasSurface s visData
   else Surface._renderSvgSurface s visData)
  = Return (if Surface.isCanvas (Surface._type s)
            then DOM.Canvas (Surface._clearCanvas e
                             ++ flat_map (Surface.drawQuad s) visData)
            else DOM.Svg (map (Surface.svgPath s) visData)).
Proof.
  intros He Ht. unfold Surface._renderCanvasSurface, Surface._renderSvgSurface.
  rewrite He, Ht. unfold Surface.isCanvas.
  change (String.eqb (toLowerCase (DOM.nodeName e)) "canvas")
    with (DOM.isCanvasElement e).
  destruct (DOM.isCanvasElement e); reflexivity.
Qed.

End RenderFacts.

(* ================================================================== *)
(** ** Quads with a non-finite coordinate *)

Section Counting.

Context {A : Type}.

Lemma filter_none (P : A -> bool) (l : list A) :
  (forall x, In x l -> P x = false) -> filter P l = [].
Proof.
  induction l as [| x l IH]; intros H; cbn; [reflexivity |].
  rewrite (H x) by (cbn; auto). apply IH. intros; apply H; cbn; auto.
Qed.

(** Counting, in the output of one inner loop, the entries that satisfy a
    test which factors into a test on [i] and a test on [j]. *)
Lemma count_inner (P : A -> bool) (q : nat -> A) (Y : nat -> bool)
  (x : bool) (lj : list nat) :
  (forall j, In j lj -> P (q j) = x && Y j) ->
  length (filter P (map q lj)) = if x then length (filter Y lj) else 0%nat.
Proof.
  destruct x; cbn [andb].
  - induction lj as [| j lj IH]; intros H; cbn [map filter]; [reflexivity |].
    rewrite (H j) by (cbn; auto).
    destruct (Y j); cbn [length]; rewrite IH by (intros; apply H; cbn; auto);
      reflexivity.
  - intros H. rewrite filter_none; [reflexivity |].
    intros y Hy. apply in_map_iff in Hy as (j & <- & Hj). apply H, Hj.
Qed.

(** The same for the two nested loops. *)
Lemma count_loops (P : A -> bool) (q : nat -> nat -> A) (X Y : nat -> bool)
  (li lj : list nat) :
  (forall i j, In i li -> In j lj -> P (q i j) = X i && Y j) ->
  length (filter P (flat_map (fun i => map (q i) lj) li)) =
  (length (filter X li) * length (filter Y lj))%nat.
Proof.
  induction li as [| i li IH]; intros H; cbn [flat_map filter]; [reflexivity |].
  rewrite filter_app, length_app.
  rewrite (count_inner P (q i) Y (X i)) by (intros; apply H; cbn; auto).
  rewrite IH by (intros; apply H; cbn; auto).
  destruct (X i); cbn; lia.
Qed.

End Counting.

(** Decides the comparisons of natural numbers in the goal. *)
Ltac compare_bounds :=
  repeat match goal with
         | |- context [(?x <? ?y)%nat] => destruct (Nat.ltb_spec x y)
         | |- context [(?x <=? ?y)%nat] => destruct (Nat.leb_spec x y)
         end;
  cbn [andb]; lia.

(** Among the cells [0 .. k - 1] of an axis, those that have the grid point
    [a] as an end. *)
Lemma count_cells_along (a k : nat) :
  length (filter (fun i => (i =? a)%nat || (i + 1 =? a)%nat) (seq 0 k)) =
  ((if (a <? k)%nat then 1 else 0)
   + (if ((1 <=? a)%nat && (a <=? k)%nat)%bool then 1 else 0))%nat.
Proof.
  induction k as [| k IH].
  - cbn [seq filter length]. destruct a; reflexivity.
  - rewrite seq_S, filter_app, length_app, IH. cbn [Nat.add filter].
    destruct (Nat.eqb_spec k a) as [Hka | Hka];
      destruct (Nat.eqb_spec (k + 1) a) as [Hk1 | Hk1];
      cbn [orb length]; compare_bounds.
Qed.

Lemma count_cells_along_axis (n a : nat) :
  (a < n)%nat ->
  length (filter (fun i => (i =? a)%nat || (i + 1 =? a)%nat) (seq 0 (n - 1))) =
  Spec.cellsAlong n a.
Proof.
  intros Ha. rewrite count_cells_along. unfold Spec.cellsAlong.
  compare_bounds.
Qed.

Lemma cellsAlong_end (n a : nat) :
  (2 <= n)%nat -> (a < n)%nat ->
  Spec.cellsAlong n a = if ((a =? 0)%nat || (a + 1 =? n)%nat)%bool then 1%nat else 2%nat.
Proof.
  intros Hn Ha. unfold Spec.cellsAlong.
  destruct (Nat.eqb_spec a 0); destruct (Nat.eqb_spec (a + 1) n); cbn [orb];
    compare_bounds.
Qed.

Section NonFiniteFacts.

Import GenerateVisData.

Lemma vertexAt_projectGrid (o : Options) (nx ny i j : nat) :
  Spec.rectangular (data o) nx ny -> (i < nx)%nat -> (j < ny)%nat ->
  exists z : num,
    Spec.gridAt (data o) i j = Some z /\
    vertexAt (projectGrid o) i j = (project o (xAt o i) (yAt o j) z, z).
Proof.
  intros Hg Hi Hj.
  destruct (gridAt_defined (data o) nx ny i j Hg Hi Hj) as [z Hz].
  exists z. split; [exact Hz |].
  unfold vertexAt. apply gridAt_nth, projectGrid_at, Hz.
Qed.

(** A quad of the projected grid is finite exactly when its four corner
    samples are. *)
Lemma finiteQuad_projectGrid (o : Options) (nx ny : nat) (fin : nat -> nat -> bool)
  (i j : nat) :
  Spec.rectangular (data o) nx ny ->
  (forall i j z, Spec.gridAt (data o) i j = Some z -> isFinite z = fin i j) ->
  (i < nx - 1)%nat -> (j < ny - 1)%nat ->
  finiteQuad (quadAt (projectGrid o) i j) =
  fin i j && fin (i + 1)%nat j && fin (i + 1)%nat (j + 1)%nat && fin i (j + 1)%nat.
Proof.
  intros Hg Hfin Hi Hj.
  destruct (vertexAt_projectGrid o nx ny i j Hg) as (z00 & H00 & V00); try lia.
  destruct (vertexAt_projectGrid o nx ny (i + 1) j Hg) as (z10 & H10 & V10); try lia.
  destruct (vertexAt_projectGrid o nx ny (i + 1) (j + 1) Hg) as (z11 & H11 & V11);
    try lia.
  destruct (vertexAt_projectGrid o nx ny i (j + 1) Hg) as (z01 & H01 & V01); try lia.
  unfold finiteQuad, quadAt. cbn [path moveTo pointOne pointTwo pointThree].
  rewrite V00, V10, V11, V01. cbn [fst].
  rewrite !project_isFinite.
  rewrite (Hfin _ _ _ H00), (Hfin _ _ _ H10), (Hfin _ _ _ H11), (Hfin _ _ _ H01).
  reflexivity.
Qed.

Lemma assembleQuads_projectGrid (o : Options) (nx ny : nat) :
  Spec.rectangular (data o) nx ny -> (0 < nx)%nat ->
  assembleQuads (projectGrid o) =
  flat_map (fun i => map (fun j => quadAt (projectGrid o) i j) (seq 0 (ny - 1)))
           (seq 0 (nx - 1)).
Proof.
  intros Hg Hn. apply projectGrid_rectangular in Hg.
  unfold assembleQuads.
  rewrite (rectangular_first_row _ nx ny Hg Hn).
  destruct Hg as [-> _]. reflexivity.
Qed.

(** Every cell is emitted, whatever its samples are. *)
Lemma generateVisData_length (o : Options) (nx ny : nat) :
  Spec.rectangular (data o) nx ny ->
  length (generateVisData o) = ((nx - 1) * (ny - 1))%nat.
Proof.
  intros Hg. apply assembleQuads_length, projectGrid_rectangular, Hg.
Qed.

Lemma generateVisData_nth (o : Options) (nx ny i j : nat) :
  Spec.rectangular (data o) nx ny -> (i < nx - 1)%nat -> (j < ny - 1)%nat ->
  nth_error (generateVisData o) (i * (ny - 1) + j)
  = Some (quadAt (projectGrid o) i j).
Proof.
  intros Hg Hi Hj.
  apply (assembleQuads_nth _ nx ny); [apply projectGrid_rectangular, Hg | |];
    assumption.
Qed.

(** With all samples finite every quad is finite. *)
Lemma all_finite_quads (o : Options) (nx ny : nat) :
  Spec.rectangular (data o) nx ny -> Spec.allFinite (data o) ->
  Forall (fun q => finiteQuad q = true) (generateVisData o).
Proof.
  intros Hg Hfin. apply Forall_forall. unfold generateVisData.
  destruct (Nat.eq_dec nx 0) as [-> | Hn].
  - destruct Hg as [Hx _]. unfold assembleQuads, projectGrid.
    rewrite mapi_length, Hx. cbn. contradiction.
  - rewrite (assembleQuads_projectGrid o nx ny Hg) by lia.
    intros q Hq. apply in_flat_map in Hq as (i & Hi & Hq).
    apply in_map_iff in Hq as (j & <- & Hj).
    apply in_seq in Hi. apply in_seq in Hj.
    rewrite (finiteQuad_projectGrid o nx ny (fun _ _ => true)); try lia; auto.
Qed.

Lemma onlyNonFiniteAt_fin (slice : Compute.Slice) (a b : nat) :
  Spec.onlyNonFiniteAt slice a b ->
  forall i j z, Spec.gridAt slice i j = Some z ->
                isFinite z = negb ((i =? a)%nat && (j =? b)%nat).
Proof.
  intros H i j z Hz. specialize (H i j z Hz).
  destruct (isFinite z);
    destruct (Nat.eqb_spec i a) as [Hi | Hi];
    destruct (Nat.eqb_spec j b) as [Hj | Hj]; cbn; try reflexivity.
  - destruct H as [_ H]. discriminate (H (conj Hi Hj)).
  - destruct H as [H _]. destruct (H eq_refl). contradiction.
  - destruct H as [H _]. destruct (H eq_refl). contradiction.
  - destruct H as [H _]. destruct (H eq_refl). contradiction.
Qed.

(** With one non-finite sample, the quad of a cell has a non-finite
    coordinate exactly when the sample is at one of its corners. *)
Lemma finiteQuad_around (o : Options) (nx ny a b i j : nat) :
  Spec.rectangular (data o) nx ny ->
  Spec.onlyNonFiniteAt (data o) a b ->
  (i < nx - 1)%nat -> (j < ny - 1)%nat ->
  finiteQuad (quadAt (projectGrid o) i j)
  = negb (((i =? a)%nat || (i + 1 =? a)%nat) && ((j =? b)%nat || (j + 1 =? b)%nat)).
Proof.
  intros Hg Hnan Hi Hj.
  rewrite (finiteQuad_projectGrid o nx ny _ i j Hg (onlyNonFiniteAt_fin _ a b Hnan))
    by lia.
  destruct (i =? a)%nat, (i + 1 =? a)%nat, (j =? b)%nat, (j + 1 =? b)%nat;
    reflexivity.
Qed.

(** With one non-finite sample, the quads with a non-finite coordinate are
    as many as the cells around it. *)
Lemma nonfinite_quads_count (o : Options) (nx ny a b : nat) :
  Spec.rectangular (data o) nx ny -> (a < nx)%nat -> (b < ny)%nat ->
  Spec.onlyNonFiniteAt (data o) a b ->
  length (filter (fun q => negb (finiteQuad q)) (generateVisData o))
  = (Spec.cellsAlong nx a * Spec.cellsAlong ny b)%nat.
Proof.
  intros Hg Ha Hb Hnan. unfold generateVisData.
  rewrite (assembleQuads_projectGrid o nx ny Hg) by lia.
  rewrite (count_loops _ _
             (fun i => (i =? a)%nat || (i + 1 =? a)%nat)
             (fun j => (j =? b)%nat || (j + 1 =? b)%nat)).
  - rewrite (count_cells_along_axis nx a Ha), (count_cells_along_axis ny b Hb).
    reflexivity.
  - intros i j Hi Hj. apply in_seq in Hi. apply in_seq in Hj.
    rewrite (finiteQuad_around o nx ny a b i j Hg Hnan) by lia.
    rewrite negb_involutive. reflexivity.
Qed.

End NonFiniteFacts.

Section NonFiniteExamples.

Lemma centreNaN_only : Spec.onlyNonFiniteAt Spec.centreNaN 1 1.
Proof.
  intros i j z.
  destruct i as [| [| [| [| i]]]]; destruct j as [| [| [| [| j]]]]; cbn;
    intros H; try discriminate H; injection H as <-; cbn;
    split; intros H; try discriminate H; try lia; try reflexivity;
    destruct H; lia.
Qed.

Lemma cornerNaN_only : Spec.onlyNonFiniteAt Spec.cornerNaN 0 0.
Proof.
  intros i j z.
  destruct i as [| [| [| [| i]]]]; destruct j as [| [| [| [| j]]]]; cbn;
    intros H; try discriminate H; injection H as <-; cbn;
    split; intros H; try discriminate H; try lia; try reflexivity;
    destruct H; lia.
Qed.

Lemma slice_3x3 (r0 r1 r2 : list num) :
  length r0 = 3%nat -> length r1 = 3%nat -> length r2 = 3%nat ->
  Spec.rectangular [r0; r1; r2] 3 3.
Proof. intros H0 H1 H2. split; [reflexivity | repeat constructor; assumption]. Qed.

End NonFiniteExamples.

(* ================================================================== *)
(** ** Further properties: the life of an instance *)

Section LifecycleFacts.

Import Lifecycle.

Lemma constructor_consistent (options : Surface.Options) (s : Surface.Surface) :
  Surface.constructor options = Return s -> consistent options s.
Proof.
  intros H.
  pose proof (constructor_Return options s H) as [e Hs].
  constructor.
  - rewrite Hs. reflexivity.
  - exists s, e, (toLowerCase (DOM.nodeName e)).
    split; [exact H |]. rewrite Hs. repeat split; reflexivity.
  - rewrite Hs. repeat split; reflexivity.
  - rewrite Hs. repeat split; reflexivity.
  - rewrite Hs. reflexivity.
Qed.

Lemma orient_consistent (options : Surface.Options) (o : Surface.Orientation)
  (s : Surface.Surface) :
  consistent options s -> consistent options (Surface.orient o s).
Proof.
  intros [Hm He Hsz Hg Hf]. constructor.
  - apply orient_rotation.
  - destruct He as (s0 & e & type & H0 & He0 & Ht0 & He & Ht & Htag).
    exists s0, e, type.
    destruct s, o as [[y |] [p |]]; cbn in *; repeat split; assumption.
  - destruct s, o as [[y |] [p |]]; cbn in *; exact Hsz.
  - destruct s, o as [[y |] [p |]]; cbn in *; exact Hg.
  - destruct s, o as [[y |] [p |]]; cbn in *; exact Hf.
Qed.

(** What [render] returns when it returns. *)
Lemma render_Return (r : Surface.RenderOptions) (s s' : Surface.Surface)
  (painted : DOM.Rendering) :
  Surface.render r s = Return (s', painted) ->
  s' = s /\
  exists (slice : Compute.Slice) (rest : Compute.ScalarField) (e : DOM.Element),
    Surface._computeData
      {| Surface.from := or_num (Surface.t r) 0;
         Surface.to := or_num (Surface.t r) 0;
         Surface.resolution := 1 |} s = Return (slice :: rest) /\
    Surface.el s = Some e /\
    painted =
      if Surface.isCanvas (Surface._type s)
      then DOM.Canvas
             (DOM.clearRect 0 0 (DOM.elWidth e) (DOM.elHeight e)
              :: flat_map (Surface.drawQuad s)
                   (GenerateVisData.generateVisData (Surface.visOptions s slice)))
      else DOM.Svg
             (map (Surface.svgPath s)
                (GenerateVisData.generateVisData (Surface.visOptions s slice))).
Proof.
  unfold Surface.render.
  destruct (Surface._computeData _ s) as [field | err]; cbn [bind]; [| discriminate].
  destruct field as [| slice field]; cbn [bind]; [discriminate |].
  unfold Surface._renderCanvasSurface, Surface._renderSvgSurface.
  destruct (Surface.el s) as [e |].
  - destruct (Surface.isCanvas (Surface._type s)).
    + destruct (DOM.isCanvasElement e); cbn [bind]; [| discriminate].
      intros H. injection H as <- <-. split; [reflexivity |].
      exists slice, field, e. repeat split; reflexivity.
    + cbn [bind]. intros H. injection H as <- <-. split; [reflexivity |].
      exists slice, field, e. repeat split; reflexivity.
  - destruct (Surface.isCanvas (Surface._type s)); cbn [bind]; discriminate.
Qed.

End LifecycleFacts.

(** X1: every instance of the current class that a program can hold --
    built by the constructor and passed through any calls of orient and
    render -- has a rotation matrix that is the one of its current yaw and
    pitch, and still has the element, the type, the tag name, the size,
    zoom, maxPitch, grid settings and fn that the construction gave it:
    orient and render change none of them. *)
Theorem reachable_consistent
  (options : Surface.Options) (s : Surface.Surface)
  (H : Lifecycle.reachable options s) :
  Lifecycle.consistent options s.
Proof.
  induction H as [s Hnew | o s Hs IH | r s s' painted Hs IH Hrender].
  - apply constructor_consistent, Hnew.
  - apply orient_consistent, IH.
  - apply render_Return in Hrender as [-> _]. exact IH.
Qed.

(** [new Surface({pitch: 10, maxPitch: PI / 2}).orient({})] *)
Lemma reachable_consistent_witness :
  Lifecycle.consistent (Spec.withPitch 10 (Math_PI / 2))
    (Surface.orient Spec.noOrientation (Spec.surfaceWithPitch 10 (Math_PI / 2))).
Proof.
  apply reachable_consistent.
  apply Lifecycle.reach_orient, Lifecycle.reach_new.
  reflexivity.
Defined.

Section LegacyLifecycleFacts.

Import Lifecycle.

Context {Slice : Type}.
Variable compute : Surfaces.ComputeArgs.Options -> result (list Slice).
Variable createPlane :
  Surfaces.CreatePlaneArgs.Options Slice -> result (list GenerateVisData.Quad).

Lemma constructor_consistent_legacy (options : Surfaces.Options)
  (s : Surfaces.Surface Slice) :
  Surfaces.constructor options = Return s ->
  consistentLegacy Slice compute options s.
Proof.
  intros H.
  pose proof (constructor_Return_legacy options s H) as [e Hs].
  constructor.
  - rewrite Hs. reflexivity.
  - exists s, e, (toLowerCase (DOM.nodeName e)).
    split; [exact H |]. rewrite Hs. repeat split; reflexivity.
  - rewrite Hs. repeat split; reflexivity.
  - rewrite Hs. cbn. intros field Hf. discriminate Hf.
Qed.

Lemma orient_consistent_legacy (options : Surfaces.Options)
  (o : Surfaces.Orientation) (s : Surfaces.Surface Slice) :
  consistentLegacy Slice compute options s ->
  consistentLegacy Slice compute options (Surfaces.orient o s).
Proof.
  intros [Hm He Hk Hc]. constructor.
  - apply orient_rotation_legacy.
  - destruct He as (s0 & e & type & H0 & He0 & Ht0 & He & Ht & Htag).
    exists s0, e, type.
    destruct s, o as [[y |] [p |]]; cbn in *; repeat split; assumption.
  - destruct s, o as [[y |] [p |]]; cbn in *; exact Hk.
  - destruct s, o as [[y |] [p |]]; cbn in *; exact Hc.
Qed.

(** What [computeData] returns when it returns: the instance with the
    field just sampled in its cache, whatever the cache held. *)
Lemma computeData_Return (s s' : Surfaces.Surface Slice) :
  Surfaces.computeData compute s = Return s' ->
  exists field : list Slice,
    compute (argsOf s) = Return field /\
    s' = Surfaces.set_cache Slice s (Some field).
Proof.
  unfold Surfaces.computeData. fold (argsOf s).
  destruct (compute (argsOf s)) as [field | err]; cbn [bind]; [| discriminate].
  intros H. injection H as <-. exists field. split; reflexivity.
Qed.

Lemma set_cache_fields (s : Surfaces.Surface Slice) (c : option (list Slice)) :
  Surfaces._cache (Surfaces.set_cache Slice s c) = c /\
  Surfaces.el (Surfaces.set_cache Slice s c) = Surfaces.el s /\
  Surfaces._type (Surfaces.set_cache Slice s c) = Surfaces._type s /\
  Surfaces._rotationMatrix (Surfaces.set_cache Slice s c) = Surfaces._rotationMatrix s /\
  Surfaces.yaw (Surfaces.set_cache Slice s c) = Surfaces.yaw s /\
  Surfaces.pitch (Surfaces.set_cache Slice s c) = Surfaces.pitch s /\
  Surfaces.colorFn (Surfaces.set_cache Slice s c) = Surfaces.colorFn s /\
  argsOf (Surfaces.set_cache Slice s c) = argsOf s.
Proof. destruct s. repeat split; reflexivity. Qed.

Lemma set_cache_same (s : Surfaces.Surface Slice) (c : option (list Slice)) :
  Surfaces._cache s = c -> Surfaces.set_cache Slice s c = s.
Proof. destruct s. cbn. intros ->. reflexivity. Qed.

Lemma set_cache_consistent (options : Surfaces.Options)
  (s : Surfaces.Surface Slice) (field : list Slice) :
  compute (argsOf s) = Return field ->
  consistentLegacy Slice compute options s ->
  consistentLegacy Slice compute options (Surfaces.set_cache Slice s (Some field)).
Proof.
  intros Hf [Hm He Hk Hc].
  assert (Hargs : argsOf s = computeArgs options).
  { unfold argsOf, computeArgs.
    destruct Hk as (_ & _ & _ & _ & -> & -> & -> & ->). reflexivity. }
  constructor.
  - destruct s; exact Hm.
  - destruct s; exact He.
  - destruct s; exact Hk.
  - intros field' H'. destruct s; cbn in H'. injection H' as <-.
    rewrite <- Hargs. exact Hf.
Qed.

Lemma drawQuad_colorFn (t s : Surfaces.Surface Slice) :
  Surfaces.colorFn t = Surfaces.colorFn s ->
  Surfaces.drawQuad Slice t = Surfaces.drawQuad Slice s.
Proof. unfold Surfaces.drawQuad. intros ->. reflexivity. Qed.

(** What [render] returns when it returns. *)
Lemma render_Return_legacy (s s' : Surfaces.Surface Slice)
  (calls : list DOM.CanvasCall) :
  Surfaces.render compute createPlane s = Return (s', calls) ->
  exists (field : list Slice) (plane : list GenerateVisData.Quad) (e : DOM.Element),
    match Surfaces._cache s with
    | None => compute (argsOf s) = Return field
    | Some cached => cached = field
    end /\
    s' = Surfaces.set_cache Slice s (Some field) /\
    createPlane (Surfaces.planeOptions s' field) = Return plane /\
    Surfaces.el s = Some e /\ DOM.isCanvasElement e = true /\
    calls = DOM.clearRect 0 0 (DOM.elWidth e) (DOM.elHeight e)
            :: flat_map (Surfaces.drawQuad Slice s) plane.
Proof.
  unfold Surfaces.render.
  assert (Hstep : forall (t : Surfaces.Surface Slice) (field : list Slice),
            Surfaces._cache t = Some field ->
            Surfaces.el t = Surfaces.el s ->
            Surfaces.colorFn t = Surfaces.colorFn s ->
            (let data := defaultTo (Surfaces._cache t) [] in
             plane <- createPlane (Surfaces.planeOptions t data) ;;
             calls0 <- Surfaces._renderCanvasSurface Slice t plane ;;
             Return (t, calls0)) = Return (s', calls) ->
            exists (plane : list GenerateVisData.Quad) (e : DOM.Element),
              s' = t /\
              createPlane (Surfaces.planeOptions t field) = Return plane /\
              Surfaces.el s = Some e /\ DOM.isCanvasElement e = true /\
              calls = DOM.clearRect 0 0 (DOM.elWidth e) (DOM.elHeight e)
                      :: flat_map (Surfaces.drawQuad Slice s) plane).
  { intros t field Hc Hel Hcol. rewrite Hc. cbn [defaultTo].
    destruct (createPlane (Surfaces.planeOptions t field)) as [plane | err] eqn:Hp;
      cbn [bind]; [| discriminate].
    unfold Surfaces._renderCanvasSurface. rewrite Hel.
    destruct (Surfaces.el s) as [e |] eqn:He; [| discriminate].
    destruct (DOM.isCanvasElement e) eqn:Hcv; cbn [bind]; [| discriminate].
    intros H. injection H as <- <-.
    exists plane, e. rewrite (drawQuad_colorFn t s Hcol).
    repeat split; reflexivity || assumption. }
  destruct (Surfaces._cache s) as [cached |] eqn:Hcache; cbn [bind].
  - intros H. destruct (Hstep s cached Hcache eq_refl eq_refl H)
      as (plane & e & -> & Hp & He & Hcv & Hcalls).
    exists cached, plane, e.
    rewrite (set_cache_same s (Some cached) Hcache).
    repeat split; assumption.
  - destruct (Surfaces.computeData compute s) as [t | err] eqn:Hcd;
      cbn [bind]; [| discriminate].
    apply computeData_Return in Hcd as (field & Hf & ->).
    destruct (set_cache_fields s (Some field)) as (Hc & Hel & _ & _ & _ & _ & Hcol & _).
    intros H. destruct (Hstep _ field Hc Hel Hcol H)
      as (plane & e & -> & Hp & He & Hcv & Hcalls).
    exists field, plane, e. repeat split; assumption.
Qed.

End LegacyLifecycleFacts.

Section LegacyRenderCached.

Context {Slice : Type}.
Variable createPlane :
  Surfaces.CreatePlaneArgs.Options Slice -> result (list GenerateVisData.Quad).

(** A render of an instance that holds a field does not sample. *)
Lemma render_cached (t : Surfaces.Surface Slice) (field : list Slice)
  (plane : list GenerateVisData.Quad) (e : DOM.Element)
  (compute : Surfaces.ComputeArgs.Options -> result (list Slice)) :
  Surfaces._cache t = Some field ->
  createPlane (Surfaces.planeOptions t field) = Return plane ->
  Surfaces.el t = Some e -> DOM.isCanvasElement e = true ->
  Surfaces.render compute createPlane t =
    Return (t, DOM.clearRect 0 0 (DOM.elWidth e) (DOM.elHeight e)
               :: flat_map (Surfaces.drawQuad Slice t) plane).
Proof.
  intros Hc Hp He Hcv. unfold Surfaces.render. rewrite Hc. cbn [bind].
  rewrite Hc. cbn [defaultTo]. rewrite Hp. cbn [bind]. unfold Surfaces._renderCanvasSurface.
  rewrite He, Hcv. reflexivity.
Qed.

End LegacyRenderCached.

(** X2: every instance of the class of src/surfaces.js that a program can
    hold -- built by the constructor and passed through any calls of
    orient, computeData and render -- has a rotation matrix that is the one
    of its current yaw and pitch, the element, the type, the tag name and
    the settings that the construction gave it, and a cache that, when
    filled, holds what compute returns for the fn, currentFrame and
    intervals it was constructed with. *)
Theorem reachable_consistent_legacy
  (Slice : Type)
  (compute : Surfaces.ComputeArgs.Options -> result (list Slice))
  (createPlane :
     Surfaces.CreatePlaneArgs.Options Slice -> result (list GenerateVisData.Quad))
  (options : Surfaces.Options) (s : Surfaces.Surface Slice)
  (H : Lifecycle.reachableLegacy Slice compute createPlane options s) :
  Lifecycle.consistentLegacy Slice compute options s.
Proof.
  induction H as [s Hnew | o s Hs IH | s s' Hs IH Hcd | s s' calls Hs IH Hrender].
  - apply constructor_consistent_legacy, Hnew.
  - apply orient_consistent_legacy, IH.
  - apply computeData_Return in Hcd as (field & Hf & ->).
    apply set_cache_consistent; assumption.
  - apply render_Return_legacy in Hrender
      as (field & plane & e & Hfield & -> & _).
    destruct (Surfaces._cache s) as [cached |] eqn:Hcache.
    + subst cached. rewrite (set_cache_same s (Some field) Hcache). exact IH.
    + apply set_cache_consistent; assumption.
Qed.

(** [new Surface({zoom: 1}).computeData()] over a sampler that returns one
    slice. *)
Lemma reachable_consistent_legacy_witness :
  Lifecycle.consistentLegacy unit (fun _ => Return [tt]) (Spec.legacyWithZoom 1)
    (Surfaces.set_cache unit (Spec.legacySurface unit 1) (Some [tt])).
Proof.
  apply (reachable_consistent_legacy unit (fun _ => Return [tt]) (fun _ => Return [])).
  apply (Lifecycle.legacy_computeData unit _ _ _ (Spec.legacySurface unit 1)).
  - apply Lifecycle.legacy_new. reflexivity.
  - reflexivity.
Defined.

(** X7: in src/surfaces.js, when render returns, the instance it returns
    differs from the one it was called on in its cache only, which is now
    filled; rendering that instance again returns the same instance and the
    same canvas calls without calling compute, whatever compute would
    return now. *)
Theorem legacy_render_samples_once
  (Slice : Type)
  (compute : Surfaces.ComputeArgs.Options -> result (list Slice))
  (createPlane :
     Surfaces.CreatePlaneArgs.Options Slice -> result (list GenerateVisData.Quad))
  (s s' : Surfaces.Surface Slice) (calls : list DOM.CanvasCall)
  (H : Surfaces.render compute createPlane s = Return (s', calls)) :
  (exists field : list Slice,
     Surfaces._cache s' = Some field /\
     s' = Surfaces.set_cache Slice s (Some field) /\
     (Surfaces._cache s = None -> compute (Lifecycle.argsOf s) = Return field) /\
     (forall cached, Surfaces._cache s = Some cached -> cached = field /\ s' = s)) /\
  (forall compute' : Surfaces.ComputeArgs.Options -> result (list Slice),
     Surfaces.render compute' createPlane s' = Return (s', calls)).
Proof.
  apply render_Return_legacy in H
    as (field & plane & e & Hfield & -> & Hp & He & Hcv & ->).
  destruct (set_cache_fields s (Some field)) as (Hc & Hel & _ & _ & _ & _ & Hcol & _).
  split.
  - exists field. split; [exact Hc |]. split; [reflexivity |].
    split.
    + intros Hnone. rewrite Hnone in Hfield. exact Hfield.
    + intros cached Hsome. rewrite Hsome in Hfield. subst cached.
      split; [reflexivity |]. apply set_cache_same, Hsome.
  - intros compute'.
    rewrite (render_cached createPlane _ field plane e compute' Hc Hp)
      by (rewrite ?Hel; assumption).
    rewrite (drawQuad_colorFn _ s Hcol). reflexivity.
Qed.

(** The first render of [new Surface({zoom: 1})] over a sampler that
    returns one slice and a plane without quads: the canvas is cleared, and
    the second render does the same. *)
Lemma legacy_render_samples_once_witness :
  Surfaces.render (fun _ => Return [tt]) (fun _ => Return [])
                  (Spec.legacySurface unit 1)
  = Return (Surfaces.set_cache unit (Spec.legacySurface unit 1) (Some [tt]),
            [DOM.clearRect 0 0 (Some 300) (Some 300)]) /\
  Surfaces.render (fun _ => Throw InvalidConfig) (fun _ => Return [])
                  (Surfaces.set_cache unit (Spec.legacySurface unit 1) (Some [tt]))
  = Return (Surfaces.set_cache unit (Spec.legacySurface unit 1) (Some [tt]),
            [DOM.clearRect 0 0 (Some 300) (Some 300)]).
Proof.
  assert (H : Surfaces.render (fun _ => Return [tt]) (fun _ => Return [])
                (Spec.legacySurface unit 1)
              = Return (Surfaces.set_cache unit (Spec.legacySurface unit 1) (Some [tt]),
                        [DOM.clearRect 0 0 (Some 300) (Some 300)])) by reflexivity.
  split; [exact H |].
  exact (proj2 (legacy_render_samples_once unit _ _ _ _ _ H)
               (fun _ => Throw InvalidConfig)).
Defined.

(** X6: in src/surfaces.js render never returns for an instance whose
    element is not a canvas: the only renderer it has asks the element for a
    2D context.  In particular [new Surface({tagName: 'svg'})] constructs an
    instance of type ['svg'] that no call of render can paint. *)
Theorem legacy_render_needs_canvas
  (Slice : Type)
  (compute : Surfaces.ComputeArgs.Options -> result (list Slice))
  (createPlane :
     Surfaces.CreatePlaneArgs.Options Slice -> result (list GenerateVisData.Quad)) :
  (forall (s : Surfaces.Surface Slice) (e : DOM.Element),
     Surfaces.el s = Some e -> DOM.isCanvasElement e = false ->
     forall (s' : Surfaces.Surface Slice) (calls : list DOM.CanvasCall),
       Surfaces.render compute createPlane s <> Return (s', calls)) /\
  (forall s : Surfaces.Surface Slice,
     Surfaces.constructor (Lifecycle.legacyWithTagName "svg") = Return s ->
     Surfaces._type s = Some "svg" /\
     forall (s' : Surfaces.Surface Slice) (calls : list DOM.CanvasCall),
       Surfaces.render compute createPlane s <> Return (s', calls)) /\
  (forall (s : Surfaces.Surface Slice) (e : DOM.Element)
          (field : list Slice) (plane : list GenerateVisData.Quad),
     Surfaces.el s = Some e -> DOM.isCanvasElement e = false ->
     Surfaces._cache s = Some field ->
     createPlane (Surfaces.planeOptions s field) = Return plane ->
     Surfaces.render compute createPlane s = Throw typeError).
Proof.
  assert (Hgen : forall (s : Surfaces.Surface Slice) (e : DOM.Element),
            Surfaces.el s = Some e -> DOM.isCanvasElement e = false ->
            forall (s' : Surfaces.Surface Slice) (calls : list DOM.CanvasCall),
              Surfaces.render compute createPlane s <> Return (s', calls)).
  { intros s e He Hcv s' calls H.
    apply render_Return_legacy in H as (_ & _ & e' & _ & _ & _ & He' & Hcv' & _).
    rewrite He in He'. injection He' as <-. rewrite Hcv in Hcv'. discriminate Hcv'. }
  split; [exact Hgen |]. split.
  - intros s H.
    assert (Hsvg : @Surfaces.constructor Slice (Lifecycle.legacyWithTagName "svg")
                   = Return (Surfaces.mkSurface 300 300 1 "svg" 0.5 (fun _ => "#333")
                               0.5 (-10, 10) (-10, 10) (0, 10) 0
                               Surfaces.spacetimeOrigin (Math_PI / 2)
                               (Some (DOM.createElementNS
                                        "http://www.w3.org/2000/svg" "svg"))
                               (TwoRotations.generateMatrix 0.5 0.5)
                               (Some "svg") None))
      by reflexivity.
    rewrite Hsvg in H. injection H as <-.
    split; [reflexivity |].
    apply (Hgen _ (DOM.createElementNS "http://www.w3.org/2000/svg" "svg"));
      reflexivity.
  - intros s e field plane He Hcv Hc Hp.
    unfold Surfaces.render. rewrite Hc. cbn [bind].
    rewrite Hc. cbn [defaultTo]. rewrite Hp. cbn [bind].
    unfold Surfaces._renderCanvasSurface.
    rewrite He, Hcv. reflexivity.
Qed.

(** [new Surface({tagName: 'svg'})] of src/surfaces.js, sampled and then
    rendered: a TypeError. *)
Lemma legacy_render_needs_canvas_witness :
  exists s : Surfaces.Surface unit,
    Surfaces.constructor (Lifecycle.legacyWithTagName "svg") = Return s /\
    Surfaces._type s = Some "svg" /\
    Surfaces.render (fun _ => Return [tt]) (fun _ => Return [])
                    (Surfaces.set_cache unit s (Some [tt]))
    = Throw typeError.
Proof.
  eexists. split; [reflexivity |]. split; [reflexivity |].
  apply (proj2 (proj2 (legacy_render_needs_canvas
                         unit (fun _ => Return [tt]) (fun _ => Return [])))
               _ (DOM.createElementNS "http://www.w3.org/2000/svg" "svg") [tt] []);
    reflexivity.
Defined.

(* ================================================================== *)
(** ** Further properties: [orient] *)

Section OrientAlgebra.

Lemma clamp_fixed (m x : R) :
  - m <= x <= m -> Rmax (- m) (Rmin m x) = x.
Proof.
  intros H. unfold Rmin. destruct (Rle_dec m x); unfold Rmax;
    match goal with
    | |- context [Rle_dec ?a ?b] => destruct (Rle_dec a b)
    end; lra.
Qed.

Lemma clamp_fixed_inv (m x : R) :
  0 <= m -> Rmax (- m) (Rmin m x) = x -> - m <= x <= m.
Proof.
  intros Hm H. destruct (clamp_formula m x Hm) as [Hin _].
  unfold Math_max, Math_min in Hin. rewrite H in Hin. exact Hin.
Qed.

Lemma clamp_idempotent (m x : R) :
  Rmax (- m) (Rmin m (Rmax (- m) (Rmin m x))) = Rmax (- m) (Rmin m x).
Proof.
  destruct (Rle_dec 0 m) as [Hm | Hm].
  - apply clamp_fixed. destruct (clamp_formula m x Hm) as [Hin _]. exact Hin.
  - pose proof (clamp_negative_bound m) as Hneg. unfold Math_max, Math_min in Hneg.
    rewrite !Hneg by lra. reflexivity.
Qed.

Lemma orient_merge (o1 o2 : Surface.Orientation) (s : Surface.Surface) :
  Surface.orient o2 (Surface.orient o1 s) = Surface.orient (Lifecycle.merge o1 o2) s.
Proof.
  destruct s, o1 as [[y1 |] [p1 |]], o2 as [[y2 |] [p2 |]]; cbn;
    unfold Math_max, Math_min; rewrite ?clamp_idempotent; reflexivity.
Qed.

Lemma merge_same (o : Surface.Orientation) : Lifecycle.merge o o = o.
Proof. destruct o as [[y |] [p |]]; reflexivity. Qed.

Context {Slice : Type}.

Lemma orient_merge_legacy (o1 o2 : Surfaces.Orientation) (s : Surfaces.Surface Slice) :
  Surfaces.orient o2 (Surfaces.orient o1 s)
  = Surfaces.orient (Lifecycle.mergeLegacy o1 o2) s.
Proof.
  destruct s, o1 as [[y1 |] [p1 |]], o2 as [[y2 |] [p2 |]]; cbn;
    unfold Math_max, Math_min; rewrite ?clamp_idempotent; reflexivity.
Qed.

Lemma mergeLegacy_same (o : Surfaces.Orientation) : Lifecycle.mergeLegacy o o = o.
Proof. destruct o as [[y |] [p |]]; reflexivity. Qed.

End OrientAlgebra.

(** X3: two calls of orient in a row do what one call does with the two
    arguments merged (what the second passes wins, what it leaves out comes
    from the first), the clamp included: the whole instance is the same.  So
    orient is idempotent, and a call that passes nothing after any call of
    orient changes nothing.  This holds in both revisions and for every
    maxPitch. *)
Theorem orient_compose :
  (forall (o1 o2 : Surface.Orientation) (s : Surface.Surface),
     Surface.orient o2 (Surface.orient o1 s)
     = Surface.orient (Lifecycle.merge o1 o2) s) /\
  (forall (o : Surface.Orientation) (s : Surface.Surface),
     Surface.orient o (Surface.orient o s) = Surface.orient o s /\
     Surface.orient Spec.noOrientation (Surface.orient o s) = Surface.orient o s) /\
  (forall (Slice : Type) (o1 o2 : Surfaces.Orientation) (s : Surfaces.Surface Slice),
     Surfaces.orient o2 (Surfaces.orient o1 s)
     = Surfaces.orient (Lifecycle.mergeLegacy o1 o2) s) /\
  (forall (Slice : Type) (o : Surfaces.Orientation) (s : Surfaces.Surface Slice),
     Surfaces.orient o (Surfaces.orient o s) = Surfaces.orient o s).
Proof.
  split; [exact orient_merge |].
  split.
  - intros o s. split.
    + rewrite orient_merge, merge_same. reflexivity.
    + rewrite orient_merge. destruct o as [[y |] [p |]]; reflexivity.
  - split; [intros Slice; exact orient_merge_legacy |].
    intros Slice o s. rewrite orient_merge_legacy, mergeLegacy_same. reflexivity.
Qed.

(** X4: on an instance whose rotation matrix is the one of its yaw and
    pitch (as the constructor and orient leave it) and whose maxPitch is a
    number that is not negative, orient({}) returns the instance unchanged
    exactly when its pitch is NaN or a number in [-maxPitch, maxPitch]; an
    infinite or undefined pitch is replaced. *)
Theorem orient_nothing_is_identity
  (this : Orient.This) (m : R)
  (Hsync : Orient._rotationMatrix this
           = Orient.generateMatrix (Orient.yaw this) (Orient.pitch this))
  (Hmax : Orient.maxPitch this = Orient.real m)
  (Hm : 0 <= m) :
  Orient.orient Orient.noArgument this = this <->
  Orient.pitch this = Orient.Num Orient.NaN \/
  exists x : R, Orient.pitch this = Orient.real x /\ - m <= x <= m.
Proof.
  destruct this as [y p mp M]. cbn in Hsync, Hmax. subst mp M.
  unfold Orient.orient, Orient.extend, Orient._generateRotation. cbn. split.
  - intros H. injection H as Hp _.
    destruct p as [| [x | | |]]; cbn in Hp; try discriminate Hp.
    + right. exists x. split; [reflexivity |].
      injection Hp as Hp. apply clamp_fixed_inv; assumption.
    + left. reflexivity.
  - intros [-> | (x & -> & Hx)]; cbn.
    + reflexivity.
    + rewrite (clamp_fixed _ _ Hx). reflexivity.
Qed.

(** [new Surface().orient({})] is [new Surface()]; with pitch 10 it is
    not. *)
Lemma orient_nothing_is_identity_witness :
  Orient.orient Orient.noArgument (Orient.constructor None None None)
  = Orient.constructor None None None /\
  Orient.orient Orient.noArgument
    (Orient.constructor None (Some (Orient.real 10)) None)
  <> Orient.constructor None (Some (Orient.real 10)) None.
Proof.
  assert (Hpi : 0 <= Math_PI / 2) by (unfold Math_PI; pose proof PI_RGT_0; lra).
  split.
  - apply (proj2 (orient_nothing_is_identity
                    (Orient.constructor None None None) (Math_PI / 2)
                    eq_refl eq_refl Hpi)).
    right. exists 0.5. split; [reflexivity |].
    unfold Math_PI. pose proof PI2_1. lra.
  - intros H.
    apply (proj1 (orient_nothing_is_identity
                    (Orient.constructor None (Some (Orient.real 10)) None)
                    (Math_PI / 2) eq_refl eq_refl Hpi)) in H.
    destruct H as [H | (x & H & Hx)]; [discriminate H |].
    injection H as <-. unfold Math_PI in Hx. pose proof PI2_below_10. lra.
Defined.

(* ================================================================== *)
(** ** Further properties: the element of an instance *)

Section ElementKinds.

Lemma constructor_created (options : Surface.Options) (s : Surface.Surface) :
  Surface.o_el options = None ->
  Surface.constructor options = Return s ->
  Spec.supportedTag (defaultTo (Surface.o_tagName options) "canvas") /\
  Surface.tagName s = defaultTo (Surface.o_tagName options) "canvas" /\
  Surface._type s = Some (defaultTo (Surface.o_tagName options) "canvas") /\
  (exists e : DOM.Element,
     Surface.el s = Some e /\
     toLowerCase (DOM.nodeName e) = defaultTo (Surface.o_tagName options) "canvas") /\
  Surface.isCanvas (Surface._type s)
  = String.eqb (defaultTo (Surface.o_tagName options) "canvas") "canvas".
Proof.
  intros Hel.
  unfold Surface.constructor, Surface._ensureElement, Surface._generateRotation,
    Surface._setType, bind.
  cbn. rewrite Hel. unfold Surface._createElement.
  destruct (String.eqb_spec (defaultTo (Surface.o_tagName options) "canvas") "svg")
    as [Hsvg | Hsvg].
  - rewrite Hsvg. cbn. intros H. injection H as <-. cbn. rewrite ?Hsvg.
    repeat split; try reflexivity; [left; reflexivity |].
    eexists. split; reflexivity.
  - destruct (String.eqb_spec (defaultTo (Surface.o_tagName options) "canvas") "canvas")
      as [Hcanvas | Hcanvas]; [| discriminate].
    rewrite Hcanvas. cbn. intros H. injection H as <-. cbn. rewrite ?Hcanvas.
    repeat split; try reflexivity; [right; reflexivity |].
    eexists. split; reflexivity.
Qed.

Context {Slice : Type}.

Lemma constructor_created_legacy (options : Surfaces.Options)
  (s : Surfaces.Surface Slice) :
  Surfaces.o_el options = None ->
  Surfaces.constructor options = Return s ->
  Spec.supportedTag (defaultTo (Surfaces.o_tagName options) "canvas") /\
  Surfaces.tagName s = defaultTo (Surfaces.o_tagName options) "canvas" /\
  Surfaces._type s = Some (defaultTo (Surfaces.o_tagName options) "canvas") /\
  (exists e : DOM.Element,
     Surfaces.el s = Some e /\
     toLowerCase (DOM.nodeName e) = defaultTo (Surfaces.o_tagName options) "canvas").
Proof.
  intros Hel.
  unfold Surfaces.constructor, Surfaces._ensureElement, Surfaces._generateRotation,
    Surfaces._setType, Surfaces.initialize, bind.
  cbn. rewrite Hel. unfold Surfaces._createElement.
  destruct (String.eqb_spec (defaultTo (Surfaces.o_tagName options) "canvas") "svg")
    as [Hsvg | Hsvg].
  - rewrite Hsvg. cbn. intros H. injection H as <-. cbn. rewrite ?Hsvg.
    repeat split; try reflexivity; [left; reflexivity |].
    eexists. split; reflexivity.
  - destruct (String.eqb_spec (defaultTo (Surfaces.o_tagName options) "canvas") "canvas")
      as [Hcanvas | Hcanvas]; [| discriminate].
    rewrite Hcanvas. cbn. intros H. injection H as <-. cbn. rewrite ?Hcanvas.
    repeat split; try reflexivity; [right; reflexivity |].
    eexists. split; reflexivity.
Qed.

End ElementKinds.

(** X5: when no element is passed and the construction returns, the tag
    name (the one passed, or 'canvas') is 'svg' or 'canvas', the tag name
    and the type of the instance are that tag name, and its element is one
    created for it, whose name in lower case is the tag name.  The current
    class then paints on the canvas exactly when the tag name is 'canvas'.
    Both revisions. *)
Theorem created_element_matches_tag :
  (forall (options : Surface.Options) (s : Surface.Surface),
     Surface.o_el options = None ->
     Surface.constructor options = Return s ->
     let tag := defaultTo (Surface.o_tagName options) "canvas" in
     Spec.supportedTag tag /\
     Surface.tagName s = tag /\
     Surface._type s = Some tag /\
     (exists e : DOM.Element,
        Surface.el s = Some e /\ toLowerCase (DOM.nodeName e) = tag) /\
     Surface.isCanvas (Surface._type s) = String.eqb tag "canvas") /\
  (forall (Slice : Type) (options : Surfaces.Options) (s : Surfaces.Surface Slice),
     Surfaces.o_el options = None ->
     Surfaces.constructor options = Return s ->
     let tag := defaultTo (Surfaces.o_tagName options) "canvas" in
     Spec.supportedTag tag /\
     Surfaces.tagName s = tag /\
     Surfaces._type s = Some tag /\
     (exists e : DOM.Element,
        Surfaces.el s = Some e /\ toLowerCase (DOM.nodeName e) = tag)).
Proof.
  split.
  - intros options s Hel H tag. exact (constructor_created options s Hel H).
  - intros Slice options s Hel H tag. exact (constructor_created_legacy options s Hel H).
Qed.

(** [new Surface({tagName: 'svg'})] *)
Lemma created_element_matches_tag_witness :
  exists s : Surface.Surface,
    Surface.constructor (Spec.withTagName "svg") = Return s /\
    Surface._type s = Some "svg" /\
    Surface.isCanvas (Surface._type s) = false.
Proof.
  eexists. split; [reflexivity |].
  pose proof (proj1 created_element_matches_tag (Spec.withTagName "svg") _
                    eq_refl eq_refl) as H.
  split; [exact (proj1 (proj2 (proj2 H))) | exact (proj2 (proj2 (proj2 (proj2 H))))].
Defined.

(* ================================================================== *)
(** ** Further properties: painting *)

Section PaintFacts.

Import Lifecycle.

Lemma fillStyles_app (l1 l2 : list DOM.CanvasCall) :
  fillStyles (l1 ++ l2) = fillStyles l1 ++ fillStyles l2.
Proof. apply flat_map_app. Qed.

Lemma pathPoints_app (l1 l2 : list DOM.CanvasCall) :
  pathPoints (l1 ++ l2) = pathPoints l1 ++ pathPoints l2.
Proof. apply flat_map_app. Qed.

Lemma drawn_quads (s : Surface.Surface) (visData : list GenerateVisData.Quad) :
  length (flat_map (Surface.drawQuad s) visData) = (9 * length visData)%nat /\
  fillStyles (flat_map (Surface.drawQuad s) visData)
  = map (fun a => Surface.colorFn s (GenerateVisData.avg a)) visData /\
  pathPoints (flat_map (Surface.drawQuad s) visData)
  = flat_map (fun a => map (fun p => (roundNum (fst p), roundNum (snd p))) (corners a))
             visData.
Proof.
  induction visData as [| a visData (IHn & IHf & IHp)].
  - repeat split; reflexivity.
  - cbn [flat_map map]. rewrite length_app, fillStyles_app, pathPoints_app, IHn, IHf, IHp.
    repeat split; try reflexivity. cbn [Surface.drawQuad length]. lia.
Qed.

Lemma snapped_round (x : num) : snapped x (roundNum x).
Proof.
  destruct x as [x |]; cbn; [| exact I].
  unfold Math_round. split.
  - eexists. reflexivity.
  - destruct (base_Int_part (x + / 2)) as [H1 H2]. lra.
Qed.

Lemma snapped_corners (l : list GenerateVisData.ProjectedPoint) :
  Forall2 snappedPoint l (map (fun p => (roundNum (fst p), roundNum (snd p))) l).
Proof.
  induction l as [| p l IH]; constructor; [| exact IH].
  split; apply snapped_round.
Qed.

(** A render of an instance as the constructor leaves it, with positive
    resolutions, returns. *)
Lemma render_succeeds (r : Surface.RenderOptions) (s : Surface.Surface)
  (e : DOM.Element) :
  Surface.el s = Some e ->
  Surface._type s = Some (toLowerCase (DOM.nodeName e)) ->
  0 < or_num (Surface.xResolution s) (Surface.xyResolution s) ->
  0 < or_num (Surface.yResolution s) (Surface.xyResolution s) ->
  exists painted : DOM.Rendering, Surface.render r s = Return (s, painted).
Proof.
  intros He Ht Hx Hy. unfold Surface.render.
  rewrite (computeData_single s _ Hx Hy). cbn [bind].
  rewrite (paint_typed s e _ He Ht). cbn [bind]. eexists. reflexivity.
Qed.

End PaintFacts.

(** X8: whenever _renderCanvasSurface returns, it has made one clearRect
    call over the size of the element and then nine calls per quad; the
    fill colours it sets are colorFn of the avg of each quad, in the order
    of the quads, and the points it moves and draws to are the four corners
    of each quad, rounded, in that order.  Whenever _renderSvgSurface
    returns, it has left one path per quad in the same order, with the
    corners as they are and fill colorFn(avg); neither strokeColorFn nor
    rounding plays a part there. *)
Theorem paint_order
  (s : Surface.Surface) (visData : list GenerateVisData.Quad) :
  (forall calls : list DOM.CanvasCall,
     Surface._renderCanvasSurface s visData = Return (DOM.Canvas calls) ->
     exists (e : DOM.Element) (rest : list DOM.CanvasCall),
       Surface.el s = Some e /\
       calls = DOM.clearRect 0 0 (DOM.elWidth e) (DOM.elHeight e) :: rest /\
       length rest = (9 * length visData)%nat /\
       Lifecycle.fillStyles rest
       = map (fun a => Surface.colorFn s (GenerateVisData.avg a)) visData /\
       Lifecycle.pathPoints rest
       = flat_map (fun a => map (fun p => (roundNum (fst p), roundNum (snd p)))
                                (Lifecycle.corners a)) visData) /\
  (forall children : list DOM.SvgPath,
     Surface._renderSvgSurface s visData = Return (DOM.Svg children) ->
     map DOM.d children = map GenerateVisData.path visData /\
     map DOM.fillAttr children
     = map (fun a => Surface.colorFn s (GenerateVisData.avg a)) visData) /\
  (forall children : list DOM.SvgPath,
     Surface._renderCanvasSurface s visData <> Return (DOM.Svg children)) /\
  (forall calls : list DOM.CanvasCall,
     Surface._renderSvgSurface s visData <> Return (DOM.Canvas calls)).
Proof.
  unfold Surface._renderCanvasSurface, Surface._renderSvgSurface.
  destruct (Surface.el s) as [e |].
  - split; [| split; [| split]].
    + intros calls. destruct (DOM.isCanvasElement e); [| discriminate].
      intros H. injection H as <-. exists e. eexists.
      split; [reflexivity |]. split; [reflexivity |]. apply drawn_quads.
    + intros children H. injection H as <-. rewrite !map_map. split; reflexivity.
    + intros children. destruct (DOM.isCanvasElement e); discriminate.
    + intros calls. discriminate.
  - repeat split; intros; discriminate.
Qed.

(** The canvas of [new Surface()] and the one quad of the unit cell. *)
Lemma paint_order_witness :
  exists (e : DOM.Element) (rest : list DOM.CanvasCall),
    Surface.el (Spec.surfaceWithPitch 0.5 (Math_PI / 2)) = Some e /\
    DOM.clearRect 0 0 (Some 300) (Some 300)
    :: flat_map (Surface.drawQuad (Spec.surfaceWithPitch 0.5 (Math_PI / 2)))
                (GenerateVisData.assembleQuads Spec.unitCell)
    = DOM.clearRect 0 0 (DOM.elWidth e) (DOM.elHeight e) :: rest /\
    length rest = (9 * 1)%nat.
Proof.
  destruct (proj1 (paint_order (Spec.surfaceWithPitch 0.5 (Math_PI / 2))
                               (GenerateVisData.assembleQuads Spec.unitCell))
                  _ eq_refl)
    as (e & rest & H1 & H2 & H3 & _).
  exists e, rest. split; [exact H1 |]. split; [exact H2 | exact H3].
Defined.

(** X11: every point a quad is drawn through on the canvas is the
    corresponding corner of the quad snapped to the pixel grid: each
    coordinate is a whole number at most half a pixel from the corner's (the
    upper one at a tie), and a non-finite coordinate is passed on as it is,
    not left out.  Both revisions. *)
Theorem canvas_points_snapped :
  (forall (s : Surface.Surface) (a : GenerateVisData.Quad),
     Forall2 Lifecycle.snappedPoint
             (Lifecycle.corners a) (Lifecycle.pathPoints (Surface.drawQuad s a))) /\
  (forall (Slice : Type) (s : Surfaces.Surface Slice) (a : GenerateVisData.Quad),
     Forall2 Lifecycle.snappedPoint
             (Lifecycle.corners a)
             (Lifecycle.pathPoints (Surfaces.drawQuad Slice s a))).
Proof.
  split.
  - intros s a. exact (snapped_corners (Lifecycle.corners a)).
  - intros Slice s a. exact (snapped_corners (Lifecycle.corners a)).
Qed.

(** X9: whenever render of the current class returns, it returns the very
    instance it was called on, the sampler has returned at least one slice
    for the one instant asked, and what has been painted is the quads that
    generateVisData returns for the first slice, in a way decided by the
    type alone: for type 'canvas' a clearRect over the size of the element
    followed by the calls that draw the quads, for any other type -- 'svg',
    but also the type of an element that is neither -- one svg path per
    quad. *)
Theorem render_returns_instance
  (r : Surface.RenderOptions) (s s' : Surface.Surface) (painted : DOM.Rendering)
  (H : Surface.render r s = Return (s', painted)) :
  s' = s /\
  exists (slice : Compute.Slice) (rest : Compute.ScalarField) (e : DOM.Element),
    Surface._computeData
      {| Surface.from := or_num (Surface.t r) 0;
         Surface.to := or_num (Surface.t r) 0;
         Surface.resolution := 1 |} s = Return (slice :: rest) /\
    Surface.el s = Some e /\
    painted =
      if Surface.isCanvas (Surface._type s)
      then DOM.Canvas
             (DOM.clearRect 0 0 (DOM.elWidth e) (DOM.elHeight e)
              :: flat_map (Surface.drawQuad s)
                   (GenerateVisData.generateVisData (Surface.visOptions s slice)))
      else DOM.Svg
             (map (Surface.svgPath s)
                (GenerateVisData.generateVisData (Surface.visOptions s slice))).
Proof. exact (render_Return r s s' painted H). Qed.

(** [new Surface().render()] returns the instance. *)
Lemma render_returns_instance_witness :
  exists painted : DOM.Rendering,
    Surface.render {| Surface.t := None |} (Spec.surfaceWithPitch 0.5 (Math_PI / 2))
    = Return (Spec.surfaceWithPitch 0.5 (Math_PI / 2), painted) /\
    exists calls, painted = DOM.Canvas calls.
Proof.
  assert (Hres : 0 < or_num (Surface.xResolution (Spec.surfaceWithPitch 0.5 (Math_PI / 2)))
                   (Surface.xyResolution (Spec.surfaceWithPitch 0.5 (Math_PI / 2))))
    by (cbn; lra).
  destruct (render_succeeds {| Surface.t := None |}
              (Spec.surfaceWithPitch 0.5 (Math_PI / 2)) (Spec.sizedCanvas 300 300)
              eq_refl eq_refl Hres Hres) as [painted H].
  exists painted. split; [exact H |].
  destruct (render_returns_instance _ _ _ _ H) as (_ & slice & rest & e & _ & _ & ->).
  eexists. reflexivity.
Defined.

(* ================================================================== *)
(** ** Further properties: what [render] hands on *)

Section HandedOn.




End HandedOn.




(* ================================================================== *)
(** ** Claims about [render] *)

Section RenderedFacts.

Lemma render_unfolded (r : Surface.RenderOptions) (s : Surface.Surface) :
  Surface.render r s =
  (field <- Surface._computeData
              {| Surface.from := defaultTo (Surface.t r) 0;
                 Surface.to := defaultTo (Surface.t r) 0;
                 Surface.resolution := 1 |} s ;;
   data <- match field with
           | slice :: _ => Return slice
           | [] => Throw typeError
           end ;;
   painted <- (if Surface.isCanvas (Surface._type s)
               then Surface._renderCanvasSurface s
                      (GenerateVisData.generateVisData (Surface.visOptions s data))
               else Surface._renderSvgSurface s
                      (GenerateVisData.generateVisData (Surface.visOptions s data))) ;;
   Return (s, painted)).
Proof. unfold Surface.render. rewrite or_num_defaultTo_0. reflexivity. Qed.

Context {Slice : Type}.

Lemma drawn_quads_legacy (s : Surfaces.Surface Slice)
  (plane : list GenerateVisData.Quad) :
  length (flat_map (Surfaces.drawQuad Slice s) plane) = (9 * length plane)%nat /\
  Lifecycle.pathPoints (flat_map (Surfaces.drawQuad Slice s) plane)
  = flat_map (fun a => map (fun p => (roundNum (fst p), roundNum (snd p)))
                           (Lifecycle.corners a)) plane.
Proof.
  induction plane as [| a plane (IHn & IHp)].
  - split; reflexivity.
  - cbn [flat_map map]. rewrite length_app, pathPoints_app, IHn, IHp.
    split; [cbn [Surfaces.drawQuad length]; lia | reflexivity].
Qed.

End RenderedFacts.

(** C8, as the claim states it, fails for src/surfaces.js, whose render
    takes no time argument: [new Surface({currentFrame: 5}).render()]
    samples at time 5, not 0.  Here compute returns the start time it is
    asked for as its field. *)
Lemma legacy_render_time_counterexample :
  exists s : Surfaces.Surface R,
    Surfaces.constructor (Lifecycle.legacyWithFrame 5) = Return s /\
    Surfaces.render (fun args => Return [Surfaces.ComputeArgs.startTime args])
                    (fun _ => Return []) s
    = Return (Surfaces.set_cache R s (Some [5]),
              [DOM.clearRect 0 0 (Some 300) (Some 300)]) /\
    5 <> 0.
Proof.
  eexists. split; [reflexivity |]. split; [reflexivity | lra].
Qed.

(** C8, amended.  In the current class render with the time left out uses
    time 0; for every requested time it samples the field at exactly that
    one time (from = to gives one time sample; the x and y resolutions must
    be positive, or else the sampler fails with InvalidConfig and so does
    render), hands that slice with the current rotation matrix and
    the viewport, scales, grid and zoom of the instance to generateVisData,
    which projects the grid and assembles the quads, passes the quads to
    the renderer of its type and, when that returns, returns the surface
    instance itself.  The render of src/surfaces.js takes no time argument:
    on its first call it samples once, at the single time currentFrame
    (0 unless configured), and keeps the field; later calls sample nothing
    and use the field kept.  Each call hands the first slice with the
    current rotation matrix to createPlane, paints the result on the canvas
    and returns the instance. *)
Theorem render_samples_requested_time :
  (forall (s : Surface.Surface) (options : Surface.RenderOptions),
     0 < or_num (Surface.xResolution s) (Surface.xyResolution s) ->
     0 < or_num (Surface.yResolution s) (Surface.xyResolution s) ->
     let time := defaultTo (Surface.t options) 0 in
     let xDomain := or_obj (Surface.xDomain s) (Surface.xyDomain s) in
     let yDomain := or_obj (Surface.yDomain s) (Surface.xyDomain s) in
     let slice :=
       Compute.sampleSlice (Surface.fn s) time
         (Compute.samples (fst xDomain) (snd xDomain)
            (or_num (Surface.xResolution s) (Surface.xyResolution s)))
         (Compute.samples (fst yDomain) (snd yDomain)
            (or_num (Surface.yResolution s) (Surface.xyResolution s))) in
     let visData :=
       GenerateVisData.assembleQuads
         (GenerateVisData.projectGrid
            {| GenerateVisData.data := slice;
               GenerateVisData.height := Surface.height s;
               GenerateVisData.width := Surface.width s;
               GenerateVisData.range := Surface.range s;
               GenerateVisData.zScale := Surface.zScale s;
               GenerateVisData.pitch := Surface.pitch s;
               GenerateVisData.xScale := or_num (Surface.xScale s) (Surface.xyScale s);
               GenerateVisData.yScale := or_num (Surface.yScale s) (Surface.xyScale s);
               GenerateVisData.xResolution :=
                 or_num (Surface.xResolution s) (Surface.xyResolution s);
               GenerateVisData.yResolution :=
                 or_num (Surface.yResolution s) (Surface.xyResolution s);
               GenerateVisData.xDomain := xDomain;
               GenerateVisData.yDomain := yDomain;
               GenerateVisData.zoom := Surface.zoom s;
               GenerateVisData.rotationMatrix := Surface._rotationMatrix s |}) in
     Surface._computeData
       {| Surface.from := time; Surface.to := time; Surface.resolution := 1 |} s
       = Return [slice] /\
     Surface.render options s =
       (painted <- (if Surface.isCanvas (Surface._type s)
                    then Surface._renderCanvasSurface s visData
                    else Surface._renderSvgSurface s visData) ;;
        Return (s, painted)) /\
     (forall (s' : Surface.Surface) (painted : DOM.Rendering),
        Surface.render options s = Return (s', painted) -> s' = s)) /\
  (forall (s : Surface.Surface) (options : Surface.RenderOptions),
     or_num (Surface.xResolution s) (Surface.xyResolution s) <= 0 \/
     or_num (Surface.yResolution s) (Surface.xyResolution s) <= 0 ->
     Surface.render options s = Throw InvalidConfig) /\
  (forall s : Surface.Surface,
     Surface.render {| Surface.t := None |} s
     = Surface.render {| Surface.t := Some 0 |} s) /\
  (forall (Slice : Type)
          (compute : Surfaces.ComputeArgs.Options -> result (list Slice))
          (createPlane :
             Surfaces.CreatePlaneArgs.Options Slice -> result (list GenerateVisData.Quad))
          (s : Surfaces.Surface Slice),
     Surfaces._cache s = None ->
     Surfaces.render compute createPlane s =
       (field <- compute {| Surfaces.ComputeArgs.fn := Surfaces.fn s;
                            Surfaces.ComputeArgs.startTime := Surfaces.currentFrame s;
                            Surfaces.ComputeArgs.maxTime := Surfaces.currentFrame s;
                            Surfaces.ComputeArgs.xInterval := Surfaces.xInterval s;
                            Surfaces.ComputeArgs.yInterval := Surfaces.yInterval s;
                            Surfaces.ComputeArgs.spaceStep := 1 |} ;;
        plane <- createPlane
                   {| Surfaces.CreatePlaneArgs.data := nth_error field 0;
                      Surfaces.CreatePlaneArgs.heightFn := fun d => d;
                      Surfaces.CreatePlaneArgs.zoom := 1;
                      Surfaces.CreatePlaneArgs.height := Surfaces.height s;
                      Surfaces.CreatePlaneArgs.width := Surfaces.width s;
                      Surfaces.CreatePlaneArgs.rotationMatrix :=
                        Surfaces._rotationMatrix s |} ;;
        calls <- Surfaces._renderCanvasSurface Slice s plane ;;
        Return (Surfaces.set_cache Slice s (Some field), calls))) /\
  (forall (Slice : Type)
          (compute : Surfaces.ComputeArgs.Options -> result (list Slice))
          (createPlane :
             Surfaces.CreatePlaneArgs.Options Slice -> result (list GenerateVisData.Quad))
          (s : Surfaces.Surface Slice) (field : list Slice),
     Surfaces._cache s = Some field ->
     Surfaces.render compute createPlane s =
       (plane <- createPlane
                   {| Surfaces.CreatePlaneArgs.data := nth_error field 0;
                      Surfaces.CreatePlaneArgs.heightFn := fun d => d;
                      Surfaces.CreatePlaneArgs.zoom := 1;
                      Surfaces.CreatePlaneArgs.height := Surfaces.height s;
                      Surfaces.CreatePlaneArgs.width := Surfaces.width s;
                      Surfaces.CreatePlaneArgs.rotationMatrix :=
                        Surfaces._rotationMatrix s |} ;;
        calls <- Surfaces._renderCanvasSurface Slice s plane ;;
        Return (s, calls))) /\
  (forall (Slice : Type) (options : Surfaces.Options) (s : Surfaces.Surface Slice),
     Surfaces.constructor options = Return s ->
     Surfaces._cache s = None /\
     Surfaces.currentFrame s = defaultTo (Surfaces.o_currentFrame options) 0).
Proof.
  split; [| split; [| split; [| split; [| split]]]].
  - intros s options Hx Hy time xDomain yDomain slice visData.
    assert (Hc := computeData_single s time Hx Hy).
    assert (Hr : Surface.render options s =
                 (painted <- (if Surface.isCanvas (Surface._type s)
                              then Surface._renderCanvasSurface s visData
                              else Surface._renderSvgSurface s visData) ;;
                  Return (s, painted))).
    { rewrite render_unfolded. fold time. rewrite Hc. reflexivity. }
    split; [exact Hc |]. split; [exact Hr |].
    intros s' painted H. apply render_Return in H as [H _]. exact H.
  - intros s options H. apply render_InvalidConfig, H.
  - intros s. rewrite !render_unfolded. reflexivity.
  - intros Slice compute createPlane s Hcache.
    unfold Surfaces.render, Surfaces.computeData. rewrite Hcache. cbn [bind].
    destruct (compute _) as [field | err]; cbn [bind]; [| reflexivity].
    destruct s; reflexivity.
  - intros Slice compute createPlane s field Hcache.
    unfold Surfaces.render. rewrite Hcache. cbn [bind]. rewrite Hcache.
    reflexivity.
  - intros Slice options s H. apply constructor_Return_legacy in H as [e ->].
    split; reflexivity.
Qed.

(** [new Surface().render()]: one slice, sampled at time 0 over the default
    grid, painted on the canvas the constructor created; the instance comes
    back. *)
Lemma render_samples_requested_time_witness :
  Surface.constructor Surface.noOptions =
    Return (Spec.surfaceWithPitch 0.5 (Math_PI / 2)) /\
  Surface._computeData
    {| Surface.from := 0; Surface.to := 0; Surface.resolution := 1 |}
    (Spec.surfaceWithPitch 0.5 (Math_PI / 2)) =
  Return [ Compute.sampleSlice Surface.spacetimeOrigin 0
             (Compute.samples (-10) 10 1) (Compute.samples (-10) 10 1) ] /\
  exists painted : DOM.Rendering,
    Surface.render {| Surface.t := None |} (Spec.surfaceWithPitch 0.5 (Math_PI / 2))
    = Return (Spec.surfaceWithPitch 0.5 (Math_PI / 2), painted).
Proof.
  assert (H : 0 < or_num (Surface.xResolution (Spec.surfaceWithPitch 0.5 (Math_PI / 2)))
                         (Surface.xyResolution (Spec.surfaceWithPitch 0.5 (Math_PI / 2)))).
  { cbn. lra. }
  pose proof (proj1 render_samples_requested_time
                    (Spec.surfaceWithPitch 0.5 (Math_PI / 2))
                    {| Surface.t := None |} H H) as W.
  split; [reflexivity |].
  split; [exact (proj1 W) |].
  eexists. rewrite (proj1 (proj2 W)). reflexivity.
Defined.

(* ================================================================== *)
(** ** Claims about quads with a non-finite coordinate *)

(** C6, as the claim states it, fails: nothing is skipped and nothing is
    counted.  A 3 x 3 field of finite samples gives 4 quads; the same field
    with one NaN, at its centre, gives 4 quads as well, each of them with a
    non-finite corner, and both renderers paint all four: four paths on an
    svg element, and a clearRect and 4 x 9 calls on a canvas, 4 of the 16
    points moved or drawn to being non-finite. *)
Lemma centre_NaN_counterexample :
  length (GenerateVisData.generateVisData (Spec.visOptionsOver Spec.flatSlice))
    = 4%nat /\
  length (GenerateVisData.generateVisData (Spec.visOptionsOver Spec.centreNaN))
    = 4%nat /\
  Forall (fun q => GenerateVisData.finiteQuad q = false)
         (GenerateVisData.generateVisData (Spec.visOptionsOver Spec.centreNaN)) /\
  (exists children : list DOM.SvgPath,
     Surface._renderSvgSurface
       (Spec.surfaceWithPitch 0.5 (Math_PI / 2))
       (GenerateVisData.generateVisData (Spec.visOptionsOver Spec.centreNaN))
     = Return (DOM.Svg children) /\
     length children = 4%nat) /\
  (exists calls : list DOM.CanvasCall,
     Surface._renderCanvasSurface
       (Spec.surfaceWithPitch 0.5 (Math_PI / 2))
       (GenerateVisData.generateVisData (Spec.visOptionsOver Spec.centreNaN))
     = Return (DOM.Canvas calls) /\
     length calls = 37%nat /\
     length (Lifecycle.pathPoints calls) = 16%nat /\
     length (filter (fun p => negb (GenerateVisData.finitePoint p))
                    (Lifecycle.pathPoints calls)) = 4%nat).
Proof.
  split; [reflexivity |]. split; [reflexivity |].
  split; [repeat constructor |].
  split; eexists; repeat split; reflexivity.
Qed.

(** C6, amended: no quad is skipped and no count is reported.
    generateVisData emits one quad per cell, (nx - 1)(ny - 1) of them,
    whether or not their coordinates are finite, so a field with exactly
    one non-finite sample produces as many quads as the fully finite case.
    When the only non-finite sample is at the grid vertex (a, b), the quads
    with a non-finite coordinate are exactly those of the cells that have
    that vertex as a corner: their number is the product of the numbers of
    cells along x and along y that end at the vertex (1 at a border, 2
    inside), at least one.  The renderers paint every quad they are given:
    the canvas renderer makes nine calls per quad and passes every corner
    on, rounded, a non-finite one as it is; the svg renderer leaves one
    path per quad.  render returns the instance and nothing else. *)
Theorem nonfinite_quads_are_painted
  (o : GenerateVisData.Options) (nx ny a b : nat)
  (Hg : Spec.rectangular (GenerateVisData.data o) nx ny)
  (Ha : (a < nx)%nat) (Hb : (b < ny)%nat)
  (Hnan : Spec.onlyNonFiniteAt (GenerateVisData.data o) a b) :
  let emitted := GenerateVisData.generateVisData o in
  length emitted = ((nx - 1) * (ny - 1))%nat /\
  (forall o' : GenerateVisData.Options,
     Spec.rectangular (GenerateVisData.data o') nx ny ->
     Spec.allFinite (GenerateVisData.data o') ->
     length (GenerateVisData.generateVisData o') = length emitted /\
     Forall (fun q => GenerateVisData.finiteQuad q = true)
            (GenerateVisData.generateVisData o')) /\
  (forall i j : nat,
     (i < nx - 1)%nat -> (j < ny - 1)%nat ->
     exists q : GenerateVisData.Quad,
       nth_error emitted (i * (ny - 1) + j) = Some q /\
       (GenerateVisData.finiteQuad q = false <->
        (i = a \/ (i + 1)%nat = a) /\ (j = b \/ (j + 1)%nat = b))) /\
  length (filter (fun q => negb (GenerateVisData.finiteQuad q)) emitted)
    = (Spec.cellsAlong nx a * Spec.cellsAlong ny b)%nat /\
  ((2 <= nx)%nat -> (2 <= ny)%nat ->
   (1 <= length (filter (fun q => negb (GenerateVisData.finiteQuad q)) emitted))%nat) /\
  (forall (s : Surface.Surface) (visData : list GenerateVisData.Quad)
          (calls : list DOM.CanvasCall),
     Surface._renderCanvasSurface s visData = Return (DOM.Canvas calls) ->
     length calls = (1 + 9 * length visData)%nat /\
     Lifecycle.pathPoints calls
     = flat_map (fun q => map (fun p => (roundNum (fst p), roundNum (snd p)))
                              (Lifecycle.corners q)) visData) /\
  (forall (s : Surface.Surface) (visData : list GenerateVisData.Quad)
          (children : list DOM.SvgPath),
     Surface._renderSvgSurface s visData = Return (DOM.Svg children) ->
     map DOM.d children = map GenerateVisData.path visData) /\
  (forall (Slice : Type) (s : Surfaces.Surface Slice)
          (plane : list GenerateVisData.Quad) (calls : list DOM.CanvasCall),
     Surfaces._renderCanvasSurface Slice s plane = Return calls ->
     length calls = (1 + 9 * length plane)%nat /\
     Lifecycle.pathPoints calls
     = flat_map (fun q => map (fun p => (roundNum (fst p), roundNum (snd p)))
                              (Lifecycle.corners q)) plane) /\
  (forall (r : Surface.RenderOptions) (s s' : Surface.Surface)
          (painted : DOM.Rendering),
     Surface.render r s = Return (s', painted) -> s' = s).
Proof.
  intros emitted. subst emitted.
  assert (Hcount := nonfinite_quads_count o nx ny a b Hg Ha Hb Hnan).
  split; [apply generateVisData_length, Hg |].
  split.
  { intros o' Hg' Hfin'.
    rewrite (generateVisData_length o' nx ny Hg'), (generateVisData_length o nx ny Hg).
    split; [reflexivity |]. apply (all_finite_quads o' nx ny); assumption. }
  split.
  { intros i j Hi Hj. eexists.
    split; [apply (generateVisData_nth o nx ny); assumption |].
    rewrite (finiteQuad_around o nx ny a b i j Hg Hnan Hi Hj).
    destruct (Nat.eqb_spec i a); destruct (Nat.eqb_spec (i + 1) a);
      destruct (Nat.eqb_spec j b); destruct (Nat.eqb_spec (j + 1) b);
      cbn; split; intros H; try discriminate H; try reflexivity;
      try (split; [(left; assumption) || (right; assumption)
                  | (left; assumption) || (right; assumption)]);
      exfalso; destruct H as [[? | ?] [? | ?]]; contradiction. }
  split; [exact Hcount |].
  split.
  { intros Hnx Hny. rewrite Hcount.
    rewrite (cellsAlong_end nx a Hnx Ha), (cellsAlong_end ny b Hny Hb).
    destruct ((a =? 0)%nat || (a + 1 =? nx)%nat)%bool;
      destruct ((b =? 0)%nat || (b + 1 =? ny)%nat)%bool; cbn; lia. }
  split.
  { intros s visData calls. unfold Surface._renderCanvasSurface.
    destruct (Surface.el s) as [e |]; [| discriminate].
    destruct (DOM.isCanvasElement e); [| discriminate].
    intros H. injection H as <-.
    destruct (drawn_quads s visData) as (Hn & _ & Hp).
    cbn [Surface._clearCanvas app length]. rewrite Hn.
    split; [reflexivity |]. exact Hp. }
  split.
  { intros s visData children. unfold Surface._renderSvgSurface.
    destruct (Surface.el s) as [e |]; [| discriminate].
    intros H. injection H as <-. rewrite map_map. reflexivity. }
  split.
  { intros Slice s plane calls. unfold Surfaces._renderCanvasSurface.
    destruct (Surfaces.el s) as [e |]; [| discriminate].
    destruct (DOM.isCanvasElement e); [| discriminate].
    intros H. injection H as <-.
    destruct (drawn_quads_legacy s plane) as (Hn & Hp).
    cbn [length]. rewrite Hn. split; [reflexivity |]. exact Hp. }
  intros r s s' painted H. apply render_Return in H as [H _]. exact H.
Qed.

(** One NaN at the centre of a 3 x 3 field: four quads are emitted, and the
    four of them have a non-finite coordinate; with the NaN at a corner of
    the field it is one of the four. *)
Lemma nonfinite_quads_are_painted_witness :
  length (GenerateVisData.generateVisData (Spec.visOptionsOver Spec.centreNaN))
  = ((3 - 1) * (3 - 1))%nat /\
  length (filter (fun q => negb (GenerateVisData.finiteQuad q))
            (GenerateVisData.generateVisData (Spec.visOptionsOver Spec.centreNaN)))
  = (Spec.cellsAlong 3 1 * Spec.cellsAlong 3 1)%nat /\
  length (filter (fun q => negb (GenerateVisData.finiteQuad q))
            (GenerateVisData.generateVisData (Spec.visOptionsOver Spec.cornerNaN)))
  = (Spec.cellsAlong 3 0 * Spec.cellsAlong 3 0)%nat.
Proof.
  assert (Hr1 : Spec.rectangular Spec.centreNaN 3 3) by (apply slice_3x3; reflexivity).
  assert (Hr0 : Spec.rectangular Spec.cornerNaN 3 3) by (apply slice_3x3; reflexivity).
  assert (H13 : (1 < 3)%nat) by lia.
  assert (H03 : (0 < 3)%nat) by lia.
  split; [| split].
  - exact (proj1 (nonfinite_quads_are_painted
                    (Spec.visOptionsOver Spec.centreNaN) 3 3 1 1
                    Hr1 H13 H13 centreNaN_only)).
  - exact (proj1 (proj2 (proj2 (proj2 (nonfinite_quads_are_painted
                                         (Spec.visOptionsOver Spec.centreNaN) 3 3 1 1
                                         Hr1 H13 H13 centreNaN_only))))).
  - exact (proj1 (proj2 (proj2 (proj2 (nonfinite_quads_are_painted
                                         (Spec.visOptionsOver Spec.cornerNaN) 3 3 0 0
                                         Hr0 H03 H03 cornerNaN_only))))).
Defined.
